(** * Secure TODO PWA: the context-gating engine of [src/App.tsx]

    A shallow embedding of the engine that [App.tsx] inlines in its React
    callbacks: the haversine distance, the geofence scan of
    [handlePositionUpdate], the visibility policy [isTaskVisible] with its
    complement count [getHiddenTasksCount], the authentication step
    [performBiometricAuth] with the operations it guards, the task mutations
    and the [localStorage] effects.

    Conventions of the embedding.
    - A JavaScript [number] that holds a coordinate, a radius or a distance
      is a real number ([R]); [Math.sin], [Math.cos], [Math.sqrt] and
      [Math.PI] are their real counterparts.  The geofence results that
      are stated over [R] use one fact of the distance, that it is zero
      between a point and itself.  What [calculateDistance] returns in
      double precision is the subject of the module [Binary64].
    - A [number] that holds an id ([Date.now()]) is an integer ([Z]).
    - A React state cell is a field of the record [App]; a handler is a
      function on [App] in a small state-and-exception monad, run to
      completion (handlers are serialized events).
    - Answers of the browser (dialogs, WebAuthn, the clock) during one
      handler run are read from a record [Platform]. *)

From Stdlib Require Import Reals Lra Lia ZArith List Bool String Ascii Arith.
From Stdlib Require Floats.
Import ListNotations.

Set Implicit Arguments.

(* ================================================================== *)
(** * Data model *)
(* ================================================================== *)

(** [Todo['category']]: '個人' | '学校' | '仕事' | 'その他'. *)
Inductive Category : Type :=
| Personal   (* '個人' *)
| School     (* '学校' *)
| Work       (* '仕事' *)
| Other.     (* 'その他' *)

(** [Location['type']]: 'home' | 'school' | 'work'. *)
Inductive LocationType : Type := tHome | tSchool | tWork.

(** [LocationStatus]: 'home' | 'school' | 'work' | 'outside'. *)
Inductive LocationStatus : Type := home | school | work | outside.

(** [PageType]. *)
Inductive PageType : Type := pMain | pAddTask | pLocations | pAccount | pSettings.

Definition Category_eqb (a b : Category) : bool :=
  match a, b with
  | Personal, Personal | School, School | Work, Work | Other, Other => true
  | _, _ => false
  end.

(** [interface Todo].  The two optional fields ([showDetail?], [completed?])
    are [None] when the property is absent ([undefined]). *)
Module Todo.
Record t : Type := mk {
  id : Z;
  title : string;
  detail : string;
  category : Category;
  createdAt : string;
  showDetail : option bool;
  completed : option bool
}.
End Todo.

(** [interface Location]. *)
Module Location.
Record t : Type := mk {
  id : Z;
  name : string;
  latitude : R;
  longitude : R;
  radius : R;
  type : LocationType
}.
End Location.

(** JavaScript truthiness of the values the handlers test. *)
Definition truthy_flag (b : option bool) : bool :=
  match b with Some true => true | _ => false end.

Definition truthy_string (s : string) : bool :=
  match s with EmptyString => false | _ => true end.

Definition truthy_item (v : option string) : bool :=
  match v with Some s => truthy_string s | None => false end.

Definition truthy_id (v : option Z) : bool :=
  match v with Some z => negb (z =? 0)%Z | None => false end.

(** [loc.type as LocationStatus]: the cast keeps the string. *)
Definition status_of_type (k : LocationType) : LocationStatus :=
  match k with tHome => home | tSchool => school | tWork => work end.

(* ================================================================== *)
(** * GeoMath: [calculateDistance] *)
(* ================================================================== *)

Module JSMath.
Local Open Scope R_scope.

(** [Math.atan2(y, x)] on reals: the angle of the point [(x, y)],
    in [(-PI, PI]], by the quadrant cases of ECMA-262. *)
Definition atan2 (y x : R) : R :=
  if Rlt_dec 0 x then atan (y / x)
  else if Rlt_dec x 0 then
         (if Rle_dec 0 y then atan (y / x) + PI else atan (y / x) - PI)
  else if Rlt_dec 0 y then PI / 2
  else if Rlt_dec y 0 then - (PI / 2)
  else 0.
End JSMath.

Section GeoMath.
Local Open Scope R_scope.

Definition calculateDistance (lat1 lon1 lat2 lon2 : R) : R :=
  let R0 := 6371000 in
  let phi1 := lat1 * PI / 180 in
  let phi2 := lat2 * PI / 180 in
  let dphi := (lat2 - lat1) * PI / 180 in
  let dlambda := (lon2 - lon1) * PI / 180 in
  let a := sin (dphi / 2) * sin (dphi / 2) +
           cos phi1 * cos phi2 *
           sin (dlambda / 2) * sin (dlambda / 2) in
  let c := 2 * JSMath.atan2 (sqrt a) (sqrt (1 - a)) in
  R0 * c.

(** The test of the geofence scan: [distance <= loc.radius]. *)
Definition within (latitude longitude : R) (loc : Location.t) : bool :=
  if Rle_dec (calculateDistance latitude longitude
                (Location.latitude loc) (Location.longitude loc))
             (Location.radius loc)
  then true else false.

(** The loop of [handlePositionUpdate]:
    [let status = 'outside'; for (const loc of registeredLocations)
       { if (distance <= loc.radius) { status = loc.type; break; } }]. *)
Fixpoint scanLocations (latitude longitude : R)
         (registeredLocations : list Location.t) : LocationStatus :=
  match registeredLocations with
  | [] => outside
  | loc :: rest =>
      if within latitude longitude loc
      then status_of_type (Location.type loc)
      else scanLocations latitude longitude rest
  end.
End GeoMath.

(* ================================================================== *)
(** * VisibilityPolicy: [isTaskVisible] and [getHiddenTasksCount] *)
(* ================================================================== *)

(** The object [counts] of [getHiddenTasksCount]: one number per key. *)
Record Counts : Type := mkCounts {
  nPersonal : nat;   (* counts['個人'] *)
  nSchool : nat;     (* counts['学校'] *)
  nWork : nat;       (* counts['仕事'] *)
  nOther : nat       (* counts['その他'] *)
}.

(** [counts[k]]. *)
Definition count_of (c : Counts) (k : Category) : nat :=
  match k with
  | Personal => nPersonal c
  | School => nSchool c
  | Work => nWork c
  | Other => nOther c
  end.

(** [counts[k]++]. *)
Definition increment (c : Counts) (k : Category) : Counts :=
  match k with
  | Personal => mkCounts (S (nPersonal c)) (nSchool c) (nWork c) (nOther c)
  | School => mkCounts (nPersonal c) (S (nSchool c)) (nWork c) (nOther c)
  | Work => mkCounts (nPersonal c) (nSchool c) (S (nWork c)) (nOther c)
  | Other => mkCounts (nPersonal c) (nSchool c) (nWork c) (S (nOther c))
  end.

(** [Object.values(counts)] added up. *)
Definition total (c : Counts) : nat :=
  nPersonal c + nSchool c + nWork c + nOther c.

Section Policy.
(** The two state cells the closures read. *)
Variable privateMode : bool.
Variable locationStatus : LocationStatus.

(** The [default:] branch of the [switch] is not reachable: the four
    cases cover [LocationStatus]. *)
Definition isTaskVisible (todo : Todo.t) : bool :=
  if privateMode then true
  else
    match locationStatus with
    | home => true
    | school =>
        Category_eqb (Todo.category todo) School
        || Category_eqb (Todo.category todo) Other
    | work =>
        Category_eqb (Todo.category todo) Work
        || Category_eqb (Todo.category todo) Other
    | outside => Category_eqb (Todo.category todo) Other
    end.

(** The callback of [todos.forEach]:
    [if (!isTaskVisible(todo)) counts[todo.category]++]. *)
Definition countStep (counts : Counts) (todo : Todo.t) : Counts :=
  if negb (isTaskVisible todo)
  then increment counts (Todo.category todo)
  else counts.

Definition getHiddenTasksCount (todos : list Todo.t) : Counts :=
  fold_left countStep todos (mkCounts 0 0 0 0).

(** A task of category [k] that is hidden. *)
Definition hiddenOf (k : Category) (todo : Todo.t) : bool :=
  (Category_eqb (Todo.category todo) k && negb (isTaskVisible todo))%bool.
End Policy.

(* ================================================================== *)
(** * The component state and the persistent store *)
(* ================================================================== *)

(** [localStorage], by key.  A key holds the value whose JSON text the
    code stores ([JSON.parse (JSON.stringify v)] is [v] for these
    values); [None] is an absent key ([getItem] returns [null]). *)
Record Storage : Type := mkStorage {
  ls_todos : option (list Todo.t);                (* 'todos' *)
  ls_biometricEnabled : option bool;              (* 'biometricEnabled' *)
  ls_locations : option (list Location.t);        (* 'locations' *)
  ls_webauthn_credential_id : option string;      (* 'webauthn_credential_id' *)
  ls_webauthn_raw_id : option string              (* 'webauthn_raw_id' *)
}.

(** The [useState] cells of [App] (the two cells that only fold the menu
    and the GPS panel, [menuOpen] and [debugMode], are left out), and the
    store the effects write. *)
Record App : Type := mkApp {
  currentPage : PageType;
  todos : list Todo.t;
  inputTitle : string;
  inputDetail : string;
  category : Category;
  editingTodo : option Z;
  editTitle : string;
  editDetail : string;
  editCategory : Category;
  privateMode : bool;
  biometricEnabled : bool;
  authenticating : bool;
  registeredLocations : list Location.t;
  currentLocation : option (R * R);
  locationStatus : LocationStatus;
  newLocationName : string;
  newLocationType : LocationType;
  newLocationRadius : R;
  gpsAccuracy : option R;
  localStorage : Storage
}.

Definition with_currentPage (v : PageType) (s : App) : App :=
  mkApp v (todos s) (inputTitle s) (inputDetail s) (category s)
        (editingTodo s) (editTitle s) (editDetail s) (editCategory s)
        (privateMode s) (biometricEnabled s) (authenticating s)
        (registeredLocations s) (currentLocation s) (locationStatus s)
        (newLocationName s) (newLocationType s) (newLocationRadius s)
        (gpsAccuracy s) (localStorage s).

Definition with_todos (v : list Todo.t) (s : App) : App :=
  mkApp (currentPage s) v (inputTitle s) (inputDetail s) (category s)
        (editingTodo s) (editTitle s) (editDetail s) (editCategory s)
        (privateMode s) (biometricEnabled s) (authenticating s)
        (registeredLocations s) (currentLocation s) (locationStatus s)
        (newLocationName s) (newLocationType s) (newLocationRadius s)
        (gpsAccuracy s) (localStorage s).

Definition with_inputTitle (v : string) (s : App) : App :=
  mkApp (currentPage s) (todos s) v (inputDetail s) (category s)
        (editingTodo s) (editTitle s) (editDetail s) (editCategory s)
        (privateMode s) (biometricEnabled s) (authenticating s)
        (registeredLocations s) (currentLocation s) (locationStatus s)
        (newLocationName s) (newLocationType s) (newLocationRadius s)
        (gpsAccuracy s) (localStorage s).

Definition with_inputDetail (v : string) (s : App) : App :=
  mkApp (currentPage s) (todos s) (inputTitle s) v (category s)
        (editingTodo s) (editTitle s) (editDetail s) (editCategory s)
        (privateMode s) (biometricEnabled s) (authenticating s)
        (registeredLocations s) (currentLocation s) (locationStatus s)
        (newLocationName s) (newLocationType s) (newLocationRadius s)
        (gpsAccuracy s) (localStorage s).

Definition with_category (v : Category) (s : App) : App :=
  mkApp (currentPage s) (todos s) (inputTitle s) (inputDetail s) v
        (editingTodo s) (editTitle s) (editDetail s) (editCategory s)
        (privateMode s) (biometricEnabled s) (authenticating s)
        (registeredLocations s) (currentLocation s) (locationStatus s)
        (newLocationName s) (newLocationType s) (newLocationRadius s)
        (gpsAccuracy s) (localStorage s).

Definition with_editingTodo (v : option Z) (s : App) : App :=
  mkApp (currentPage s) (todos s) (inputTitle s) (inputDetail s) (category s)
        v (editTitle s) (editDetail s) (editCategory s)
        (privateMode s) (biometricEnabled s) (authenticating s)
        (registeredLocations s) (currentLocation s) (locationStatus s)
        (newLocationName s) (newLocationType s) (newLocationRadius s)
        (gpsAccuracy s) (localStorage s).

Definition with_editTitle (v : string) (s : App) : App :=
  mkApp (currentPage s) (todos s) (inputTitle s) (inputDetail s) (category s)
        (editingTodo s) v (editDetail s) (editCategory s)
        (privateMode s) (biometricEnabled s) (authenticating s)
        (registeredLocations s) (currentLocation s) (locationStatus s)
        (newLocationName s) (newLocationType s) (newLocationRadius s)
        (gpsAccuracy s) (localStorage s).

Definition with_editDetail (v : string) (s : App) : App :=
  mkApp (currentPage s) (todos s) (inputTitle s) (inputDetail s) (category s)
        (editingTodo s) (editTitle s) v (editCategory s)
        (privateMode s) (biometricEnabled s) (authenticating s)
        (registeredLocations s) (currentLocation s) (locationStatus s)
        (newLocationName s) (newLocationType s) (newLocationRadius s)
        (gpsAccuracy s) (localStorage s).

Definition with_editCategory (v : Category) (s : App) : App :=
  mkApp (currentPage s) (todos s) (inputTitle s) (inputDetail s) (category s)
        (editingTodo s) (editTitle s) (editDetail s) v
        (privateMode s) (biometricEnabled s) (authenticating s)
        (registeredLocations s) (currentLocation s) (locationStatus s)
        (newLocationName s) (newLocationType s) (newLocationRadius s)
        (gpsAccuracy s) (localStorage s).

Definition with_privateMode (v : bool) (s : App) : App :=
  mkApp (currentPage s) (todos s) (inputTitle s) (inputDetail s) (category s)
        (editingTodo s) (editTitle s) (editDetail s) (editCategory s)
        v (biometricEnabled s) (authenticating s)
        (registeredLocations s) (currentLocation s) (locationStatus s)
        (newLocationName s) (newLocationType s) (newLocationRadius s)
        (gpsAccuracy s) (localStorage s).

Definition with_biometricEnabled (v : bool) (s : App) : App :=
  mkApp (currentPage s) (todos s) (inputTitle s) (inputDetail s) (category s)
        (editingTodo s) (editTitle s) (editDetail s) (editCategory s)
        (privateMode s) v (authenticating s)
        (registeredLocations s) (currentLocation s) (locationStatus s)
        (newLocationName s) (newLocationType s) (newLocationRadius s)
        (gpsAccuracy s) (localStorage s).

Definition with_authenticating (v : bool) (s : App) : App :=
  mkApp (currentPage s) (todos s) (inputTitle s) (inputDetail s) (category s)
        (editingTodo s) (editTitle s) (editDetail s) (editCategory s)
        (privateMode s) (biometricEnabled s) v
        (registeredLocations s) (currentLocation s) (locationStatus s)
        (newLocationName s) (newLocationType s) (newLocationRadius s)
        (gpsAccuracy s) (localStorage s).

Definition with_registeredLocations (v : list Location.t) (s : App) : App :=
  mkApp (currentPage s) (todos s) (inputTitle s) (inputDetail s) (category s)
        (editingTodo s) (editTitle s) (editDetail s) (editCategory s)
        (privateMode s) (biometricEnabled s) (authenticating s)
        v (currentLocation s) (locationStatus s)
        (newLocationName s) (newLocationType s) (newLocationRadius s)
        (gpsAccuracy s) (localStorage s).

Definition with_currentLocation (v : option (R * R)) (s : App) : App :=
  mkApp (currentPage s) (todos s) (inputTitle s) (inputDetail s) (category s)
        (editingTodo s) (editTitle s) (editDetail s) (editCategory s)
        (privateMode s) (biometricEnabled s) (authenticating s)
        (registeredLocations s) v (locationStatus s)
        (newLocationName s) (newLocationType s) (newLocationRadius s)
        (gpsAccuracy s) (localStorage s).

Definition with_locationStatus (v : LocationStatus) (s : App) : App :=
  mkApp (currentPage s) (todos s) (inputTitle s) (inputDetail s) (category s)
        (editingTodo s) (editTitle s) (editDetail s) (editCategory s)
        (privateMode s) (biometricEnabled s) (authenticating s)
        (registeredLocations s) (currentLocation s) v
        (newLocationName s) (newLocationType s) (newLocationRadius s)
        (gpsAccuracy s) (localStorage s).

Definition with_newLocationName (v : string) (s : App) : App :=
  mkApp (currentPage s) (todos s) (inputTitle s) (inputDetail s) (category s)
        (editingTodo s) (editTitle s) (editDetail s) (editCategory s)
        (privateMode s) (biometricEnabled s) (authenticating s)
        (registeredLocations s) (currentLocation s) (locationStatus s)
        v (newLocationType s) (newLocationRadius s)
        (gpsAccuracy s) (localStorage s).

Definition with_newLocationType (v : LocationType) (s : App) : App :=
  mkApp (currentPage s) (todos s) (inputTitle s) (inputDetail s) (category s)
        (editingTodo s) (editTitle s) (editDetail s) (editCategory s)
        (privateMode s) (biometricEnabled s) (authenticating s)
        (registeredLocations s) (currentLocation s) (locationStatus s)
        (newLocationName s) v (newLocationRadius s)
        (gpsAccuracy s) (localStorage s).

Definition with_newLocationRadius (v : R) (s : App) : App :=
  mkApp (currentPage s) (todos s) (inputTitle s) (inputDetail s) (category s)
        (editingTodo s) (editTitle s) (editDetail s) (editCategory s)
        (privateMode s) (biometricEnabled s) (authenticating s)
        (registeredLocations s) (currentLocation s) (locationStatus s)
        (newLocationName s) (newLocationType s) v
        (gpsAccuracy s) (localStorage s).

Definition with_gpsAccuracy (v : option R) (s : App) : App :=
  mkApp (currentPage s) (todos s) (inputTitle s) (inputDetail s) (category s)
        (editingTodo s) (editTitle s) (editDetail s) (editCategory s)
        (privateMode s) (biometricEnabled s) (authenticating s)
        (registeredLocations s) (currentLocation s) (locationStatus s)
        (newLocationName s) (newLocationType s) (newLocationRadius s)
        v (localStorage s).

Definition with_localStorage (v : Storage) (s : App) : App :=
  mkApp (currentPage s) (todos s) (inputTitle s) (inputDetail s) (category s)
        (editingTodo s) (editTitle s) (editDetail s) (editCategory s)
        (privateMode s) (biometricEnabled s) (authenticating s)
        (registeredLocations s) (currentLocation s) (locationStatus s)
        (newLocationName s) (newLocationType s) (newLocationRadius s)
        (gpsAccuracy s) v.

(** [localStorage.setItem] / [removeItem], by key. *)
Definition store_todos (v : list Todo.t) (ls : Storage) : Storage :=
  mkStorage (Some v) (ls_biometricEnabled ls) (ls_locations ls)
            (ls_webauthn_credential_id ls) (ls_webauthn_raw_id ls).

Definition store_biometricEnabled (v : bool) (ls : Storage) : Storage :=
  mkStorage (ls_todos ls) (Some v) (ls_locations ls)
            (ls_webauthn_credential_id ls) (ls_webauthn_raw_id ls).

Definition store_locations (v : list Location.t) (ls : Storage) : Storage :=
  mkStorage (ls_todos ls) (ls_biometricEnabled ls) (Some v)
            (ls_webauthn_credential_id ls) (ls_webauthn_raw_id ls).

Definition store_webauthn_credential_id (v : option string) (ls : Storage)
  : Storage :=
  mkStorage (ls_todos ls) (ls_biometricEnabled ls) (ls_locations ls)
            v (ls_webauthn_raw_id ls).

Definition store_webauthn_raw_id (v : option string) (ls : Storage)
  : Storage :=
  mkStorage (ls_todos ls) (ls_biometricEnabled ls) (ls_locations ls)
            (ls_webauthn_credential_id ls) v.

(** ** The three saving effects

    [useEffect(() => { if (todos.length > 0) setItem('todos', ...) }, [todos])]
    and its two siblings.  An effect runs after the render in which its
    dependency changed, so a state setter is followed by its effect. *)

Definition saveTodosEffect (s : App) : App :=
  if (0 <? List.length (todos s))%nat
  then with_localStorage (store_todos (todos s) (localStorage s)) s
  else s.

Definition saveLocationsEffect (s : App) : App :=
  if (0 <? List.length (registeredLocations s))%nat
  then with_localStorage
         (store_locations (registeredLocations s) (localStorage s)) s
  else s.

Definition saveBiometricEffect (s : App) : App :=
  with_localStorage
    (store_biometricEnabled (biometricEnabled s) (localStorage s)) s.

(** [setTodos(v)]: every caller passes a fresh array, so the dependency
    [todos] always changes and the effect always runs. *)
Definition setTodos (v : list Todo.t) (s : App) : App :=
  saveTodosEffect (with_todos v s).

Definition setRegisteredLocations (v : list Location.t) (s : App) : App :=
  saveLocationsEffect (with_registeredLocations v s).

(** [setBiometricEnabled(v)]: a boolean equal to the current one leaves
    the dependency unchanged, and the effect does not run. *)
Definition setBiometricEnabled (v : bool) (s : App) : App :=
  if Bool.eqb v (biometricEnabled s) then s
  else saveBiometricEffect (with_biometricEnabled v s).

(* ================================================================== *)
(** * The browser, as one handler run sees it *)
(* ================================================================== *)

(** The [window.confirm] dialogs of the source, by message. *)
Inductive Prompt : Type :=
| AskSimpleAuth (action : string)
    (* `${action}のために認証を実行しますか？...` *)
| AskUseSimpleAuth      (* '生体認証に失敗しました。簡易認証を使用しますか？' *)
| AskContinueAuth       (* '認証を続行しますか？' *)
| AskDeleteTask         (* 'このタスクを削除しますか？' *)
| AskDeleteCompleted (completedCount : nat)
    (* `完了した${completedCount}件のタスクを削除しますか？` *)
| AskResetCredential.   (* '生体認証情報をリセットしますか？' *)

(** What building the creation options and
    [await navigator.credentials.create(...)] do: a credential
    ([credential.id], and the text [btoa(String.fromCharCode(...rawId))]
    the code stores), [null], or an exception. *)
Inductive CreateOutcome : Type :=
| Created (id rawIdText : string)
| CreatedNull
| CreateRejected.

(** What building the request from the stored raw id ([atob]) and
    [await navigator.credentials.get(...)] do: an assertion, [null], or
    an exception. *)
Inductive GetOutcome : Type :=
| Asserted
| AssertedNull
| GetRejected.

Record Platform : Type := mkPlatform {
  PublicKeyCredential_defined : bool;   (* window.PublicKeyCredential !== undefined *)
  credentials_create : CreateOutcome;
  credentials_get : GetOutcome;
  window_confirm : Prompt -> bool;
  Date_now : Z;                         (* Date.now() *)
  Date_toISOString : string             (* new Date().toISOString() *)
}.

(** The [action] strings the callers pass. *)
Definition ACTION_SETUP : string := "生体認証を設定".
Definition ACTION_PRIVATE : string := "プライベートモードを有効化".
Definition ACTION_REGISTER : string := "場所を登録".
Definition ACTION_DELETE : string := "場所を削除".

(** ** [String.prototype.trim], as far as the handlers use it

    The handlers only test [s.trim()] for truthiness: whether [s] has a
    character that is not white space.  Strings are UTF-8 here; the white
    space and line terminators of ECMA-262 are matched by their bytes. *)
Definition byte_is (c : ascii) (n : nat) : bool := (nat_of_ascii c =? n)%nat.

Fixpoint all_whitespace (s : string) : bool :=
  match s with
  | EmptyString => true
  | String c rest =>
      if (byte_is c 9 || byte_is c 10 || byte_is c 11 || byte_is c 12
          || byte_is c 13 || byte_is c 32)%bool
      then all_whitespace rest
      else
        match rest with
        | String c2 rest2 =>
            if (byte_is c 194 && byte_is c2 160)%bool          (* U+00A0 *)
            then all_whitespace rest2
            else
              match rest2 with
              | String c3 rest3 =>
                  let n2 := nat_of_ascii c2 in
                  let n3 := nat_of_ascii c3 in
                  if (byte_is c 225 && (n2 =? 154) && (n3 =? 128)   (* U+1680 *)
                      || byte_is c 226 && (n2 =? 128)
                         && ((128 <=? n3) && (n3 <=? 138)          (* U+2000-200A *)
                             || (n3 =? 168) || (n3 =? 169)         (* U+2028/9 *)
                             || (n3 =? 175))                       (* U+202F *)
                      || byte_is c 226 && (n2 =? 129) && (n3 =? 159) (* U+205F *)
                      || byte_is c 227 && (n2 =? 128) && (n3 =? 128) (* U+3000 *)
                      || byte_is c 239 && (n2 =? 187) && (n3 =? 191) (* U+FEFF *)
                     )%bool%nat
                  then all_whitespace rest3
                  else false
              | EmptyString => false
              end
        | EmptyString => false
        end
  end.

(** [s.trim()] is truthy. *)
Definition trim_truthy (s : string) : bool := negb (all_whitespace s).

(* ================================================================== *)
(** * Handlers *)
(* ================================================================== *)

(** How a block ends: normally with a value, or by a thrown exception
    (for an [async] function: a rejected promise). *)
Inductive Completion (A : Type) : Type :=
| Normal (a : A)
| Thrown.
Arguments Thrown {A}.

Definition M (A : Type) : Type := App -> Completion A * App.

Definition ret {A : Type} (a : A) : M A := fun s => (Normal a, s).

Definition bind {A B : Type} (m : M A) (k : A -> M B) : M B :=
  fun s =>
    match m s with
    | (Normal a, s') => k a s'
    | (Thrown, s') => (Thrown, s')
    end.

Definition throw {A : Type} : M A := fun s => (Thrown, s).

(** [try { body } catch (e) { handler }]. *)
Definition try_catch {A : Type} (body handler : M A) : M A :=
  fun s =>
    match body s with
    | (Normal a, s') => (Normal a, s')
    | (Thrown, s') => handler s'
    end.

(** [try { body } finally { fin }]. *)
Definition try_finally {A : Type} (body : M A) (fin : M unit) : M A :=
  fun s =>
    match body s with
    | (r, s') =>
        match fin s' with
        | (Normal _, s'') => (r, s'')
        | (Thrown, s'') => (Thrown, s'')
        end
    end.

(** Read the cells (the closure of the current render). *)
Definition get : M App := fun s => (Normal s, s).

(** A state setter or a store write. *)
Definition update (f : App -> App) : M unit := fun s => (Normal tt, f s).

Declare Scope handler_scope.
Delimit Scope handler_scope with handler.
Notation "x <- m ;; k" := (bind m (fun x => k))
  (at level 61, m at next level, right associativity) : handler_scope.
Notation "m ;;; k" := (bind m (fun _ => k))
  (at level 61, right associativity) : handler_scope.
Local Open Scope handler_scope.

Definition getItem {A : Type} (key : Storage -> option A) : M (option A) :=
  fun s => (Normal (key (localStorage s)), s).

Definition setItem (write : Storage -> Storage) : M unit :=
  update (fun s => with_localStorage (write (localStorage s)) s).

(** The [return] statements of [performBiometricAuth]. *)
Inductive ReturnSite : Type :=
| AtRegistered   (* [return true] after [navigator.credentials.create] *)
| AtAsserted     (* [return true] after [navigator.credentials.get] *)
| AtSimpleAuth   (* [return result] of the fallback dialog *)
| AtContinued    (* [return window.confirm('認証を続行しますか？')] in [catch] *)
| AtDeclined.    (* [return false] in [catch] *)

(** The two assurance levels: the platform's strong authentication, and
    the confirmation dialogs. *)
Definition strongSite (site : ReturnSite) : bool :=
  match site with
  | AtRegistered | AtAsserted => true
  | _ => false
  end.

Section Handlers.
Variable P : Platform.

Definition confirm (q : Prompt) : M bool := ret (window_confirm P q).

Definition isWebAuthnAvailable : bool := PublicKeyCredential_defined P.

(** [await navigator.credentials.create(...)] inside
    [try { ... } catch (e) { console.error(...); throw e; }]. *)
Definition createCredential : M (option (string * string)) :=
  try_catch
    (match credentials_create P with
     | Created id raw => ret (Some (id, raw))
     | CreatedNull => ret None
     | CreateRejected => throw
     end)
    throw.

(** [await navigator.credentials.get(...)] inside its rethrowing
    [try]/[catch]; the result is whether an assertion came back. *)
Definition getAssertion : M bool :=
  try_catch
    (match credentials_get P with
     | Asserted => ret true
     | AssertedNull => ret false
     | GetRejected => throw
     end)
    throw.

(** The [if (isWebAuthnAvailable()) { ... }] block of
    [performBiometricAuth]: [Some (site, b)] when it executes the
    [return b] at [site], [None] when control falls out of it to the
    fallback dialog. *)
Definition webAuthnBlock (action : string) : M (option (ReturnSite * bool)) :=
  if isWebAuthnAvailable then
    credentialId <- getItem ls_webauthn_credential_id ;;
    if (String.eqb action ACTION_SETUP && negb (truthy_item credentialId))%bool
    then
      credential <- createCredential ;;
      match credential with
      | Some (id, raw) =>
          setItem (store_webauthn_credential_id (Some id)) ;;;
          setItem (store_webauthn_raw_id (Some raw)) ;;;
          ret (Some (AtRegistered, true))
      | None => ret None
      end
    else if truthy_item credentialId then
      rawId <- getItem ls_webauthn_raw_id ;;
      if negb (truthy_item rawId) then throw
      else
        assertion <- getAssertion ;;
        if assertion then ret (Some (AtAsserted, true)) else ret None
    else ret None
  else ret None.

(** The body of [performBiometricAuth], returning with the boolean the
    [return] statement that produced it. *)
Definition performBiometricAuthAt (action : string) : M (ReturnSite * bool) :=
  update (with_authenticating true) ;;;
  try_finally
    (try_catch
       (returned <- webAuthnBlock action ;;
        match returned with
        | Some result => ret result
        | None =>
            result <- confirm (AskSimpleAuth action) ;;
            ret (AtSimpleAuth, result)
        end)
       (useSimple <- confirm AskUseSimpleAuth ;;
        if useSimple
        then (result <- confirm AskContinueAuth ;; ret (AtContinued, result))
        else ret (AtDeclined, false)))
    (update (with_authenticating false)).

(** [performBiometricAuth]: its promise resolves to the boolean alone. *)
Definition performBiometricAuth (action : string) : M bool :=
  returned <- performBiometricAuthAt action ;;
  ret (snd returned).

Definition enableBiometric : M unit :=
  success <- performBiometricAuth ACTION_SETUP ;;
  if success then update (setBiometricEnabled true) else ret tt.

Definition togglePrivateMode : M unit :=
  s <- get ;;
  if negb (privateMode s) then
    if biometricEnabled s then
      success <- performBiometricAuth ACTION_PRIVATE ;;
      if success then update (with_privateMode true) else ret tt
    else
      update (with_currentPage pSettings)
  else
    update (with_privateMode false).
End Handlers.

(** ** TaskStore: the task mutations *)

(** [{ ...todo, completed: v }] and its siblings. *)
Definition with_completed (v : option bool) (todo : Todo.t) : Todo.t :=
  Todo.mk (Todo.id todo) (Todo.title todo) (Todo.detail todo)
          (Todo.category todo) (Todo.createdAt todo) (Todo.showDetail todo) v.

Definition with_showDetail (v : option bool) (todo : Todo.t) : Todo.t :=
  Todo.mk (Todo.id todo) (Todo.title todo) (Todo.detail todo)
          (Todo.category todo) (Todo.createdAt todo) v (Todo.completed todo).

Definition with_edit (title detail : string) (category : Category)
           (todo : Todo.t) : Todo.t :=
  Todo.mk (Todo.id todo) title detail category
          (Todo.createdAt todo) (Todo.showDetail todo) (Todo.completed todo).

(** The arrays the handlers hand to [setTodos]. *)

(** [todo => todo.id === id
       ? { ...todo, completed: !todo.completed } : todo]. *)
Definition toggled (id : Z) (todo : Todo.t) : Todo.t :=
  if (Todo.id todo =? id)%Z
  then with_completed (Some (negb (truthy_flag (Todo.completed todo)))) todo
  else todo.

(** [todos.map(...)] with that callback. *)
Definition toggleCompleteList (id : Z) (todos : list Todo.t) : list Todo.t :=
  map (toggled id) todos.

(** [todos.map(todo => todo.id === id
       ? { ...todo, showDetail: !todo.showDetail } : todo)]. *)
Definition toggleDetailList (id : Z) (todos : list Todo.t) : list Todo.t :=
  map (fun todo =>
         if (Todo.id todo =? id)%Z
         then with_showDetail (Some (negb (truthy_flag (Todo.showDetail todo)))) todo
         else todo)
      todos.

(** [todos.map(todo => todo.id === editingTodo
       ? { ...todo, title: editTitle, detail: editDetail,
           category: editCategory } : todo)]. *)
Definition saveEditList (editingTodo : Z) (editTitle editDetail : string)
           (editCategory : Category) (todos : list Todo.t) : list Todo.t :=
  map (fun todo =>
         if (Todo.id todo =? editingTodo)%Z
         then with_edit editTitle editDetail editCategory todo
         else todo)
      todos.

(** [todos.filter(todo => todo.id !== id)]. *)
Definition deleteTodoList (id : Z) (todos : list Todo.t) : list Todo.t :=
  filter (fun todo => negb (Todo.id todo =? id)%Z) todos.

(** [todos.filter(todo => !todo.completed)]. *)
Definition deleteCompletedList (todos : list Todo.t) : list Todo.t :=
  filter (fun todo => negb (truthy_flag (Todo.completed todo))) todos.

(** [registeredLocations.filter(loc => loc.id !== id)]. *)
Definition deleteLocationList (id : Z) (locations : list Location.t)
  : list Location.t :=
  filter (fun loc => negb (Location.id loc =? id)%Z) locations.

Section TaskHandlers.
Variable P : Platform.

Definition toggleComplete (id : Z) : M unit :=
  s <- get ;;
  update (setTodos (toggleCompleteList id (todos s))).

Definition addTodo : M unit :=
  s <- get ;;
  if trim_truthy (inputTitle s) then
    let newTodo :=
      Todo.mk (Date_now P) (inputTitle s) (inputDetail s) (category s)
              (Date_toISOString P) (Some false) (Some false) in
    update (setTodos (todos s ++ [newTodo])) ;;;
    update (with_inputTitle EmptyString) ;;;
    update (with_inputDetail EmptyString) ;;;
    update (with_currentPage pMain)
  else ret tt.

Definition startEdit (todo : Todo.t) : M unit :=
  update (with_editingTodo (Some (Todo.id todo))) ;;;
  update (with_editTitle (Todo.title todo)) ;;;
  update (with_editDetail (Todo.detail todo)) ;;;
  update (with_editCategory (Todo.category todo)).

Definition saveEdit : M unit :=
  s <- get ;;
  if (trim_truthy (editTitle s) && truthy_id (editingTodo s))%bool then
    match editingTodo s with
    | Some editing =>
        update (setTodos (saveEditList editing (editTitle s) (editDetail s)
                                       (editCategory s) (todos s))) ;;;
        update (with_editingTodo None) ;;;
        update (with_editTitle EmptyString) ;;;
        update (with_editDetail EmptyString)
    | None => ret tt
    end
  else ret tt.

Definition deleteTodo (id : Z) : M unit :=
  s <- get ;;
  ok <- confirm P AskDeleteTask ;;
  if ok then update (setTodos (deleteTodoList id (todos s))) else ret tt.

Definition toggleDetail (id : Z) : M unit :=
  s <- get ;;
  update (setTodos (toggleDetailList id (todos s))).

Definition deleteAllCompleted : M unit :=
  s <- get ;;
  let completedCount :=
    List.length (filter (fun todo => truthy_flag (Todo.completed todo)) (todos s)) in
  if (completedCount =? 0)%nat then ret tt
  else
    ok <- confirm P (AskDeleteCompleted completedCount) ;;
    if ok then update (setTodos (deleteCompletedList (todos s))) else ret tt.

(** ** LocationResolver and GeofenceStore *)

Definition handlePositionUpdate (latitude longitude accuracy : R) : M unit :=
  s <- get ;;
  update (with_currentLocation (Some (latitude, longitude))) ;;;
  update (with_gpsAccuracy (Some accuracy)) ;;;
  update (with_locationStatus
            (scanLocations latitude longitude (registeredLocations s))).

Definition registerCurrentLocation : M unit :=
  s <- get ;;
  match currentLocation s with
  | Some (lat, lon) =>
      if truthy_string (newLocationName s) then
        if biometricEnabled s then
          success <- performBiometricAuth P ACTION_REGISTER ;;
          if negb success then ret tt
          else
            let newLocation :=
              Location.mk (Date_now P) (newLocationName s) lat lon
                          (newLocationRadius s) (newLocationType s) in
            update (setRegisteredLocations
                      (registeredLocations s ++ [newLocation])) ;;;
            update (with_newLocationName EmptyString) ;;;
            update (with_newLocationRadius 150%R)
        else
          update (with_currentPage pSettings)
      else ret tt
  | None => ret tt
  end.

Definition deleteLocation (id : Z) : M unit :=
  s <- get ;;
  if biometricEnabled s then
    success <- performBiometricAuth P ACTION_DELETE ;;
    if negb success then ret tt
    else
      update (setRegisteredLocations
                (deleteLocationList id (registeredLocations s)))
  else
    update (with_currentPage pSettings).

(** ** The reset button of the settings page *)

(** The button is rendered under
    [biometricEnabled && localStorage.getItem('webauthn_credential_id')]. *)
Definition resetButtonRendered (s : App) : bool :=
  (biometricEnabled s
   && truthy_item (ls_webauthn_credential_id (localStorage s)))%bool.

(** Its [onClick]. *)
Definition resetCredential : M unit :=
  ok <- confirm P AskResetCredential ;;
  if ok then
    setItem (store_webauthn_credential_id None) ;;;
    setItem (store_webauthn_raw_id None) ;;;
    update (setBiometricEnabled false)
  else ret tt.

(** ** Mounting: the initial cells and the first effects *)

Definition initialApp (ls : Storage) : App :=
  mkApp pMain [] EmptyString EmptyString Other
        None EmptyString EmptyString Other
        false false false
        [] None outside
        EmptyString tHome 150%R
        None ls.

Definition jaist : Location.t :=
  Location.mk (Date_now P) "JAIST（北陸先端科学技術大学院大学）"
              36.4507%R 136.5933%R 200%R tSchool.

(** The loading effect reads the store and queues its setters (writing
    the default zone when 'locations' is absent); the saving effects
    then run on the initial cells; the queued setters are applied in the
    next render, each followed by its saving effect. *)
Definition mount (ls : Storage) : App :=
  let savedTodos := ls_todos ls in
  let savedBiometric := ls_biometricEnabled ls in
  let savedLocations := ls_locations ls in
  let s0 := initialApp ls in
  let s1 := match savedLocations with
            | Some _ => s0
            | None => with_localStorage
                        (store_locations [jaist] (localStorage s0)) s0
            end in
  let s2 := saveBiometricEffect (saveLocationsEffect (saveTodosEffect s1)) in
  let s3 := match savedTodos with
            | Some saved => setTodos saved s2
            | None => s2
            end in
  let s4 := match savedBiometric with
            | Some saved => setBiometricEnabled saved s3
            | None => s3
            end in
  setRegisteredLocations
    (match savedLocations with Some saved => saved | None => [jaist] end)
    s4.
End TaskHandlers.

(** ** Events *)

(** What the user and the geolocation watch can ask of the component. *)
Inductive Intent : Type :=
| INavigate (page : PageType)
| ISetInputTitle (v : string)
| ISetInputDetail (v : string)
| ISetCategory (v : Category)
| IAddTodo
| IToggleComplete (id : Z)
| IToggleDetail (id : Z)
| IStartEdit (todo : Todo.t)
| ISetEditTitle (v : string)
| ISetEditDetail (v : string)
| ISetEditCategory (v : Category)
| ISaveEdit
| ICancelEdit
| IDeleteTodo (id : Z)
| IDeleteAllCompleted
| ITogglePrivateMode
| IEnableBiometric
| IResetCredential
| IPositionUpdate (latitude longitude accuracy : R)
| ISetNewLocationName (v : string)
| ISetNewLocationType (v : LocationType)
| ISetNewLocationRadius (v : R)
| IRegisterCurrentLocation
| IDeleteLocation (id : Z).

Definition handle (P : Platform) (i : Intent) : M unit :=
  match i with
  | INavigate page => update (with_currentPage page)
  | ISetInputTitle v => update (with_inputTitle v)
  | ISetInputDetail v => update (with_inputDetail v)
  | ISetCategory v => update (with_category v)
  | IAddTodo => addTodo P
  | IToggleComplete id => toggleComplete id
  | IToggleDetail id => toggleDetail id
  | IStartEdit todo => startEdit todo
  | ISetEditTitle v => update (with_editTitle v)
  | ISetEditDetail v => update (with_editDetail v)
  | ISetEditCategory v => update (with_editCategory v)
  | ISaveEdit => saveEdit
  | ICancelEdit => update (with_editingTodo None)
  | IDeleteTodo id => deleteTodo P id
  | IDeleteAllCompleted => deleteAllCompleted P
  | ITogglePrivateMode => togglePrivateMode P
  | IEnableBiometric => enableBiometric P
  | IResetCredential => resetCredential P
  | IPositionUpdate latitude longitude accuracy =>
      handlePositionUpdate latitude longitude accuracy
  | ISetNewLocationName v => update (with_newLocationName v)
  | ISetNewLocationType v => update (with_newLocationType v)
  | ISetNewLocationRadius v => update (with_newLocationRadius v)
  | IRegisterCurrentLocation => registerCurrentLocation P
  | IDeleteLocation id => deleteLocation P id
  end.

(** The state a handler leaves, however it completes. *)
Definition after {A : Type} (m : M A) (s : App) : App := snd (m s).

(** The handler completed normally (its promise was fulfilled). *)
Definition completes {A : Type} (m : M A) (s : App) : Prop :=
  exists a, fst (m s) = Normal a.

(** ** What is on screen

    A handler can only be called through a control that the current
    render shows. *)

(** [isTaskVisible] on the current cells. *)
Definition shown (s : App) (todo : Todo.t) : bool :=
  isTaskVisible (privateMode s) (locationStatus s) todo.

(** [editingTodo === todo.id]. *)
Definition isEditing (s : App) (todo : Todo.t) : bool :=
  match editingTodo s with
  | Some editing => (editing =? Todo.id todo)%Z
  | None => false
  end.

(** A task row of [sortedTodos], in display or in editing form. *)
Definition row (s : App) (editing : bool) (todo : Todo.t) : Prop :=
  currentPage s = pMain /\ In todo (todos s) /\ shown s todo = true
  /\ isEditing s todo = editing.

Definition rendered (s : App) (i : Intent) : Prop :=
  match i with
  | INavigate _ | ITogglePrivateMode | IPositionUpdate _ _ _ => True
  | ISetInputTitle _ | ISetInputDetail _ | ISetCategory _ | IAddTodo =>
      currentPage s = pAddTask
  | IToggleComplete id | IDeleteTodo id =>
      exists todo, row s false todo /\ Todo.id todo = id
  | IToggleDetail id =>
      exists todo, row s false todo /\ Todo.id todo = id
                   /\ truthy_string (Todo.detail todo) = true
  | IStartEdit todo => row s false todo
  | ISetEditTitle _ | ISetEditDetail _ | ISetEditCategory _
  | ISaveEdit | ICancelEdit =>
      exists todo, row s true todo
  | IDeleteAllCompleted =>
      currentPage s = pMain
      /\ exists todo, In todo (todos s) /\ truthy_flag (Todo.completed todo) = true
  | IEnableBiometric =>
      currentPage s = pSettings /\ biometricEnabled s = false
  | IResetCredential =>
      currentPage s = pSettings /\ resetButtonRendered s = true
  | ISetNewLocationName _ | ISetNewLocationType _ | ISetNewLocationRadius _
  | IRegisterCurrentLocation =>
      currentPage s = pLocations /\ currentLocation s <> None
  | IDeleteLocation id =>
      currentPage s = pLocations
      /\ exists loc, In loc (registeredLocations s) /\ Location.id loc = id
  end.

(** The states the component can be in: after mounting on some store,
    and after any handler called through a rendered control. *)
Inductive reachable : App -> Prop :=
| reachable_mount (P : Platform) (ls : Storage) :
    reachable (mount P ls)
| reachable_handle (P : Platform) (i : Intent) (s : App) :
    reachable s -> rendered s i -> reachable (after (handle P i) s).

(** Reloading the page on the same store: the task list a fresh mount
    shows. *)
Definition reloadedTodos (ls : Storage) : list Todo.t :=
  match ls_todos ls with
  | Some saved => saved
  | None => []
  end.


(** What [await performBiometricAuth(action)] yields to its caller. *)
Definition authResult (P : Platform) (action : string) (s : App) : bool :=
  match fst (performBiometricAuth P action s) with
  | Normal result => result
  | Thrown => false
  end.

(* ================================================================== *)
(** * Sample data *)
(* ================================================================== *)

(** A store with no key set (first run). *)
Definition emptyStorage : Storage := mkStorage None None None None None.

(** A browser without WebAuthn whose user dismisses every dialog. *)
Definition refusingPlatform : Platform :=
  mkPlatform false CreateRejected GetRejected (fun _ => false)
             1700000000000 "2023-11-14T22:13:20.000Z".

(** A browser without WebAuthn whose user accepts every dialog. *)
Definition acceptingPlatform : Platform :=
  mkPlatform false CreateRejected GetRejected (fun _ => true)
             1700000000001 "2023-11-14T22:13:20.001Z".

(** A browser with a platform authenticator that creates a credential
    and asserts it; its user dismisses every dialog. *)
Definition strongPlatform : Platform :=
  mkPlatform true (Created "Y3JlZA" "Y3JlZA==") Asserted (fun _ => false)
             1700000000002 "2023-11-14T22:13:20.002Z".

(** A task saved before the field [completed] was added to [Todo]. *)
Definition legacyTodo : Todo.t :=
  Todo.mk 1 "report" "" Work "2024-01-01T00:00:00.000Z" None None.

Definition legacyStorage : Storage :=
  mkStorage (Some [legacyTodo]) None None None None.

(** A task created by [addTodo]. *)
Definition sampleTodo : Todo.t :=
  Todo.mk 2 "groceries" "" Other "2024-01-02T00:00:00.000Z"
          (Some false) (Some false).

Definition sampleStorage : Storage :=
  mkStorage (Some [sampleTodo]) None None None None.

(** ** Sequences of events *)

(** The handlers are serialized: each event runs on the state the
    previous one left. *)
Fixpoint run (events : list (Platform * Intent)) (s : App) : App :=
  match events with
  | [] => s
  | (P, i) :: rest => run rest (after (handle P i) s)
  end.

(** The event is a click on "enable biometric" ([register()]). *)
Definition isRegistration (event : Platform * Intent) : bool :=
  match snd event with
  | IEnableBiometric => true
  | _ => false
  end.

(** Every control of the events is on screen when its event comes. *)
Fixpoint renderedAlong (events : list (Platform * Intent)) (s : App) : Prop :=
  match events with
  | [] => True
  | (P, i) :: rest => rendered s i /\ renderedAlong rest (after (handle P i) s)
  end.

(** The cells and the store that a refused guarded operation must leave
    alone. *)
Definition untouched (s s' : App) : Prop :=
  todos s' = todos s
  /\ registeredLocations s' = registeredLocations s
  /\ privateMode s' = privateMode s
  /\ biometricEnabled s' = biometricEnabled s
  /\ localStorage s' = localStorage s.

(** What the authentication step itself leaves alone (it may write the
    two WebAuthn keys of the store). *)
Definition untouched_but_credential (s s' : App) : Prop :=
  todos s' = todos s
  /\ registeredLocations s' = registeredLocations s
  /\ privateMode s' = privateMode s
  /\ biometricEnabled s' = biometricEnabled s
  /\ ls_todos (localStorage s') = ls_todos (localStorage s)
  /\ ls_locations (localStorage s') = ls_locations (localStorage s)
  /\ ls_biometricEnabled (localStorage s') = ls_biometricEnabled (localStorage s).

(** The invariant of the persistence effect: reloading shows the task
    list that is in memory. *)
Definition todosPersisted (s : App) : Prop :=
  reloadedTodos (localStorage s) = todos s.

(** ** A session that registers, unlocks and resets *)

(** The platform of [strongPlatform] with a user who confirms the reset. *)
Definition resettingPlatform : Platform :=
  mkPlatform true (Created "Y3JlZA" "Y3JlZA==") Asserted
             (fun q => match q with AskResetCredential => true | _ => false end)
             1700000000003 "2023-11-14T22:13:20.003Z".

Definition resetSession : list (Platform * Intent) :=
  [ (strongPlatform, INavigate pSettings);
    (strongPlatform, IEnableBiometric);
    (strongPlatform, ITogglePrivateMode);
    (resettingPlatform, IResetCredential) ].

(** A state with a credential registered through WebAuthn. *)
Definition registeredStrong : App :=
  after (enableBiometric strongPlatform) (mount strongPlatform emptyStorage).

(** A state with "biometric" enabled through the fallback dialog, on a
    browser without WebAuthn. *)
Definition registeredSimple : App :=
  after (enableBiometric acceptingPlatform) (mount acceptingPlatform emptyStorage).

(** ** Two overlapping zones

    Two zones of different kinds around one point; the sample position is
    their common centre. *)
Definition homeZone : Location.t :=
  Location.mk 11 "flat" 36%R 136%R 100%R tHome.

Definition schoolZone : Location.t :=
  Location.mk 12 "campus" 36%R 136%R 200%R tSchool.

(** [distance <= loc.radius], as a proposition. *)
Definition contains (latitude longitude : R) (loc : Location.t) : Prop :=
  (calculateDistance latitude longitude
                     (Location.latitude loc) (Location.longitude loc)
   <= Location.radius loc)%R.


(* ================================================================== *)
(** * The main page: what the render derives from the cells *)
(* ================================================================== *)

(** [a !== b] on the optional flag [completed]: [undefined], [false]
    and [true] are three different values. *)
Definition flag_differs (a b : option bool) : bool :=
  match a, b with
  | None, None => false
  | Some x, Some y => negb (Bool.eqb x y)
  | _, _ => true
  end.

(** The comparator of [sortedTodos]:
    [(a, b) => { if (a.completed !== b.completed)
                   { return a.completed ? 1 : -1; } return 0; }]. *)
Definition compareCompleted (a b : Todo.t) : Z :=
  if flag_differs (Todo.completed a) (Todo.completed b)
  then (if truthy_flag (Todo.completed a) then 1 else -1)%Z
  else 0%Z.

(** [Array.prototype.sort(comparefn)].  ECMA-262 requires a stable sort
    and fixes its result for a consistent comparator; an insertion sort
    that keeps equal elements in their order is one such sort. *)
Section ArraySort.
Variable A : Type.
Variable comparefn : A -> A -> Z.

(** [x], which came before every element of [sorted], goes in front of
    the first element it does not compare greater than. *)
Fixpoint insertSorted (x : A) (sorted : list A) : list A :=
  match sorted with
  | [] => [x]
  | y :: rest =>
      if (comparefn x y <=? 0)%Z
      then x :: y :: rest
      else y :: insertSorted x rest
  end.

Definition arraySort (l : list A) : list A := fold_right insertSorted [] l.
End ArraySort.

(** [todos.filter(isTaskVisible).sort(...)]. *)
Definition sortedTodos (s : App) : list Todo.t :=
  arraySort compareCompleted (filter (shown s) (todos s)).

(** [const hiddenCounts = getHiddenTasksCount()]. *)
Definition hiddenCounts (s : App) : Counts :=
  getHiddenTasksCount (privateMode s) (locationStatus s) (todos s).

(** [Object.entries(hiddenCounts)], in the order the keys were written. *)
Definition entries (c : Counts) : list (Category * nat) :=
  [ (Personal, nPersonal c); (School, nSchool c);
    (Work, nWork c); (Other, nOther c) ].

(** [Object.values(hiddenCounts).some(count => count > 0)]. *)
Definition hasHiddenTasks (s : App) : bool :=
  existsb (fun count => (0 <? count)%nat) (map snd (entries (hiddenCounts s))).

(** The banner of hidden tasks is rendered, on the main page, under
    [hasHiddenTasks && !privateMode], with one item per entry whose count
    is positive. *)
Definition hiddenBanner (s : App) : list (Category * nat) :=
  if (hasHiddenTasks s && negb (privateMode s))%bool
  then filter (fun entry => (0 <? snd entry)%nat) (entries (hiddenCounts s))
  else [].

(** ** Derived notions used by the statements *)

(** The two values of [completed] that the comparator tells apart
    although both are falsy are not both present. *)
Definition flagsConsistent (l : list Todo.t) : Prop :=
  (forall todo, In todo l -> Todo.completed todo <> None)
  \/ (forall todo, In todo l -> Todo.completed todo <> Some false).

(** The ids of the tasks, in list order. *)
Definition taskIds (s : App) : list Z := map Todo.id (todos s).

(** The key 'locations' holds the zones that are in memory. *)
Definition locationsPersisted (s : App) : Prop :=
  ls_locations (localStorage s) = Some (registeredLocations s).

(** No [reset] click among the events. *)
Definition isReset (event : Platform * Intent) : bool :=
  match snd event with
  | IResetCredential => true
  | _ => false
  end.

(** The WebAuthn block of [performBiometricAuth] ends in a strong
    success: a credential is created at registration, or the stored
    credential is asserted. *)
Definition strongSuccess (P : Platform) (action : string) (s : App) : bool :=
  (PublicKeyCredential_defined P
   && if (String.eqb action ACTION_SETUP
          && negb (truthy_item (ls_webauthn_credential_id (localStorage s))))%bool
      then match credentials_create P with Created _ _ => true | _ => false end
      else truthy_item (ls_webauthn_credential_id (localStorage s))
           && truthy_item (ls_webauthn_raw_id (localStorage s))
           && match credentials_get P with Asserted => true | _ => false end)%bool.

(** ** More sample data *)

Definition doneTodo : Todo.t :=
  Todo.mk 3 "laundry" "" Personal "2024-01-03T00:00:00.000Z"
          (Some false) (Some true).

Definition workTodo : Todo.t :=
  Todo.mk 4 "slides" "for Monday" Work "2024-01-04T00:00:00.000Z"
          (Some false) (Some false).

Definition threeTasksStorage : Storage :=
  mkStorage (Some [doneTodo; sampleTodo; workTodo]) None None None None.

(** The add-task form filled in by the user. *)
Definition filledForm : App :=
  with_category Work
    (with_inputDetail "for Monday"
       (with_inputTitle "slides" (mount refusingPlatform emptyStorage))).

(** A registered user standing at the default campus coordinates with
    the zone form filled in. *)
Definition atCampus : App :=
  with_newLocationName "lab"
    (after (handlePositionUpdate 36.4507 136.5933 12)
           (with_registeredLocations [] registeredStrong)).


(* ================================================================== *)
(** * The password version of the component

    The earlier [App] of the repository (src/unnamed/part_000, first
    file): zones carry a context and the nearest containing zone
    decides; privileged actions ask for a password kept in
    [localStorage]; the task list masks titles by a privacy level. *)
(* ================================================================== *)

Module PasswordVersion.

(** [LocationContext]: '外出先' | '学校' | '職場' | '自宅'. *)
Inductive LocationContext : Type :=
| Away        (* '外出先' *)
| AtSchool    (* '学校' *)
| AtWorkplace (* '職場' *)
| AtHome.     (* '自宅' *)

(** [PrivacyLevel]: 'minimal' | 'moderate' | 'full'. *)
Inductive PrivacyLevel : Type := minimal | moderate | full.

(** The values of [authAction]: 'personal' | 'manual' | 'saveLocation' | ''. *)
Inductive AuthAction : Type :=
| actPersonal | actManual | actSaveLocation | actNone.

Definition LocationContext_eqb (a b : LocationContext) : bool :=
  match a, b with
  | Away, Away | AtSchool, AtSchool | AtWorkplace, AtWorkplace
  | AtHome, AtHome => true
  | _, _ => false
  end.

(** [interface SavedLocation]. *)
Record SavedLocation : Type := mkSavedLocation {
  latitude : R;
  longitude : R;
  radius : R;
  context : LocationContext
}.

(** [interface Todo] of this version: [completed] is not optional. *)
Record Task : Type := mkTask {
  id : Z;
  text : string;
  description : string;
  completed : bool;
  category : Category;
  createdAt : string
}.

(** The cells the modelled functions read or write, and the two keys of
    [localStorage] ('appPassword', 'savedLocations'). *)
Record State : Type := mkState {
  currentLocation : LocationContext;
  isPersonalMode : bool;
  showManualLocationSelect : bool;
  currentCoords : option (R * R);
  savedLocations : list SavedLocation;
  showLocationSaveDialog : bool;
  locationToSave : LocationContext;
  isAuthenticated : bool;
  password : string;
  hasSetPassword : bool;
  showPasswordDialog : bool;
  authAction : AuthAction;
  appPassword : option string;
  storedLocations : option (list SavedLocation)
}.

Definition with_isPersonalMode (v : bool) (s : State) : State :=
  mkState (currentLocation s) v
         (showManualLocationSelect s) (currentCoords s) (savedLocations s)
         (showLocationSaveDialog s) (locationToSave s) (isAuthenticated s)
         (password s) (hasSetPassword s) (showPasswordDialog s)
         (authAction s) (appPassword s) (storedLocations s).

Definition with_showManualLocationSelect (v : bool) (s : State) : State :=
  mkState (currentLocation s) (isPersonalMode s) v
         (currentCoords s) (savedLocations s) (showLocationSaveDialog s)
         (locationToSave s) (isAuthenticated s) (password s)
         (hasSetPassword s) (showPasswordDialog s) (authAction s)
         (appPassword s) (storedLocations s).

Definition with_savedLocations (v : list SavedLocation) (s : State) : State :=
  mkState (currentLocation s) (isPersonalMode s)
         (showManualLocationSelect s) (currentCoords s) v
         (showLocationSaveDialog s) (locationToSave s) (isAuthenticated s)
         (password s) (hasSetPassword s) (showPasswordDialog s)
         (authAction s) (appPassword s) (storedLocations s).

Definition with_showLocationSaveDialog (v : bool) (s : State) : State :=
  mkState (currentLocation s) (isPersonalMode s)
         (showManualLocationSelect s) (currentCoords s) (savedLocations s) v
         (locationToSave s) (isAuthenticated s) (password s)
         (hasSetPassword s) (showPasswordDialog s) (authAction s)
         (appPassword s) (storedLocations s).

Definition with_isAuthenticated (v : bool) (s : State) : State :=
  mkState (currentLocation s) (isPersonalMode s)
         (showManualLocationSelect s) (currentCoords s) (savedLocations s)
         (showLocationSaveDialog s) (locationToSave s) v (password s)
         (hasSetPassword s) (showPasswordDialog s) (authAction s)
         (appPassword s) (storedLocations s).

Definition with_password (v : string) (s : State) : State :=
  mkState (currentLocation s) (isPersonalMode s)
         (showManualLocationSelect s) (currentCoords s) (savedLocations s)
         (showLocationSaveDialog s) (locationToSave s) (isAuthenticated s) v
         (hasSetPassword s) (showPasswordDialog s) (authAction s)
         (appPassword s) (storedLocations s).

Definition with_hasSetPassword (v : bool) (s : State) : State :=
  mkState (currentLocation s) (isPersonalMode s)
         (showManualLocationSelect s) (currentCoords s) (savedLocations s)
         (showLocationSaveDialog s) (locationToSave s) (isAuthenticated s)
         (password s) v (showPasswordDialog s) (authAction s)
         (appPassword s) (storedLocations s).

Definition with_showPasswordDialog (v : bool) (s : State) : State :=
  mkState (currentLocation s) (isPersonalMode s)
         (showManualLocationSelect s) (currentCoords s) (savedLocations s)
         (showLocationSaveDialog s) (locationToSave s) (isAuthenticated s)
         (password s) (hasSetPassword s) v (authAction s) (appPassword s)
         (storedLocations s).

Definition with_authAction (v : AuthAction) (s : State) : State :=
  mkState (currentLocation s) (isPersonalMode s)
         (showManualLocationSelect s) (currentCoords s) (savedLocations s)
         (showLocationSaveDialog s) (locationToSave s) (isAuthenticated s)
         (password s) (hasSetPassword s) (showPasswordDialog s) v
         (appPassword s) (storedLocations s).

Definition with_appPassword (v : option string) (s : State) : State :=
  mkState (currentLocation s) (isPersonalMode s)
         (showManualLocationSelect s) (currentCoords s) (savedLocations s)
         (showLocationSaveDialog s) (locationToSave s) (isAuthenticated s)
         (password s) (hasSetPassword s) (showPasswordDialog s)
         (authAction s) v (storedLocations s).

Definition with_storedLocations (v : option (list SavedLocation)) (s : State) : State :=
  mkState (currentLocation s) (isPersonalMode s)
         (showManualLocationSelect s) (currentCoords s) (savedLocations s)
         (showLocationSaveDialog s) (locationToSave s) (isAuthenticated s)
         (password s) (hasSetPassword s) (showPasswordDialog s)
         (authAction s) (appPassword s) v.

(** [setSavedLocations(v)], followed by the effect
    [localStorage.setItem('savedLocations', JSON.stringify(savedLocations))]. *)
Definition setSavedLocations (v : list SavedLocation) (s : State) : State :=
  with_storedLocations (Some v) (with_savedLocations v s).

(** [detectLocationContext]: the callback of [savedLocations.forEach],
    on the pair of its two [let] variables; [None] is [Infinity]. *)
Definition detectStep (lat lon : R) (acc : LocationContext * option R)
           (location : SavedLocation) : LocationContext * option R :=
  let distance :=
    calculateDistance lat lon (latitude location) (longitude location) in
  if Rle_dec distance (radius location) then
    if match snd acc with
       | Some minDistance => if Rlt_dec distance minDistance then true else false
       | None => true
       end
    then (context location, Some distance)
    else acc
  else acc.

(** [detectLocationContext(coords)]; its local [calculateDistance] is the
    haversine function above, written the same way. *)
Definition detectLocationContext (lat lon : R)
           (savedLocations : list SavedLocation) : LocationContext :=
  fst (fold_left (detectStep lat lon) savedLocations (Away, None)).

(** [saveCurrentLocation]. *)
Definition saveCurrentLocation (s : State) : State :=
  match currentCoords s with
  | Some (lat, lon) =>
      let newLocation :=
        mkSavedLocation lat lon
          (if LocationContext_eqb (locationToSave s) AtHome then 150 else 200)%R
          (locationToSave s) in
      let updatedLocations :=
        filter (fun loc => negb (LocationContext_eqb (context loc) (locationToSave s)))
               (savedLocations s) in
      with_showLocationSaveDialog false
        (setSavedLocations (updatedLocations ++ [newLocation]) s)
  | None => s
  end.

(** [authenticate(action)]. *)
Definition authenticate (action : AuthAction) (s : State) : State :=
  with_showPasswordDialog true (with_authAction action s).

(** [executeAuthAction(action)]. *)
Definition executeAuthAction (action : AuthAction) (s : State) : State :=
  match action with
  | actPersonal => with_isPersonalMode true s
  | actManual => with_showManualLocationSelect true s
  | actSaveLocation => with_showLocationSaveDialog true s
  | actNone => s
  end.

(** [savedPassword === password], for [getItem]'s string or [null]. *)
Definition same_password (saved : option string) (password : string) : bool :=
  match saved with
  | Some text => String.eqb text password
  | None => false
  end.

(** [authenticateWithPassword]. *)
Definition authenticateWithPassword (s : State) : State :=
  let savedPassword := appPassword s in
  if (negb (truthy_item savedPassword) && truthy_string (password s))%bool then
    with_password EmptyString
      (with_showPasswordDialog false
         (executeAuthAction (authAction s)
            (with_isAuthenticated true
               (with_hasSetPassword true
                  (with_appPassword (Some (password s)) s)))))
  else if same_password savedPassword (password s) then
    with_password EmptyString
      (with_showPasswordDialog false
         (executeAuthAction (authAction s)
            (with_isAuthenticated true s)))
  else s.

(** [getPrivacyLevel]. *)
Definition getPrivacyLevel (s : State) : PrivacyLevel :=
  if (isPersonalMode s || LocationContext_eqb (currentLocation s) AtHome)%bool
  then full
  else if (LocationContext_eqb (currentLocation s) AtSchool
           || LocationContext_eqb (currentLocation s) AtWorkplace)%bool
       then moderate
       else minimal.

Definition PrivacyLevel_eqb (a b : PrivacyLevel) : bool :=
  match a, b with
  | minimal, minimal | moderate, moderate | full, full => true
  | _, _ => false
  end.

(** [shouldShowDetails] of the task list. *)
Definition shouldShowDetails (s : State) (todo : Task) : bool :=
  (PrivacyLevel_eqb (getPrivacyLevel s) full
   || (PrivacyLevel_eqb (getPrivacyLevel s) moderate
       && ((LocationContext_eqb (currentLocation s) AtSchool
            && Category_eqb (category todo) School)
           || (LocationContext_eqb (currentLocation s) AtWorkplace
               && Category_eqb (category todo) Work))))%bool.

(** What the list shows for a task that passes the category filter
    ([filteredTodos]): nothing of it at level 'minimal' (only the counts
    per category are rendered), its text, or the placeholder
    [`${todo.category}のタスク`]. *)
Inductive Shown : Type :=
| NotListed
| Title (text : string)
| Placeholder (category : Category).

Definition shownTitle (s : State) (todo : Task) : Shown :=
  if PrivacyLevel_eqb (getPrivacyLevel s) minimal then NotListed
  else if shouldShowDetails s todo then Title (text todo)
       else Placeholder (category todo).

(** [distance <= location.radius], as a proposition. *)
Definition inside (lat lon : R) (location : SavedLocation) : Prop :=
  (calculateDistance lat lon (latitude location) (longitude location)
   <= radius location)%R.

(** The context an [App.tsx] location state stands for. *)
Definition context_of_status (status : LocationStatus) : LocationContext :=
  match status with
  | home => AtHome
  | school => AtSchool
  | work => AtWorkplace
  | outside => Away
  end.

(** A first session: nothing stored, the password dialog open for
    personal mode with a password typed in. *)
Definition firstUse : State :=
  mkState Away false false None [] false AtHome
          false "hunter2" false true actPersonal None None.

(** A user at a known position with one school zone saved. *)
Definition positioned : State :=
  mkState Away false false (Some (36, 136)%R)
          [mkSavedLocation 36 136 200 AtSchool] false AtSchool
          true EmptyString true false actNone (Some "hunter2"%string) None.

(** A school task. *)
Definition homework : Task :=
  mkTask 7 "essay" "" false School "2024-01-05T00:00:00.000Z".

End PasswordVersion.

(** At mount (outside, private mode off) the stored work task is hidden. *)
Definition hiddenWork : App := mount refusingPlatform threeTasksStorage.

(* ================================================================== *)
(** * GeoMath in double precision *)
(* ================================================================== *)

(** [calculateDistance] as the engine runs it: every [number] is a
    binary64 value and every operator rounds to nearest. *)
Module Binary64.
Import Stdlib.Floats.Floats.
Local Open Scope float_scope.

(** [Math.sin], [Math.cos] and [Math.atan2] are implementation-approximated
    (ECMA-262, 21.3.2): the engine's library is a parameter. *)
Record MathLibrary : Type := mkMathLibrary {
  Math_sin : float -> float;
  Math_cos : float -> float;
  Math_atan2 : float -> float -> float
}.

(** [Math.PI]: the double nearest to pi. *)
Definition Math_PI : float := 0x1.921fb54442d18p+1.

(** [Math.sqrt]: the correctly rounded square root, NaN below zero. *)
Definition Math_sqrt (x : float) : float := PrimFloat.sqrt x.

(** The constant [a] of [calculateDistance]. *)
Definition haversineTerm (M : MathLibrary) (lat1 lon1 lat2 lon2 : float)
  : float :=
  let phi1 := lat1 * Math_PI / 180 in
  let phi2 := lat2 * Math_PI / 180 in
  let dphi := (lat2 - lat1) * Math_PI / 180 in
  let dlambda := (lon2 - lon1) * Math_PI / 180 in
  Math_sin M (dphi / 2) * Math_sin M (dphi / 2) +
  Math_cos M phi1 * Math_cos M phi2 *
  Math_sin M (dlambda / 2) * Math_sin M (dlambda / 2).

Definition calculateDistance (M : MathLibrary) (lat1 lon1 lat2 lon2 : float)
  : float :=
  let R0 := 6371000 in
  let phi1 := lat1 * Math_PI / 180 in
  let phi2 := lat2 * Math_PI / 180 in
  let dphi := (lat2 - lat1) * Math_PI / 180 in
  let dlambda := (lon2 - lon1) * Math_PI / 180 in
  let a := Math_sin M (dphi / 2) * Math_sin M (dphi / 2) +
           Math_cos M phi1 * Math_cos M phi2 *
           Math_sin M (dlambda / 2) * Math_sin M (dlambda / 2) in
  let c := 2 * Math_atan2 M (Math_sqrt a) (Math_sqrt (1 - a)) in
  R0 * c.

(** [interface Location] with its numbers as doubles. *)
Module Location.
Record t : Type := mk {
  id : Z;
  name : string;
  latitude : float;
  longitude : float;
  radius : float;
  type : LocationType
}.
End Location.

(** The test of the geofence scan: [distance <= loc.radius]. *)
Definition within (M : MathLibrary) (latitude longitude : float)
           (loc : Location.t) : bool :=
  calculateDistance M latitude longitude
    (Location.latitude loc) (Location.longitude loc)
  <=? Location.radius loc.

(** The loop of [handlePositionUpdate]. *)
Fixpoint scanLocations (M : MathLibrary) (latitude longitude : float)
         (registeredLocations : list Location.t) : LocationStatus :=
  match registeredLocations with
  | [] => outside
  | loc :: rest =>
      if within M latitude longitude loc
      then status_of_type (Location.type loc)
      else scanLocations M latitude longitude rest
  end.

(** What a library answers at the arguments [calculateDistance] meets
    between the points (-12, -179) and (12, 1), which lie opposite on the
    sphere:
    - [12 * Math.PI / 180] is [0x1.acee9f37bebd5p-3] and
      [180 * Math.PI / 180 / 2] is [0x1.921fb54442d18p+0];
    - the sines and cosines are the doubles nearest to the real values,
      which the C library and the fdlibm kernels both return;
    - [Math.atan2] is NaN when its second argument is NaN (ECMA-262,
      21.3.2.8). *)
Definition nearestAtAntipodes (M : MathLibrary) : Prop :=
  (forall y : float, Math_atan2 M y nan = nan)
  /\ Math_sin M 0x1.acee9f37bebd5p-3 = 0x1.a9cd9ac4258f5p-3
  /\ Math_sin M 0x1.921fb54442d18p+0 = 1
  /\ Math_cos M (-0x1.acee9f37bebd5p-3) = 0x1.f4cfc327a0080p-1
  /\ Math_cos M 0x1.acee9f37bebd5p-3 = 0x1.f4cfc327a0080p-1.

(** A table with those answers; it is silent (NaN) at other arguments. *)
Definition antipodesTable : MathLibrary :=
  {| Math_sin x :=
       if x =? 0x1.921fb54442d18p+0 then 1
       else if x =? 0x1.acee9f37bebd5p-3 then 0x1.a9cd9ac4258f5p-3
       else nan;
     Math_cos x :=
       if abs x =? 0x1.acee9f37bebd5p-3 then 0x1.f4cfc327a0080p-1
       else nan;
     Math_atan2 y x := nan |}.

(** A zone around (12, 1) that is meant to span the sphere, and one
    without bound. *)
Definition sphereZone : Location.t :=
  Location.mk 21 "anywhere" 12 1 (6371000 * Math_PI) tWork.

Definition unboundedZone : Location.t :=
  Location.mk 22 "everywhere" 12 1 infinity tHome.

End Binary64.

(** A store whose only task is completed. *)
Definition completedStorage : Storage :=
  mkStorage (Some [doneTodo]) None None None None.
(* ================================================================== *)
(** * VisibilityPolicy: theorems *)
(* ================================================================== *)

Lemma Category_eqb_eq (a b : Category) : Category_eqb a b = true <-> a = b.
Proof. destruct a, b; simpl; split; congruence. Qed.

Lemma eqb_or_iff (c a b : Category) :
  (Category_eqb c a || Category_eqb c b)%bool = true <-> c = a \/ c = b.
Proof.
  rewrite orb_true_iff, !Category_eqb_eq. tauto.
Qed.

(** C1. [isTaskVisible] computes the truth table of the policy: with
    private mode on, every task is visible in every location state; with
    it off, at home every task is visible, at school exactly the tasks
    of category School or Other, at work exactly Work or Other, and
    outside exactly Other. *)
Theorem isTaskVisible_truth_table (todo : Todo.t) :
  (forall locationStatus, isTaskVisible true locationStatus todo = true)
  /\ isTaskVisible false home todo = true
  /\ (isTaskVisible false school todo = true
      <-> Todo.category todo = School \/ Todo.category todo = Other)
  /\ (isTaskVisible false work todo = true
      <-> Todo.category todo = Work \/ Todo.category todo = Other)
  /\ (isTaskVisible false outside todo = true
      <-> Todo.category todo = Other).
Proof.
  repeat split; try reflexivity; unfold isTaskVisible;
    try (apply eqb_or_iff); try (apply Category_eqb_eq);
    intro H; try (apply eqb_or_iff in H; exact H);
    try (apply Category_eqb_eq in H; exact H).
Qed.

(** ** Counting the hidden tasks *)

Section HiddenCounts.
Variable privateMode : bool.
Variable locationStatus : LocationStatus.

Local Abbreviation visible := (isTaskVisible privateMode locationStatus).

Lemma count_of_increment (c : Counts) (k k' : Category) :
  count_of (increment c k) k' =
  (if Category_eqb k k' then S (count_of c k') else count_of c k').
Proof. destruct k, k'; reflexivity. Qed.

Lemma total_increment (c : Counts) (k : Category) :
  total (increment c k) = S (total c).
Proof. destruct k; unfold total; simpl; lia. Qed.

Lemma fold_count_of (todos : list Todo.t) (acc : Counts) (k : Category) :
  count_of (fold_left (countStep privateMode locationStatus) todos acc) k =
  count_of acc k + List.length (filter (hiddenOf privateMode locationStatus k) todos).
Proof.
  revert acc; induction todos as [|todo rest IH]; intro acc; simpl.
  - lia.
  - rewrite IH. unfold countStep, hiddenOf.
    destruct (visible todo); simpl.
    + rewrite andb_false_r. reflexivity.
    + rewrite andb_true_r, count_of_increment.
      destruct (Category_eqb (Todo.category todo) k); simpl; lia.
Qed.

Lemma fold_total (todos : list Todo.t) (acc : Counts) :
  total (fold_left (countStep privateMode locationStatus) todos acc) =
  total acc + List.length (filter (fun todo => negb (visible todo)) todos).
Proof.
  revert acc; induction todos as [|todo rest IH]; intro acc; simpl.
  - lia.
  - rewrite IH. unfold countStep.
    destruct (visible todo); simpl.
    + reflexivity.
    + rewrite total_increment. lia.
Qed.

Lemma filter_split_length (A : Type) (p : A -> bool) (l : list A) :
  List.length l =
  List.length (filter p l) + List.length (filter (fun x => negb (p x)) l).
Proof.
  induction l as [|x l IH]; simpl; [reflexivity|].
  destruct (p x); simpl; lia.
Qed.

Lemma hidden_total (todos : list Todo.t) :
  total (getHiddenTasksCount privateMode locationStatus todos) =
  List.length todos - List.length (filter visible todos).
Proof.
  unfold getHiddenTasksCount.
  rewrite fold_total, (filter_split_length visible todos).
  unfold total; simpl. lia.
Qed.
End HiddenCounts.

(** C7. [getHiddenTasksCount] maps each category to the number of tasks
    of that category that are not visible; its values add up to the
    number of tasks minus the number of visible tasks; outside with
    private mode off they add up to the number of tasks minus the number
    of tasks of category Other. *)
Theorem getHiddenTasksCount_counts_hidden
        (privateMode : bool) (locationStatus : LocationStatus)
        (todos : list Todo.t) :
  (forall k : Category,
      count_of (getHiddenTasksCount privateMode locationStatus todos) k =
      List.length
        (filter (fun todo =>
                   (Category_eqb (Todo.category todo) k
                    && negb (isTaskVisible privateMode locationStatus todo))%bool)
                todos))
  /\ total (getHiddenTasksCount privateMode locationStatus todos) =
     List.length todos
     - List.length (filter (isTaskVisible privateMode locationStatus) todos)
  /\ total (getHiddenTasksCount false outside todos) =
     List.length todos
     - List.length
         (filter (fun todo => Category_eqb (Todo.category todo) Other) todos).
Proof.
  split; [|split].
  - intro k. unfold getHiddenTasksCount.
    rewrite fold_count_of. destruct k; reflexivity.
  - apply hidden_total.
  - rewrite hidden_total. reflexivity.
Qed.

(* ================================================================== *)
(** * Handlers: how they leave the cells *)
(* ================================================================== *)

(** Unfolds a handler down to the setters it applies. *)
Ltac run_handler :=
  cbv [after completes handle
       toggleComplete addTodo startEdit saveEdit deleteTodo toggleDetail
       deleteAllCompleted handlePositionUpdate registerCurrentLocation
       deleteLocation resetCredential enableBiometric togglePrivateMode
       performBiometricAuth performBiometricAuthAt webAuthnBlock createCredential getAssertion
       confirm isWebAuthnAvailable try_finally try_catch bind ret throw
       get update getItem setItem fst snd].

Lemma todos_setTodos (v : list Todo.t) (s : App) : todos (setTodos v s) = v.
Proof.
  unfold setTodos, saveTodosEffect.
  destruct (0 <? List.length (todos (with_todos v s)))%nat; reflexivity.
Qed.

Lemma registeredLocations_setRegisteredLocations
      (v : list Location.t) (s : App) :
  registeredLocations (setRegisteredLocations v s) = v.
Proof.
  unfold setRegisteredLocations, saveLocationsEffect.
  destruct (0 <? List.length (registeredLocations (with_registeredLocations v s)))%nat;
    reflexivity.
Qed.

Lemma todos_after_toggleComplete (id : Z) (s : App) :
  todos (after (toggleComplete id) s) = toggleCompleteList id (todos s).
Proof. run_handler. apply todos_setTodos. Qed.

(** ** [performBiometricAuth] *)

(** Splits on what the platform answers, as far as the handler asks. *)
Ltac platform_cases :=
  repeat (cbn;
          match goal with
          | |- context [match credentials_create ?P with _ => _ end] =>
              destruct (credentials_create P)
          | |- context [match credentials_get ?P with _ => _ end] =>
              destruct (credentials_get P)
          | |- context [if ?b then _ else _] => destruct b eqn:?
          end).

(** The authentication step always resolves: every exception of the
    WebAuthn block is caught and turned into the fallback dialogs. *)
Lemma performBiometricAuth_resolves (P : Platform) (action : string) (s : App) :
  exists result, fst (performBiometricAuth P action s) = Normal result.
Proof.
  run_handler. platform_cases; eauto.
Qed.

(** For every action but the registration, the step only touches the
    cell [authenticating], which it leaves [false]. *)
Lemma performBiometricAuth_leaves (P : Platform) (action : string) (s : App) :
  String.eqb action ACTION_SETUP = false ->
  after (performBiometricAuth P action) s = with_authenticating false s.
Proof.
  intro Hact. run_handler. rewrite Hact.
  platform_cases; reflexivity.
Qed.

(** ** Mounting *)

(** Unfolds the setters and their effects, and splits on their guards. *)
Ltac setter_cases :=
  unfold setTodos, setRegisteredLocations, setBiometricEnabled,
         saveTodosEffect, saveLocationsEffect, saveBiometricEffect;
  repeat match goal with
         | |- context [if ?b then _ else _] => destruct b eqn:?
         end.

Lemma todos_setRegisteredLocations (v : list Location.t) (s : App) :
  todos (setRegisteredLocations v s) = todos s.
Proof. setter_cases; reflexivity. Qed.

Lemma todos_setBiometricEnabled (v : bool) (s : App) :
  todos (setBiometricEnabled v s) = todos s.
Proof. setter_cases; reflexivity. Qed.

Lemma todos_mount (P : Platform) (ls : Storage) :
  todos (mount P ls) = reloadedTodos ls.
Proof.
  unfold mount, reloadedTodos.
  rewrite todos_setRegisteredLocations.
  destruct (ls_biometricEnabled ls); rewrite ?todos_setBiometricEnabled;
    destruct (ls_todos ls); rewrite ?todos_setTodos; try reflexivity;
    destruct (ls_locations ls); reflexivity.
Qed.

(* ================================================================== *)
(** * TaskStore: completion toggling *)
(* ================================================================== *)

Lemma toggled_twice (id : Z) (todo : Todo.t) :
  toggled id (toggled id todo) =
  if (Todo.id todo =? id)%Z
  then with_completed (Some (truthy_flag (Todo.completed todo))) todo
  else todo.
Proof.
  unfold toggled. destruct (Todo.id todo =? id)%Z eqn:E.
  - cbn [with_completed Todo.id Todo.completed]. rewrite E.
    unfold with_completed; cbn.
    destruct (Todo.completed todo) as [[|]|]; reflexivity.
  - rewrite E. reflexivity.
Qed.

Lemma toggleCompleteList_twice (id : Z) (l : list Todo.t) :
  toggleCompleteList id (toggleCompleteList id l) =
  map (fun todo =>
         if (Todo.id todo =? id)%Z
         then with_completed (Some (truthy_flag (Todo.completed todo))) todo
         else todo) l.
Proof.
  unfold toggleCompleteList. rewrite map_map.
  apply map_ext. intro todo. apply (toggled_twice id todo).
Qed.

Lemma with_completed_same (todo : Todo.t) (b : bool) :
  Todo.completed todo = Some b ->
  with_completed (Some (truthy_flag (Todo.completed todo))) todo = todo.
Proof.
  destruct todo as [i t d c a sd co]. cbn. intros ->. now destruct b.
Qed.

(** C10 (amended).  [toggleComplete(id)] keeps the length and the order
    of the list; the task at each position keeps its id, title, detail,
    category, createdAt and showDetail, is unchanged when its id is not
    [id], and has [completed] set to the negation of its truthiness when
    its id is [id].  Applying it twice sets [completed] of the matching
    tasks to its truthiness: it restores the list when every matching
    task has [completed] present. *)
Theorem toggleComplete_frame (id : Z) (s : App) :
  List.length (todos (after (toggleComplete id) s)) = List.length (todos s)
  /\ (forall (i : nat) (todo : Todo.t),
         nth_error (todos s) i = Some todo ->
         exists todo',
           nth_error (todos (after (toggleComplete id) s)) i = Some todo'
           /\ Todo.id todo' = Todo.id todo
           /\ Todo.title todo' = Todo.title todo
           /\ Todo.detail todo' = Todo.detail todo
           /\ Todo.category todo' = Todo.category todo
           /\ Todo.createdAt todo' = Todo.createdAt todo
           /\ Todo.showDetail todo' = Todo.showDetail todo
           /\ (Todo.id todo <> id -> todo' = todo)
           /\ (Todo.id todo = id ->
               Todo.completed todo'
               = Some (negb (truthy_flag (Todo.completed todo)))))
  /\ todos (after (toggleComplete id) (after (toggleComplete id) s))
     = map (fun todo =>
              if (Todo.id todo =? id)%Z
              then with_completed (Some (truthy_flag (Todo.completed todo))) todo
              else todo)
           (todos s)
  /\ ((forall todo, In todo (todos s) -> Todo.id todo = id ->
                    Todo.completed todo <> None) ->
      todos (after (toggleComplete id) (after (toggleComplete id) s))
      = todos s).
Proof.
  rewrite !todos_after_toggleComplete.
  split; [|split; [|split]].
  - unfold toggleCompleteList. apply length_map.
  - intros i todo Hnth. exists (toggled id todo).
    split.
    + unfold toggleCompleteList. rewrite nth_error_map, Hnth. reflexivity.
    + unfold toggled. destruct (Z.eqb_spec (Todo.id todo) id) as [E|E];
        cbn; repeat split; try reflexivity; try congruence.
  - apply toggleCompleteList_twice.
  - intro Hdef. rewrite toggleCompleteList_twice.
    rewrite <- (map_id (todos s)) at 2.
    apply map_ext_in. intros todo Hin.
    destruct (Z.eqb_spec (Todo.id todo) id) as [E|E]; [|reflexivity].
    specialize (Hdef todo Hin E).
    destruct (Todo.completed todo) as [b|] eqn:Hc; [|congruence].
    rewrite <- Hc. apply (with_completed_same todo Hc).
Qed.

(** A task created by [addTodo] is restored by a double toggle. *)
Lemma toggleComplete_frame_witness :
  todos (after (toggleComplete 2)
               (after (toggleComplete 2) (mount refusingPlatform sampleStorage)))
  = todos (mount refusingPlatform sampleStorage).
Proof.
  apply (toggleComplete_frame 2 (mount refusingPlatform sampleStorage)).
  rewrite todos_mount. cbn.
  intros todo [<-|[]] _. discriminate.
Defined.

(** C10, as stated, fails on a task without the field [completed] (one
    saved before the field was added): two toggles leave
    [completed: false] where the property was absent. *)
Lemma toggleComplete_twice_sets_absent_completed :
  todos (mount refusingPlatform legacyStorage) = [legacyTodo]
  /\ todos (after (toggleComplete 1)
                  (after (toggleComplete 1) (mount refusingPlatform legacyStorage)))
     = [with_completed (Some false) legacyTodo]
  /\ [with_completed (Some false) legacyTodo] <> [legacyTodo].
Proof.
  rewrite !todos_after_toggleComplete, todos_mount.
  repeat split; discriminate.
Qed.

(* ================================================================== *)
(** * AuthGate: the guarded operations *)
(* ================================================================== *)

Lemma action_private_not_setup : String.eqb ACTION_PRIVATE ACTION_SETUP = false.
Proof. reflexivity. Qed.

Lemma action_register_not_setup : String.eqb ACTION_REGISTER ACTION_SETUP = false.
Proof. reflexivity. Qed.

Lemma action_delete_not_setup : String.eqb ACTION_DELETE ACTION_SETUP = false.
Proof. reflexivity. Qed.

(** One run of the step for a guarded action, as its caller sees it. *)
Lemma performBiometricAuth_run (P : Platform) (action : string) (s : App) :
  String.eqb action ACTION_SETUP = false ->
  performBiometricAuth P action s
  = (Normal (authResult P action s), with_authenticating false s).
Proof.
  intro Hact.
  pose proof (performBiometricAuth_resolves P action s) as [result Hres].
  pose proof (performBiometricAuth_leaves P action s Hact) as Hst.
  unfold authResult, after in *.
  destruct (performBiometricAuth P action s) as [c s']; cbn in *.
  subst. reflexivity.
Qed.

(** The verdict depends on the state through the two WebAuthn keys of
    the store only. *)
Lemma authResult_storage (P : Platform) (action : string) (s s' : App) :
  ls_webauthn_credential_id (localStorage s)
  = ls_webauthn_credential_id (localStorage s') ->
  ls_webauthn_raw_id (localStorage s) = ls_webauthn_raw_id (localStorage s') ->
  authResult P action s = authResult P action s'.
Proof.
  intros Hid Hraw. unfold authResult. run_handler.
  repeat (cbn; rewrite ?Hid, ?Hraw;
          match goal with
          | |- context [match credentials_create ?P with _ => _ end] =>
              destruct (credentials_create P)
          | |- context [match credentials_get ?P with _ => _ end] =>
              destruct (credentials_get P)
          | |- context [if ?b then _ else _] => destruct b eqn:?
          end); reflexivity.
Qed.

(** Unfolds a guarded operation around its call of the step. *)
Ltac run_guarded :=
  cbv [after completes handle registerCurrentLocation deleteLocation
       togglePrivateMode bind ret get update];
  rewrite ?(fun P s => performBiometricAuth_run P ACTION_PRIVATE s
                                                action_private_not_setup),
          ?(fun P s => performBiometricAuth_run P ACTION_REGISTER s
                                                action_register_not_setup),
          ?(fun P s => performBiometricAuth_run P ACTION_DELETE s
                                                action_delete_not_setup);
  cbn [fst snd].

Lemma deleteLocation_run (P : Platform) (id : Z) (s : App) :
  deleteLocation P id s
  = (Normal tt,
     if biometricEnabled s then
       if authResult P ACTION_DELETE s
       then setRegisteredLocations
              (deleteLocationList id (registeredLocations s))
              (with_authenticating false s)
       else with_authenticating false s
     else with_currentPage pSettings s).
Proof.
  run_guarded. destruct (biometricEnabled s); [|reflexivity].
  run_guarded. destruct (authResult P ACTION_DELETE s); reflexivity.
Qed.

Lemma togglePrivateMode_run (P : Platform) (s : App) :
  togglePrivateMode P s
  = (Normal tt,
     if negb (privateMode s) then
       if biometricEnabled s then
         if authResult P ACTION_PRIVATE s
         then with_privateMode true (with_authenticating false s)
         else with_authenticating false s
       else with_currentPage pSettings s
     else with_privateMode false s).
Proof.
  run_guarded. destruct (privateMode s); [reflexivity|]. cbn [negb].
  destruct (biometricEnabled s); [|reflexivity].
  run_guarded. destruct (authResult P ACTION_PRIVATE s); reflexivity.
Qed.

Lemma registerCurrentLocation_run (P : Platform) (s : App) :
  registerCurrentLocation P s
  = (Normal tt,
     match currentLocation s with
     | Some (lat, lon) =>
         if truthy_string (newLocationName s) then
           if biometricEnabled s then
             if authResult P ACTION_REGISTER s
             then with_newLocationRadius 150%R
                    (with_newLocationName EmptyString
                       (setRegisteredLocations
                          (registeredLocations s
                           ++ [Location.mk (Date_now P) (newLocationName s)
                                           lat lon (newLocationRadius s)
                                           (newLocationType s)])
                          (with_authenticating false s)))
             else with_authenticating false s
           else with_currentPage pSettings s
         else s
     | None => s
     end).
Proof.
  run_guarded. destruct (currentLocation s) as [[lat lon]|]; [|reflexivity].
  destruct (truthy_string (newLocationName s)); [|reflexivity].
  destruct (biometricEnabled s); [|reflexivity].
  run_guarded. destruct (authResult P ACTION_REGISTER s); reflexivity.
Qed.

Lemma deleteTodo_run (P : Platform) (id : Z) (s : App) :
  deleteTodo P id s
  = (Normal tt,
     if window_confirm P AskDeleteTask
     then setTodos (deleteTodoList id (todos s)) s
     else s).
Proof.
  run_handler. destruct (window_confirm P AskDeleteTask); reflexivity.
Qed.

(* ================================================================== *)
(** * TaskStore and GeofenceStore: removal *)
(* ================================================================== *)

Lemma filter_idempotent (A : Type) (p : A -> bool) (l : list A) :
  filter p (filter p l) = filter p l.
Proof.
  induction l as [|x l IH]; cbn; [reflexivity|].
  destruct (p x) eqn:E; cbn; rewrite ?E, IH; reflexivity.
Qed.

Lemma filter_all (A : Type) (p : A -> bool) (l : list A) :
  (forall x, In x l -> p x = true) -> filter p l = l.
Proof.
  induction l as [|x l IH]; cbn; intro H; [reflexivity|].
  rewrite (H x (or_introl eq_refl)), IH; [reflexivity|].
  intros y Hy. apply H. now right.
Qed.

Lemma deleteTodoList_absent (id : Z) (l : list Todo.t) :
  (forall todo, In todo l -> Todo.id todo <> id) -> deleteTodoList id l = l.
Proof.
  intro H. apply filter_all. intros todo Hin.
  apply negb_true_iff, Z.eqb_neq, (H todo Hin).
Qed.

Lemma deleteLocationList_absent (id : Z) (l : list Location.t) :
  (forall loc, In loc l -> Location.id loc <> id) -> deleteLocationList id l = l.
Proof.
  intro H. apply filter_all. intros loc Hin.
  apply negb_true_iff, Z.eqb_neq, (H loc Hin).
Qed.

(** A second [deleteTodo(id)] on a list that went through the filter. *)
Lemma deleteTodo_after_removal (P : Platform) (id : Z) (s : App) (l : list Todo.t) :
  todos s = deleteTodoList id l ->
  todos (after (deleteTodo P id) s) = todos s.
Proof.
  intro H. unfold after. rewrite deleteTodo_run. cbn [snd].
  destruct (window_confirm P AskDeleteTask); [|reflexivity].
  rewrite todos_setTodos, H. apply filter_idempotent.
Qed.

(** A second [deleteLocation(id)], likewise. *)
Lemma deleteLocation_after_removal
      (P : Platform) (id : Z) (s : App) (l : list Location.t) :
  registeredLocations s = deleteLocationList id l ->
  registeredLocations (after (deleteLocation P id) s) = registeredLocations s.
Proof.
  intro H. unfold after. rewrite deleteLocation_run. cbn [snd].
  destruct (biometricEnabled s); [|reflexivity].
  destruct (authResult P ACTION_DELETE s); [|reflexivity].
  rewrite registeredLocations_setRegisteredLocations.
  cbn [registeredLocations with_authenticating]. rewrite H.
  apply filter_idempotent.
Qed.

(** The zone list after one [deleteLocation(id)]: untouched, or filtered. *)
Lemma deleteLocation_cases (P : Platform) (id : Z) (s : App) :
  registeredLocations (after (deleteLocation P id) s) = registeredLocations s
  \/ registeredLocations (after (deleteLocation P id) s)
     = deleteLocationList id (registeredLocations s).
Proof.
  unfold after. rewrite deleteLocation_run. cbn [snd].
  destruct (biometricEnabled s); [|now left].
  destruct (authResult P ACTION_DELETE s); [|now left].
  right. apply registeredLocations_setRegisteredLocations.
Qed.

(** The zone list after one [deleteLocation(id)], by its gate. *)
Lemma deleteLocation_gate (P : Platform) (id : Z) (s : App) :
  registeredLocations (after (deleteLocation P id) s)
  = if (biometricEnabled s && authResult P ACTION_DELETE s)%bool
    then deleteLocationList id (registeredLocations s)
    else registeredLocations s.
Proof.
  unfold after. rewrite deleteLocation_run. cbn [snd].
  destruct (biometricEnabled s); [|reflexivity].
  destruct (authResult P ACTION_DELETE s); [|reflexivity].
  apply registeredLocations_setRegisteredLocations.
Qed.

(** The gate of a second [deleteLocation] under the same platform answers
    decides as the gate of the first. *)
Lemma deleteLocation_same_gate (P : Platform) (id : Z) (s : App) :
  biometricEnabled (after (deleteLocation P id) s) = biometricEnabled s
  /\ authResult P ACTION_DELETE (after (deleteLocation P id) s)
     = authResult P ACTION_DELETE s.
Proof.
  unfold after. rewrite deleteLocation_run. cbn [snd].
  split.
  - destruct (biometricEnabled s) eqn:Hb;
      [destruct (authResult P ACTION_DELETE s)|];
      setter_cases; cbn; congruence.
  - apply authResult_storage;
      (destruct (biometricEnabled s);
       [destruct (authResult P ACTION_DELETE s)|]);
      setter_cases; reflexivity.
Qed.

(** C8.  Removal is idempotent and ignores an absent id, for tasks
    ([deleteTodo]) and for zones ([deleteLocation]): a second call under
    the same answers of the platform leaves the list as the first call
    left it; once a call has removed, any further call (whatever the
    platform answers) leaves the list as it is; and a call for an id that
    is not in the list completes normally and leaves the list unchanged. *)
Theorem remove_idempotent (id : Z) (s : App) :
  (forall P,
      todos (after (deleteTodo P id) (after (deleteTodo P id) s))
      = todos (after (deleteTodo P id) s))
  /\ (forall P1 P2,
         window_confirm P1 AskDeleteTask = true ->
         todos (after (deleteTodo P1 id) s) = deleteTodoList id (todos s)
         /\ todos (after (deleteTodo P2 id) (after (deleteTodo P1 id) s))
            = todos (after (deleteTodo P1 id) s))
  /\ (forall P,
         (forall todo, In todo (todos s) -> Todo.id todo <> id) ->
         completes (deleteTodo P id) s
         /\ todos (after (deleteTodo P id) s) = todos s)
  /\ (forall P,
         registeredLocations
           (after (deleteLocation P id) (after (deleteLocation P id) s))
         = registeredLocations (after (deleteLocation P id) s))
  /\ (forall P1 P2,
         biometricEnabled s = true ->
         authResult P1 ACTION_DELETE s = true ->
         registeredLocations (after (deleteLocation P1 id) s)
         = deleteLocationList id (registeredLocations s)
         /\ registeredLocations
              (after (deleteLocation P2 id) (after (deleteLocation P1 id) s))
            = registeredLocations (after (deleteLocation P1 id) s))
  /\ (forall P,
         (forall loc, In loc (registeredLocations s) -> Location.id loc <> id) ->
         completes (deleteLocation P id) s
         /\ registeredLocations (after (deleteLocation P id) s)
            = registeredLocations s).
Proof.
  repeat apply conj.
  - intro P. unfold after at 2 3. rewrite deleteTodo_run. cbn [snd].
    destruct (window_confirm P AskDeleteTask) eqn:Hc.
    + apply deleteTodo_after_removal with (l := todos s), todos_setTodos.
    + unfold after. rewrite deleteTodo_run, Hc. reflexivity.
  - intros P1 P2 Hc.
    assert (H1 : todos (after (deleteTodo P1 id) s) = deleteTodoList id (todos s)).
    { unfold after. rewrite deleteTodo_run, Hc. apply todos_setTodos. }
    split; [exact H1|].
    apply deleteTodo_after_removal with (l := todos s), H1.
  - intros P Habs. split.
    + exists tt. rewrite deleteTodo_run. reflexivity.
    + unfold after. rewrite deleteTodo_run. cbn [snd].
      destruct (window_confirm P AskDeleteTask); [|reflexivity].
      rewrite todos_setTodos. apply deleteTodoList_absent, Habs.
  - intro P.
    destruct (deleteLocation_same_gate P id s) as [Hb Ha].
    rewrite (deleteLocation_gate P id (after (deleteLocation P id) s)), Hb, Ha.
    pose proof (deleteLocation_gate P id s) as H1.
    destruct (biometricEnabled s && authResult P ACTION_DELETE s)%bool;
      [|reflexivity].
    rewrite H1. apply filter_idempotent.
  - intros P1 P2 Hb Ha.
    assert (H1 : registeredLocations (after (deleteLocation P1 id) s)
                 = deleteLocationList id (registeredLocations s)).
    { unfold after. rewrite deleteLocation_run, Hb, Ha.
      apply registeredLocations_setRegisteredLocations. }
    split; [exact H1|].
    apply deleteLocation_after_removal with (l := registeredLocations s), H1.
  - intros P Habs. split.
    + exists tt. rewrite deleteLocation_run. reflexivity.
    + destruct (deleteLocation_cases P id s) as [H|H]; [exact H|].
      rewrite H. apply deleteLocationList_absent, Habs.
Qed.

(** Witness of C8 on the sample task: the first call is confirmed, the
    second is not. *)
Lemma remove_idempotent_witness :
  window_confirm acceptingPlatform AskDeleteTask = true
  /\ todos (after (deleteTodo refusingPlatform 2)
                  (after (deleteTodo acceptingPlatform 2)
                         (mount refusingPlatform sampleStorage)))
     = todos (after (deleteTodo acceptingPlatform 2)
                    (mount refusingPlatform sampleStorage)).
Proof.
  split; [reflexivity|].
  destruct (remove_idempotent 2 (mount refusingPlatform sampleStorage))
    as (_ & Honce & _).
  exact (proj2 (Honce acceptingPlatform refusingPlatform eq_refl)).
Defined.

(* ================================================================== *)
(** * AuthGate: what the gate protects *)
(* ================================================================== *)

(** Every handler but the three of the gate leaves [privateMode] and
    [biometricEnabled] alone. *)
Lemma handle_keeps_gate (P : Platform) (i : Intent) (s : App) :
  i <> ITogglePrivateMode -> i <> IEnableBiometric -> i <> IResetCredential ->
  privateMode (after (handle P i) s) = privateMode s
  /\ biometricEnabled (after (handle P i) s) = biometricEnabled s.
Proof.
  intros Ht He Hr.
  destruct i; try congruence; clear Ht He Hr;
    try (unfold after, handle;
         rewrite ?registerCurrentLocation_run, ?deleteLocation_run, ?deleteTodo_run;
         cbn [snd]);
    try (run_handler; cbn);
    repeat match goal with
           | |- context [match ?x with _ => _ end] =>
               match type of x with
               | bool => destruct x eqn:?
               | option _ => destruct x as [[? ?]|]
               | option _ => destruct x
               end
           end;
    setter_cases; cbn; split; congruence.
Qed.

(** With no credential registered and private mode off, every event but
    a registration leaves both as they are. *)
Lemma unregistered_step (P : Platform) (i : Intent) (s : App) :
  i <> IEnableBiometric ->
  biometricEnabled s = false -> privateMode s = false ->
  biometricEnabled (after (handle P i) s) = false
  /\ privateMode (after (handle P i) s) = false.
Proof.
  intros He Hb Hp.
  destruct i;
    try (match goal with
         | |- context [handle P ?j] =>
             destruct (@handle_keeps_gate P j s) as [H1 H2];
             [discriminate..|rewrite H1, H2; split; assumption]
         end).
  - unfold after; cbn [handle].
    rewrite togglePrivateMode_run, Hp, Hb. cbn.
    split; assumption.
  - congruence.
  - run_handler. destruct (window_confirm P AskResetCredential); cbn;
      [setter_cases; cbn|]; split; congruence.
Qed.

Lemma unregistered_run (events : list (Platform * Intent)) (s : App) :
  forallb (fun event => negb (isRegistration event)) events = true ->
  biometricEnabled s = false -> privateMode s = false ->
  biometricEnabled (run events s) = false
  /\ privateMode (run events s) = false.
Proof.
  revert s; induction events as [|[P i] rest IH]; intros s Hall Hb Hp.
  - split; assumption.
  - cbn in Hall. apply andb_true_iff in Hall as [Hi Hrest].
    cbn [run].
    destruct (unregistered_step P s (i := i)) as [Hb' Hp']; try assumption.
    { intros ->. discriminate. }
    apply IH; assumption.
Qed.

Lemma gate_setTodos (v : list Todo.t) (s : App) :
  privateMode (setTodos v s) = privateMode s
  /\ biometricEnabled (setTodos v s) = biometricEnabled s.
Proof. setter_cases; split; reflexivity. Qed.

Lemma gate_setRegisteredLocations (v : list Location.t) (s : App) :
  privateMode (setRegisteredLocations v s) = privateMode s
  /\ biometricEnabled (setRegisteredLocations v s) = biometricEnabled s.
Proof. setter_cases; split; reflexivity. Qed.

Lemma gate_setBiometricEnabled (v : bool) (s : App) :
  privateMode (setBiometricEnabled v s) = privateMode s
  /\ biometricEnabled (setBiometricEnabled v s) = v.
Proof.
  setter_cases; split; try reflexivity.
  symmetry. apply Bool.eqb_prop. assumption.
Qed.

Lemma privateMode_mount (P : Platform) (ls : Storage) :
  privateMode (mount P ls) = false.
Proof.
  unfold mount.
  rewrite (proj1 (gate_setRegisteredLocations _ _)).
  destruct (ls_biometricEnabled ls);
    rewrite ?(proj1 (gate_setBiometricEnabled _ _));
    destruct (ls_todos ls); rewrite ?(proj1 (gate_setTodos _ _));
    destruct (ls_locations ls); reflexivity.
Qed.

Lemma biometricEnabled_mount (P : Platform) (ls : Storage) :
  biometricEnabled (mount P ls) = truthy_flag (ls_biometricEnabled ls).
Proof.
  unfold mount.
  rewrite (proj2 (gate_setRegisteredLocations _ _)).
  destruct (ls_biometricEnabled ls) as [[|]|];
    rewrite ?(proj2 (gate_setBiometricEnabled _ _)); try reflexivity;
    destruct (ls_todos ls); rewrite ?(proj2 (gate_setTodos _ _));
    destruct (ls_locations ls); reflexivity.
Qed.

(** C4.  A guarded operation (enabling private mode, registering a
    zone, deleting a zone) whose verification fails, or that is asked
    while no credential is registered, completes normally and leaves the
    tasks, the zones, the private-mode flag and the store as they were.
    In particular, on a store where no registration was ever recorded,
    after any events that include no registration, a request for private
    mode completes, leaves private mode off and shows the settings
    page. *)
Theorem guarded_refusal_changes_nothing (P : Platform) (s : App) :
  (privateMode s = false ->
   biometricEnabled s = false \/ authResult P ACTION_PRIVATE s = false ->
   completes (togglePrivateMode P) s
   /\ untouched s (after (togglePrivateMode P) s))
  /\ (biometricEnabled s = false \/ authResult P ACTION_REGISTER s = false ->
      completes (registerCurrentLocation P) s
      /\ untouched s (after (registerCurrentLocation P) s))
  /\ (forall id,
         biometricEnabled s = false \/ authResult P ACTION_DELETE s = false ->
         completes (deleteLocation P id) s
         /\ untouched s (after (deleteLocation P id) s))
  /\ (forall P0 ls events,
         truthy_flag (ls_biometricEnabled ls) = false ->
         forallb (fun event => negb (isRegistration event)) events = true ->
         completes (togglePrivateMode P) (run events (mount P0 ls))
         /\ privateMode (after (togglePrivateMode P) (run events (mount P0 ls)))
            = false
         /\ currentPage (after (togglePrivateMode P) (run events (mount P0 ls)))
            = pSettings).
Proof.
  unfold untouched, completes, after.
  repeat apply conj.
  - intros Hp Hfail. rewrite togglePrivateMode_run, Hp. cbn [negb fst snd].
    split; [eauto|].
    destruct (biometricEnabled s) eqn:Hb.
    + destruct Hfail as [Hfail|Hfail]; [discriminate|]. rewrite Hfail.
      cbn. repeat split; congruence.
    + cbn. repeat split; congruence.
  - intro Hfail. rewrite registerCurrentLocation_run. cbn [fst snd].
    split; [eauto|].
    destruct (currentLocation s) as [[lat lon]|]; [|repeat split].
    destruct (truthy_string (newLocationName s)); [|repeat split].
    destruct (biometricEnabled s) eqn:Hb.
    + destruct Hfail as [Hfail|Hfail]; [discriminate|]. rewrite Hfail.
      cbn. repeat split; congruence.
    + cbn. repeat split; congruence.
  - intros id Hfail. rewrite deleteLocation_run. cbn [fst snd].
    split; [eauto|].
    destruct (biometricEnabled s) eqn:Hb.
    + destruct Hfail as [Hfail|Hfail]; [discriminate|]. rewrite Hfail.
      cbn. repeat split; congruence.
    + cbn. repeat split; congruence.
  - intros P0 ls events Hls Hev.
    destruct (unregistered_run events (mount P0 ls) Hev) as [Hb Hp].
    { rewrite biometricEnabled_mount. exact Hls. }
    { apply privateMode_mount. }
    rewrite togglePrivateMode_run, Hp, Hb. cbn.
    repeat split; eauto.
Qed.

(** Witness of C4: on a first run, with WebAuthn missing and every dialog
    dismissed, a request for private mode changes nothing. *)
Lemma guarded_refusal_changes_nothing_witness :
  privateMode (mount refusingPlatform emptyStorage) = false
  /\ (biometricEnabled (mount refusingPlatform emptyStorage) = false
      \/ authResult refusingPlatform ACTION_PRIVATE
                    (mount refusingPlatform emptyStorage) = false)
  /\ completes (togglePrivateMode refusingPlatform)
               (mount refusingPlatform emptyStorage)
  /\ untouched (mount refusingPlatform emptyStorage)
               (after (togglePrivateMode refusingPlatform)
                      (mount refusingPlatform emptyStorage)).
Proof.
  assert (Hp : privateMode (mount refusingPlatform emptyStorage) = false)
    by apply privateMode_mount.
  assert (Hb : biometricEnabled (mount refusingPlatform emptyStorage) = false)
    by (rewrite biometricEnabled_mount; reflexivity).
  split; [exact Hp|]. split; [left; exact Hb|].
  exact (proj1 (guarded_refusal_changes_nothing
                  refusingPlatform (mount refusingPlatform emptyStorage))
               Hp (or_introl Hb)).
Defined.

(* ================================================================== *)
(** * AuthGate: assurance levels *)
(* ================================================================== *)

(** Every run of the step ends at one of its [return] statements; the
    two strong sites return [true], the refusal returns [false], and the
    caller receives the boolean without the site. *)
Lemma performBiometricAuthAt_resolves (P : Platform) (action : string) (s : App) :
  exists site result,
    fst (performBiometricAuthAt P action s) = Normal (site, result)
    /\ fst (performBiometricAuth P action s) = Normal result
    /\ (strongSite site = true -> result = true)
    /\ (site = AtDeclined -> result = false).
Proof.
  run_handler.
  platform_cases;
    match goal with
    | |- exists site result, Normal (?a, ?b) = _ /\ _ => exists a, b
    end;
    repeat split; cbn; congruence.
Qed.

Lemma performBiometricAuth_of_site
      (P : Platform) (action : string) (s : App)
      (site : ReturnSite) (result : bool) :
  fst (performBiometricAuthAt P action s) = Normal (site, result) ->
  fst (performBiometricAuth P action s) = Normal result.
Proof.
  unfold performBiometricAuth, bind, ret.
  destruct (performBiometricAuthAt P action s) as [[[site' result']|] s'];
    cbn; congruence.
Qed.

(** C5 (amended).  [performBiometricAuth] resolves to a bare boolean:
    every run ends at one of its five [return] statements and hands the
    caller the boolean only; a run that succeeds at a strong site
    (WebAuthn registration or assertion) and a run that succeeds at a
    fallback dialog hand the caller the same value [true]. *)
Theorem performBiometricAuth_outcome_is_boolean
        (P1 P2 : Platform) (action1 action2 : string) (s1 s2 : App) :
  (exists site result,
      fst (performBiometricAuthAt P1 action1 s1) = Normal (site, result)
      /\ fst (performBiometricAuth P1 action1 s1) = Normal result
      /\ (strongSite site = true -> result = true)
      /\ (site = AtDeclined -> result = false))
  /\ (forall site1 site2,
         fst (performBiometricAuthAt P1 action1 s1) = Normal (site1, true) ->
         fst (performBiometricAuthAt P2 action2 s2) = Normal (site2, true) ->
         fst (performBiometricAuth P1 action1 s1)
         = fst (performBiometricAuth P2 action2 s2)).
Proof.
  split.
  - apply performBiometricAuthAt_resolves.
  - intros site1 site2 H1 H2.
    rewrite (performBiometricAuth_of_site _ _ _ H1),
            (performBiometricAuth_of_site _ _ _ H2).
    reflexivity.
Qed.

Lemma strong_run_site :
  fst (performBiometricAuthAt strongPlatform ACTION_PRIVATE registeredStrong)
  = Normal (AtAsserted, true).
Proof. reflexivity. Qed.

Lemma simple_run_site :
  fst (performBiometricAuthAt acceptingPlatform ACTION_PRIVATE registeredSimple)
  = Normal (AtSimpleAuth, true).
Proof. reflexivity. Qed.

(** Witness of C5: an assertion by the platform authenticator, and an
    accepted fallback dialog on a browser without WebAuthn. *)
Lemma performBiometricAuth_outcome_is_boolean_witness :
  fst (performBiometricAuth strongPlatform ACTION_PRIVATE registeredStrong)
  = fst (performBiometricAuth acceptingPlatform ACTION_PRIVATE registeredSimple).
Proof.
  exact (proj2 (performBiometricAuth_outcome_is_boolean
                  strongPlatform acceptingPlatform
                  ACTION_PRIVATE ACTION_PRIVATE
                  registeredStrong registeredSimple)
               AtAsserted AtSimpleAuth strong_run_site simple_run_site).
Defined.

(** C5, as stated, fails: the outcome [true] is produced by a run that
    succeeds through WebAuthn (no dialog is accepted on that platform)
    and by a run that succeeds through the fallback dialog only (that
    platform has no WebAuthn). *)
Lemma same_outcome_for_both_assurance_levels :
  (fst (performBiometricAuthAt strongPlatform ACTION_PRIVATE registeredStrong)
   = Normal (AtAsserted, true)
   /\ strongSite AtAsserted = true
   /\ fst (performBiometricAuth strongPlatform ACTION_PRIVATE registeredStrong)
      = Normal true)
  /\ (fst (performBiometricAuthAt acceptingPlatform ACTION_PRIVATE registeredSimple)
      = Normal (AtSimpleAuth, true)
      /\ strongSite AtSimpleAuth = false
      /\ PublicKeyCredential_defined acceptingPlatform = false
      /\ fst (performBiometricAuth acceptingPlatform ACTION_PRIVATE registeredSimple)
         = Normal true).
Proof. repeat split. Qed.

(** The step itself, for any action, leaves the stores and the flags. *)
Lemma performBiometricAuth_frame (P : Platform) (action : string) (s : App) :
  untouched_but_credential s (after (performBiometricAuth P action) s).
Proof.
  unfold untouched_but_credential. run_handler.
  platform_cases; repeat split; reflexivity.
Qed.

Lemma enableBiometric_run (P : Platform) (s : App) :
  enableBiometric P s
  = (Normal tt,
     if authResult P ACTION_SETUP s
     then setBiometricEnabled true (after (performBiometricAuth P ACTION_SETUP) s)
     else after (performBiometricAuth P ACTION_SETUP) s).
Proof.
  unfold enableBiometric, bind, authResult, after, update, ret.
  destruct (performBiometricAuth_resolves P ACTION_SETUP s) as [result H].
  destruct (performBiometricAuth P ACTION_SETUP s) as [c s']; cbn in *.
  subst c. destruct result; reflexivity.
Qed.

(* ================================================================== *)
(** * AuthGate: reset *)
(* ================================================================== *)

Lemma reachable_run (events : list (Platform * Intent)) (s : App) :
  reachable s -> renderedAlong events s -> reachable (run events s).
Proof.
  revert s; induction events as [|[P i] rest IH]; intros s Hs Hr; cbn in *.
  - exact Hs.
  - destruct Hr as [Hi Hrest]. apply IH; [|exact Hrest].
    apply reachable_handle; assumption.
Qed.

(** The reset handler never writes [privateMode]. *)
Lemma resetCredential_keeps_privateMode (P : Platform) (s : App) :
  privateMode (after (resetCredential P) s) = privateMode s.
Proof.
  run_handler. destruct (window_confirm P AskResetCredential); cbn;
    [setter_cases|]; reflexivity.
Qed.

(** A confirmed reset clears the credential and the flag
    [biometricEnabled]. *)
Lemma resetCredential_clears (P : Platform) (s : App) :
  window_confirm P AskResetCredential = true ->
  biometricEnabled (after (resetCredential P) s) = false
  /\ ls_webauthn_credential_id (localStorage (after (resetCredential P) s)) = None
  /\ ls_webauthn_raw_id (localStorage (after (resetCredential P) s)) = None.
Proof.
  intro Hc. run_handler. rewrite Hc. cbn.
  setter_cases; cbn in *; repeat split.
  destruct (biometricEnabled s); [discriminate|reflexivity].
Qed.

(** Every handler but the reset keeps "private mode is on only while
    [biometricEnabled] is on". *)
Lemma gate_invariant_step (P : Platform) (i : Intent) (s : App) :
  i <> IResetCredential ->
  (privateMode s = true -> biometricEnabled s = true) ->
  privateMode (after (handle P i) s) = true ->
  biometricEnabled (after (handle P i) s) = true.
Proof.
  intros Hi Hinv.
  destruct i;
    try (match goal with
         | |- context [handle P ?j] =>
             destruct (@handle_keeps_gate P j s) as [H1 H2];
             [discriminate..|rewrite H1, H2; exact Hinv]
         end).
  - unfold after; cbn [handle]. rewrite togglePrivateMode_run. cbn [snd].
    destruct (privateMode s) eqn:Hp; cbn [negb]; [cbn; discriminate|].
    destruct (biometricEnabled s) eqn:Hb; [|cbn; congruence].
    destruct (authResult P ACTION_PRIVATE s); cbn; intros _; exact Hb.
  - unfold after at 1 2; cbn [handle]. rewrite enableBiometric_run. cbn [snd].
    destruct (performBiometricAuth_frame P ACTION_SETUP s)
      as (_ & _ & Hp & Hb & _).
    destruct (authResult P ACTION_SETUP s).
    + intros _. apply gate_setBiometricEnabled.
    + rewrite Hp, Hb. exact Hinv.
  - congruence.
Qed.

(** C3.  The code at the failing input: a session that registers a
    credential, turns private mode on and resets the credential is made
    of rendered controls only, and ends in a reachable state with
    private mode on, [biometricEnabled] off and no credential in the
    store. *)
Theorem reset_leaves_private_mode_on :
  renderedAlong resetSession (mount strongPlatform emptyStorage)
  /\ reachable (run resetSession (mount strongPlatform emptyStorage))
  /\ privateMode (run resetSession (mount strongPlatform emptyStorage)) = true
  /\ biometricEnabled (run resetSession (mount strongPlatform emptyStorage)) = false
  /\ ls_webauthn_credential_id
       (localStorage (run resetSession (mount strongPlatform emptyStorage))) = None.
Proof.
  assert (Hr : renderedAlong resetSession (mount strongPlatform emptyStorage)).
  { cbn [renderedAlong resetSession rendered]. repeat split; reflexivity. }
  split; [exact Hr|]. split.
  - apply reachable_run; [apply reachable_mount|exact Hr].
  - repeat split; reflexivity.
Qed.

(* ================================================================== *)
(** * Persistence of the task list *)
(* ================================================================== *)

Lemma setTodos_store (v : list Todo.t) (s : App) :
  (v <> [] /\ ls_todos (localStorage (setTodos v s)) = Some v)
  \/ (v = [] /\ ls_todos (localStorage (setTodos v s)) = ls_todos (localStorage s)).
Proof.
  unfold setTodos, saveTodosEffect. destruct v as [|todo rest]; cbn.
  - right. split; reflexivity.
  - left. split; [discriminate|reflexivity].
Qed.

(** What a handler does to the task list and to the key 'todos': it
    leaves both, or it stores the new list, or it empties the list and
    leaves the key. *)
Lemma handle_todos_store (P : Platform) (i : Intent) (s : App) :
  (todos (after (handle P i) s) = todos s
   /\ ls_todos (localStorage (after (handle P i) s)) = ls_todos (localStorage s))
  \/ (todos (after (handle P i) s) <> []
      /\ ls_todos (localStorage (after (handle P i) s))
         = Some (todos (after (handle P i) s)))
  \/ (todos (after (handle P i) s) = []
      /\ ls_todos (localStorage (after (handle P i) s))
         = ls_todos (localStorage s)).
Proof.
  destruct i; unfold after; cbn [handle];
    rewrite ?togglePrivateMode_run, ?registerCurrentLocation_run,
            ?deleteLocation_run, ?deleteTodo_run, ?enableBiometric_run;
    try (left; cbn [snd];
         destruct (performBiometricAuth_frame P ACTION_SETUP s)
           as (Ht & _ & _ & _ & Hs & _);
         destruct (authResult P ACTION_SETUP s);
         setter_cases; cbn; split; assumption);
    try run_handler;
    repeat (cbn -[setTodos];
            match goal with
            | |- context [match ?x with _ => _ end] =>
                match type of x with
                | bool => destruct x eqn:?
                | option (R * R) => destruct x as [[? ?]|]
                | option _ => destruct x
                end
            end);
    cbn -[setTodos];
    first
      [ left; split; setter_cases; reflexivity
      | match goal with
        | |- context [setTodos ?v ?s0] =>
            rewrite !(todos_setTodos v s0);
            destruct (setTodos_store v s0) as [[Hne Hst]|[He Hst]];
            [right; left|right; right]; split; assumption
        end ].
Qed.

(** Where the saving effect runs: a handler that leaves a task list
    with tasks in it, or leaves the list as it was, keeps "reloading from
    the store reproduces the task list in memory"; a handler that empties
    the list leaves the key 'todos' as it was. *)
Lemma task_mutation_persisted (P : Platform) (i : Intent) (s : App) :
  todosPersisted s ->
  (todos (after (handle P i) s) <> [] \/ todos (after (handle P i) s) = todos s ->
   todosPersisted (after (handle P i) s))
  /\ (todos (after (handle P i) s) = [] ->
      ls_todos (localStorage (after (handle P i) s)) = ls_todos (localStorage s)).
Proof.
  unfold todosPersisted, reloadedTodos. intro Hinv.
  destruct (handle_todos_store P i s)
    as [[Ht Hs]|[[Hne Hs]|[He Hs]]]; split.
  - intros _. rewrite Hs, Ht. exact Hinv.
  - intros _. exact Hs.
  - intros _. rewrite Hs. reflexivity.
  - intro He. contradiction.
  - intros [Hne|Hsame]; [contradiction|]. rewrite Hs, Hsame. exact Hinv.
  - intros _. exact Hs.
Qed.

Lemma todosPersisted_mount (P : Platform) (ls : Storage) :
  todosPersisted (mount P ls).
Proof.
  unfold todosPersisted. rewrite todos_mount.
  unfold mount, reloadedTodos.
  destruct ls as [[[|todo rest]|] [saved|] [[|loc locs]|] credentialId rawId];
    cbn; setter_cases; cbn in *; congruence.
Qed.

(** Toggling the sample task leaves a list with a task in it. *)
Lemma task_mutation_persisted_witness :
  todosPersisted (mount refusingPlatform sampleStorage)
  /\ todosPersisted
       (after (handle refusingPlatform (IToggleComplete 2))
              (mount refusingPlatform sampleStorage)).
Proof.
  split; [apply todosPersisted_mount|].
  apply (task_mutation_persisted refusingPlatform (IToggleComplete 2)
           (todosPersisted_mount refusingPlatform sampleStorage)).
  left. unfold handle. rewrite todos_after_toggleComplete, todos_mount.
  discriminate.
Defined.

(** C6.  "After each task mutation, reloading from the store reproduces
    the task list in memory" fails for every mutation that empties a list
    that held tasks (deleting the last task, bulk-deleting when every task
    is completed): the saving effect skips the empty list
    ([if (todos.length > 0)]), the key 'todos' keeps the deleted tasks,
    and a reload shows them again. *)
Theorem emptied_list_returns_on_reload (P : Platform) (i : Intent) (s : App) :
  todosPersisted s ->
  todos s <> [] ->
  todos (after (handle P i) s) = [] ->
  reloadedTodos (localStorage (after (handle P i) s)) = todos s
  /\ ~ todosPersisted (after (handle P i) s).
Proof.
  unfold todosPersisted, reloadedTodos. intros Hinv Hheld Hemptied.
  destruct (handle_todos_store P i s)
    as [[Hsame _]|[[Hne _]|[_ Hkey]]].
  - rewrite Hsame in Hemptied. contradiction.
  - contradiction.
  - rewrite Hkey, Hemptied. split; [exact Hinv|].
    intro Hreload. apply Hheld. rewrite <- Hinv. exact Hreload.
Qed.

(** Witness of C6: the only task is deleted and the dialog confirmed. *)
Lemma emptied_list_returns_on_reload_witness :
  reloadedTodos
    (localStorage (after (handle acceptingPlatform (IDeleteTodo 2))
                         (mount refusingPlatform sampleStorage)))
  = [sampleTodo]
  /\ ~ todosPersisted (after (handle acceptingPlatform (IDeleteTodo 2))
                             (mount refusingPlatform sampleStorage)).
Proof.
  apply (@emptied_list_returns_on_reload acceptingPlatform (IDeleteTodo 2)
           (mount refusingPlatform sampleStorage)).
  - apply todosPersisted_mount.
  - discriminate.
  - reflexivity.
Defined.

(** The same for [deleteAllCompleted] when every task is completed: the
    user confirms, is told that one task was deleted, and finds it again
    after a reload. *)
Lemma bulk_deleted_tasks_return_on_reload :
  todos (mount refusingPlatform completedStorage) = [doneTodo]
  /\ todos (after (deleteAllCompleted acceptingPlatform)
                  (mount refusingPlatform completedStorage)) = []
  /\ reloadedTodos
       (localStorage (after (deleteAllCompleted acceptingPlatform)
                            (mount refusingPlatform completedStorage)))
     = [doneTodo].
Proof. repeat split. Qed.

(* ================================================================== *)
(** * GeoMath *)
(* ================================================================== *)

Section GeoMathFacts.
Local Open Scope R_scope.

(** The haversine term [a] of [calculateDistance]. *)
Let hav (lat1 lon1 lat2 lon2 : R) : R :=
  sin ((lat2 - lat1) * PI / 180 / 2) * sin ((lat2 - lat1) * PI / 180 / 2) +
  cos (lat1 * PI / 180) * cos (lat2 * PI / 180) *
  sin ((lon2 - lon1) * PI / 180 / 2) * sin ((lon2 - lon1) * PI / 180 / 2).

Lemma sin_sqr_swap (x y : R) :
  sin ((x - y) * PI / 180 / 2) * sin ((x - y) * PI / 180 / 2)
  = sin ((y - x) * PI / 180 / 2) * sin ((y - x) * PI / 180 / 2).
Proof.
  replace ((x - y) * PI / 180 / 2) with (- ((y - x) * PI / 180 / 2)) by lra.
  rewrite sin_neg. ring.
Qed.

Lemma hav_sym (lat1 lon1 lat2 lon2 : R) :
  hav lat1 lon1 lat2 lon2 = hav lat2 lon2 lat1 lon1.
Proof.
  unfold hav.
  rewrite (sin_sqr_swap lat2 lat1).
  rewrite !Rmult_assoc, (sin_sqr_swap lon2 lon1). ring.
Qed.

Lemma hav_same (lat lon : R) : hav lat lon lat lon = 0.
Proof.
  unfold hav.
  replace ((lat - lat) * PI / 180 / 2) with 0 by lra.
  replace ((lon - lon) * PI / 180 / 2) with 0 by lra.
  rewrite sin_0. ring.
Qed.

Lemma atan2_0_1 : JSMath.atan2 0 1 = 0.
Proof.
  unfold JSMath.atan2. destruct (Rlt_dec 0 1) as [_|H]; [|lra].
  replace (0 / 1) with 0 by lra. apply atan_0.
Qed.

Lemma calculateDistance_hav (lat1 lon1 lat2 lon2 : R) :
  calculateDistance lat1 lon1 lat2 lon2
  = 6371000 * (2 * JSMath.atan2 (sqrt (hav lat1 lon1 lat2 lon2))
                                (sqrt (1 - hav lat1 lon1 lat2 lon2))).
Proof. reflexivity. Qed.

Lemma calculateDistance_sym (lat1 lon1 lat2 lon2 : R) :
  calculateDistance lat1 lon1 lat2 lon2 = calculateDistance lat2 lon2 lat1 lon1.
Proof.
  rewrite !calculateDistance_hav, (hav_sym lat1 lon1 lat2 lon2). reflexivity.
Qed.

Lemma calculateDistance_same_point (lat lon : R) :
  calculateDistance lat lon lat lon = 0.
Proof.
  rewrite calculateDistance_hav, hav_same.
  replace (1 - 0) with 1 by lra.
  rewrite sqrt_0, sqrt_1, atan2_0_1. lra.
Qed.
End GeoMathFacts.

(* ================================================================== *)
(** * GeoMath in double precision *)
(* ================================================================== *)

Section GeoMathBinary64.
Import Stdlib.Floats.Floats.
Import Binary64.
Local Open Scope float_scope.

(** NaN is equal to nothing and below nothing. *)
Lemma NaN_eqb (x : float) : (nan =? x) = false.
Proof. rewrite eqb_spec. destruct (Prim2SF x); reflexivity. Qed.

Lemma NaN_leb (x : float) : (nan <=? x) = false.
Proof. rewrite leb_spec. destruct (Prim2SF x); reflexivity. Qed.

(** The table is a library with the answers of [nearestAtAntipodes]. *)
Lemma antipodesTable_nearest : nearestAtAntipodes antipodesTable.
Proof. repeat split. Qed.

(** Between (-12, -179) and (12, 1) the haversine term is the double
    that follows 1. *)
Lemma haversineTerm_antipodes (M : MathLibrary) :
  nearestAtAntipodes M ->
  haversineTerm M (-12) (-179) 12 1 = 0x1.0000000000001p+0.
Proof.
  intros (_ & Hsin & Hsin90 & Hcos1 & Hcos2). unfold haversineTerm.
  change ((12 - -12) * Math_PI / 180 / 2) with 0x1.acee9f37bebd5p-3.
  change ((1 - -179) * Math_PI / 180 / 2) with 0x1.921fb54442d18p+0.
  change (-12 * Math_PI / 180) with (-0x1.acee9f37bebd5p-3).
  change (12 * Math_PI / 180) with 0x1.acee9f37bebd5p-3.
  cbv zeta. rewrite Hsin, Hsin90, Hcos1, Hcos2. reflexivity.
Qed.

(** [1 - a] is then negative, its square root is NaN, and so is the
    distance. *)
Lemma calculateDistance_antipodes (M : MathLibrary) :
  nearestAtAntipodes M ->
  calculateDistance M (-12) (-179) 12 1 = nan.
Proof.
  intro HM. pose proof (haversineTerm_antipodes HM) as Ha.
  destruct HM as (Hatan2 & _).
  change (calculateDistance M (-12) (-179) 12 1)
    with (6371000
          * (2 * Math_atan2 M
                   (Math_sqrt (haversineTerm M (-12) (-179) 12 1))
                   (Math_sqrt (1 - haversineTerm M (-12) (-179) 12 1)))).
  rewrite Ha.
  change (Math_sqrt (1 - 0x1.0000000000001p+0)) with nan.
  rewrite Hatan2. reflexivity.
Qed.

(** C9.  In double precision [calculateDistance] yields no distance
    between the opposite points (-12, -179) and (12, 1).  With a [Math]
    library that answers with the nearest doubles at the arguments met,
    the haversine term [a] is [0x1.0000000000001p+0], greater than 1;
    [Math.sqrt(1 - a)] is NaN and the function returns NaN.  Then
    [calculateDistance(a, b) == d] is false for every number [d], the
    distance in the other direction included, and so is the zone test
    [distance <= radius] for every radius. *)
Theorem calculateDistance_antipodal_NaN (M : MathLibrary) :
  nearestAtAntipodes M ->
  haversineTerm M (-12) (-179) 12 1 = 0x1.0000000000001p+0
  /\ (1 <? haversineTerm M (-12) (-179) 12 1) = true
  /\ calculateDistance M (-12) (-179) 12 1 = nan
  /\ (forall d : float,
         (calculateDistance M (-12) (-179) 12 1 =? d) = false)
  /\ (forall radius : float,
         (calculateDistance M (-12) (-179) 12 1 <=? radius) = false).
Proof.
  intro HM.
  rewrite (calculateDistance_antipodes HM), (haversineTerm_antipodes HM).
  repeat split; [exact NaN_eqb | exact NaN_leb].
Qed.

(** Witness of C9: the table of nearest doubles. *)
Lemma calculateDistance_antipodal_NaN_witness :
  nearestAtAntipodes antipodesTable
  /\ calculateDistance antipodesTable (-12) (-179) 12 1 = nan.
Proof.
  split; [repeat split|].
  apply (@calculateDistance_antipodal_NaN antipodesTable).
  repeat split.
Defined.

End GeoMathBinary64.

(* ================================================================== *)
(** * LocationResolver *)
(* ================================================================== *)

Lemma within_contains (latitude longitude : R) (loc : Location.t) :
  within latitude longitude loc = true <-> contains latitude longitude loc.
Proof.
  unfold within, contains.
  destruct (Rle_dec _ _) as [H|H]; split; intro H'; try assumption;
    try reflexivity; try discriminate; contradiction.
Qed.

Lemma within_false (latitude longitude : R) (loc : Location.t) :
  within latitude longitude loc = false <-> ~ contains latitude longitude loc.
Proof.
  rewrite <- within_contains. destruct (within latitude longitude loc);
    split; intro H; try discriminate; try reflexivity; try congruence.
Qed.

(** The centre of a zone of radius at least zero is within it. *)
Lemma contains_centre (loc : Location.t) :
  (0 <= Location.radius loc)%R ->
  contains (Location.latitude loc) (Location.longitude loc) loc.
Proof.
  intro H. unfold contains. rewrite calculateDistance_same_point. exact H.
Qed.

(** The scan skips a prefix of zones that do not contain the point. *)
Lemma scanLocations_skip (latitude longitude : R) (pre rest : list Location.t) :
  (forall loc, In loc pre -> ~ contains latitude longitude loc) ->
  scanLocations latitude longitude (pre ++ rest)
  = scanLocations latitude longitude rest.
Proof.
  induction pre as [|loc pre IH]; intro H; cbn; [reflexivity|].
  rewrite (proj2 (within_false latitude longitude loc) (H loc (or_introl eq_refl))).
  apply IH. intros l Hl. apply H. now right.
Qed.

Lemma scanLocations_first (latitude longitude : R)
      (pre : list Location.t) (loc : Location.t) (post : list Location.t) :
  (forall l, In l pre -> ~ contains latitude longitude l) ->
  contains latitude longitude loc ->
  scanLocations latitude longitude (pre ++ loc :: post)
  = status_of_type (Location.type loc).
Proof.
  intros Hpre Hloc. rewrite scanLocations_skip by exact Hpre. cbn.
  rewrite (proj2 (within_contains latitude longitude loc) Hloc). reflexivity.
Qed.

Lemma status_of_type_not_outside (k : LocationType) : status_of_type k <> outside.
Proof. destruct k; discriminate. Qed.

Lemma status_of_type_inj (k k' : LocationType) :
  status_of_type k = status_of_type k' -> k = k'.
Proof. destruct k, k'; cbn; congruence. Qed.

Lemma scanLocations_outside (latitude longitude : R) (zones : list Location.t) :
  scanLocations latitude longitude zones = outside
  <-> (forall loc, In loc zones -> ~ contains latitude longitude loc).
Proof.
  induction zones as [|loc zones IH]; cbn.
  - split; [intros _ loc []|reflexivity].
  - destruct (within latitude longitude loc) eqn:E.
    + split.
      * intro H. exfalso. exact (status_of_type_not_outside _ H).
      * intro H. exfalso. apply (H loc (or_introl eq_refl)).
        apply within_contains, E.
    + rewrite IH. split.
      * intros H l [<-|Hl]; [apply within_false, E|apply H, Hl].
      * intros H l Hl. apply H. now right.
Qed.

(** Some zone contains the point, and then the scan stops at the first. *)
Lemma scanLocations_found (latitude longitude : R) (zones : list Location.t) :
  (exists loc, In loc zones /\ contains latitude longitude loc) ->
  exists pre loc post,
    zones = pre ++ loc :: post
    /\ (forall l, In l pre -> ~ contains latitude longitude l)
    /\ contains latitude longitude loc
    /\ scanLocations latitude longitude zones = status_of_type (Location.type loc).
Proof.
  induction zones as [|z zones IH]; intros (loc & Hin & Hc).
  - destruct Hin.
  - destruct (within latitude longitude z) eqn:E.
    + exists [], z, zones. cbn. rewrite E.
      repeat split; [intros l []|apply within_contains, E].
    + destruct IH as (pre & l & post & -> & Hpre & Hl & Hscan).
      { destruct Hin as [<-|Hin].
        - apply within_contains in Hc. congruence.
        - exists loc. split; assumption. }
      exists (z :: pre), l, post. cbn. rewrite E.
      repeat split; try assumption.
      intros l' [<-|Hl']; [apply within_false, E|apply Hpre, Hl'].
Qed.

Lemma locationStatus_after_handlePositionUpdate
      (latitude longitude accuracy : R) (s : App) :
  locationStatus (after (handlePositionUpdate latitude longitude accuracy) s)
  = scanLocations latitude longitude (registeredLocations s).
Proof. reflexivity. Qed.

(** C2.  The resolver ([handlePositionUpdate]) scans the zones in store
    order and yields the kind of the first zone whose distance from the
    sample is at most its radius; it yields [outside] exactly when no
    zone contains the sample; so of two zones of different kinds that
    both contain the sample (no earlier zone containing it), the earlier
    one decides, and swapping the two changes the result. *)
Theorem resolver_first_match (latitude longitude : R) (zones : list Location.t) :
  (forall accuracy s,
      registeredLocations s = zones ->
      locationStatus (after (handlePositionUpdate latitude longitude accuracy) s)
      = scanLocations latitude longitude zones)
  /\ (forall pre loc post,
         zones = pre ++ loc :: post ->
         (forall l, In l pre -> ~ contains latitude longitude l) ->
         contains latitude longitude loc ->
         scanLocations latitude longitude zones
         = status_of_type (Location.type loc))
  /\ ((exists loc, In loc zones /\ contains latitude longitude loc) ->
      exists pre loc post,
        zones = pre ++ loc :: post
        /\ (forall l, In l pre -> ~ contains latitude longitude l)
        /\ contains latitude longitude loc
        /\ scanLocations latitude longitude zones
           = status_of_type (Location.type loc))
  /\ (scanLocations latitude longitude zones = outside
      <-> (forall loc, In loc zones -> ~ contains latitude longitude loc))
  /\ (forall pre z1 mid z2 post,
         zones = pre ++ z1 :: mid ++ z2 :: post ->
         (forall l, In l pre -> ~ contains latitude longitude l) ->
         contains latitude longitude z1 ->
         contains latitude longitude z2 ->
         Location.type z1 <> Location.type z2 ->
         scanLocations latitude longitude zones
         = status_of_type (Location.type z1)
         /\ scanLocations latitude longitude (pre ++ z2 :: mid ++ z1 :: post)
            = status_of_type (Location.type z2)
         /\ scanLocations latitude longitude zones
            <> scanLocations latitude longitude (pre ++ z2 :: mid ++ z1 :: post)).
Proof.
  split; [|split; [|split; [|split]]].
  - intros accuracy s <-. apply locationStatus_after_handlePositionUpdate.
  - intros pre loc post -> Hpre Hloc. apply scanLocations_first; assumption.
  - apply scanLocations_found.
  - apply scanLocations_outside.
  - intros pre z1 mid z2 post -> Hpre H1 H2 Hk.
    rewrite !scanLocations_first by assumption.
    repeat split. intro H. apply Hk, status_of_type_inj, H.
Qed.

Lemma contains_homeZone : contains 36 136 homeZone.
Proof. apply (contains_centre homeZone). cbn. lra. Qed.

Lemma contains_schoolZone : contains 36 136 schoolZone.
Proof. apply (contains_centre schoolZone). cbn. lra. Qed.

(** Witness of C2: at the common centre of the two sample zones, the
    zone registered first decides. *)
Lemma resolver_first_match_witness :
  scanLocations 36 136 [homeZone; schoolZone] = home
  /\ scanLocations 36 136 [schoolZone; homeZone] = school
  /\ scanLocations 36 136 [homeZone; schoolZone]
     <> scanLocations 36 136 [schoolZone; homeZone].
Proof.
  destruct (resolver_first_match 36 136 [homeZone; schoolZone])
    as (_ & _ & _ & _ & Hswap).
  apply (Hswap [] homeZone [] schoolZone [] eq_refl).
  - intros l [].
  - exact contains_homeZone.
  - exact contains_schoolZone.
  - discriminate.
Defined.


(* ================================================================== *)
(** * The main page: the sorted list and the banner *)
(* ================================================================== *)

(** With consistent flags the comparator orders by truthiness. *)
Lemma compareCompleted_consistent (l : list Todo.t) (a b : Todo.t) :
  flagsConsistent l -> In a l -> In b l ->
  (compareCompleted a b <=? 0)%Z
  = (negb (truthy_flag (Todo.completed a)) || truthy_flag (Todo.completed b))%bool.
Proof.
  intros [H|H] Ha Hb; specialize (H a Ha) as Hca; specialize (H b Hb) as Hcb;
    unfold compareCompleted;
    destruct (Todo.completed a) as [[|]|], (Todo.completed b) as [[|]|];
    cbn; congruence.
Qed.

Lemma insertSorted_done (x : Todo.t) (open done : list Todo.t) :
  truthy_flag (Todo.completed x) = true ->
  (forall t, In t open ->
             (compareCompleted x t <=? 0)%Z = false) ->
  (forall t, In t done ->
             (compareCompleted x t <=? 0)%Z = true) ->
  insertSorted compareCompleted x (open ++ done) = open ++ x :: done.
Proof.
  intros Hx Hopen Hdone. induction open as [|y open IH]; cbn.
  - destruct done as [|d done]; [reflexivity|].
    cbn. rewrite (Hdone d (or_introl eq_refl)). reflexivity.
  - rewrite (Hopen y (or_introl eq_refl)). f_equal.
    apply IH. intros t Ht. apply Hopen. now right.
Qed.

Lemma insertSorted_open (x : Todo.t) (sorted : list Todo.t) :
  (forall t, In t sorted -> (compareCompleted x t <=? 0)%Z = true) ->
  insertSorted compareCompleted x sorted = x :: sorted.
Proof.
  intro H. destruct sorted as [|y rest]; [reflexivity|].
  cbn. rewrite (H y (or_introl eq_refl)). reflexivity.
Qed.

(** The sort of a list with consistent flags: the tasks that are not
    completed, then the completed ones, each group in list order. *)
Lemma arraySort_partition (l : list Todo.t) :
  flagsConsistent l ->
  arraySort compareCompleted l
  = filter (fun t => negb (truthy_flag (Todo.completed t))) l
    ++ filter (fun t => truthy_flag (Todo.completed t)) l.
Proof.
  intro Hc.
  assert (Hsub : forall l', incl l' l ->
            arraySort compareCompleted l'
            = filter (fun t => negb (truthy_flag (Todo.completed t))) l'
              ++ filter (fun t => truthy_flag (Todo.completed t)) l').
  { induction l' as [|x l' IH]; intro Hincl; [reflexivity|].
    assert (Hx : In x l) by (apply Hincl; now left).
    assert (Hl' : incl l' l) by (intros t Ht; apply Hincl; now right).
    cbn [arraySort fold_right filter]. fold (arraySort compareCompleted l').
    rewrite (IH Hl').
    destruct (truthy_flag (Todo.completed x)) eqn:Ex; cbn [negb].
    - apply insertSorted_done; [exact Ex| |];
        intros t Ht; apply filter_In in Ht as [Ht Hk];
        rewrite (@compareCompleted_consistent l x t Hc Hx (Hl' t Ht)), Ex; cbn;
        [apply negb_true_iff in Hk; exact Hk|exact Hk].
    - apply insertSorted_open. intros t Ht.
      assert (In t l).
      { apply in_app_or in Ht as [Ht|Ht]; apply filter_In in Ht as [Ht _];
          apply Hl', Ht. }
      rewrite (@compareCompleted_consistent l x t Hc Hx H), Ex. reflexivity. }
  apply Hsub, incl_refl.
Qed.

Lemma flagsConsistent_filter (p : Todo.t -> bool) (l : list Todo.t) :
  flagsConsistent l -> flagsConsistent (filter p l).
Proof.
  intros [H|H]; [left|right]; intros t Ht; apply filter_In in Ht as [Ht _];
    apply H, Ht.
Qed.

(** X1.  When the visible tasks do not mix an absent [completed] with
    [completed: false], the list on screen is the visible tasks that are
    not completed followed by the visible completed ones, each group in
    store order: it shows exactly the visible tasks, once each per
    occurrence, and never a hidden one. *)
Theorem sortedTodos_open_then_done (s : App) :
  flagsConsistent (filter (shown s) (todos s)) ->
  sortedTodos s
  = filter (fun t => negb (truthy_flag (Todo.completed t)))
           (filter (shown s) (todos s))
    ++ filter (fun t => truthy_flag (Todo.completed t))
              (filter (shown s) (todos s))
  /\ (forall t, In t (sortedTodos s) <-> In t (todos s) /\ shown s t = true)
  /\ List.length (sortedTodos s) = List.length (filter (shown s) (todos s)).
Proof.
  intro Hc.
  assert (E : sortedTodos s
              = filter (fun t => negb (truthy_flag (Todo.completed t)))
                       (filter (shown s) (todos s))
                ++ filter (fun t => truthy_flag (Todo.completed t))
                          (filter (shown s) (todos s))).
  { apply arraySort_partition, Hc. }
  split; [exact E|]. split.
  - intro t. rewrite E, in_app_iff, !filter_In.
    destruct (truthy_flag (Todo.completed t)); cbn; intuition congruence.
  - rewrite E, length_app, Nat.add_comm.
    symmetry. apply filter_split_length.
Qed.

Lemma todos_mount_three :
  todos (mount refusingPlatform threeTasksStorage)
  = [doneTodo; sampleTodo; workTodo].
Proof. rewrite todos_mount. reflexivity. Qed.

(** Witness of X1: at mount (outside, private mode off) of three stored
    tasks, only the task of category Other is listed. *)
Lemma sortedTodos_open_then_done_witness :
  flagsConsistent (filter (shown (mount refusingPlatform threeTasksStorage))
                          (todos (mount refusingPlatform threeTasksStorage)))
  /\ List.length (sortedTodos (mount refusingPlatform threeTasksStorage))
     = List.length (filter (shown (mount refusingPlatform threeTasksStorage))
                           (todos (mount refusingPlatform threeTasksStorage))).
Proof.
  assert (H : flagsConsistent
                (filter (shown (mount refusingPlatform threeTasksStorage))
                        (todos (mount refusingPlatform threeTasksStorage)))).
  { apply flagsConsistent_filter. left. rewrite todos_mount_three.
    intros t [<-|[<-|[<-|[]]]]; discriminate. }
  split; [exact H|].
  apply (@sortedTodos_open_then_done _ H).
Defined.


(** The banner test is "some count is positive", that is, a positive
    total. *)
Lemma hasHiddenTasks_total (s : App) :
  hasHiddenTasks s = (0 <? total (hiddenCounts s))%nat.
Proof.
  unfold hasHiddenTasks, entries, total.
  destruct (hiddenCounts s) as [[|a] [|b] [|c] [|d]]; reflexivity.
Qed.

Lemma hiddenCounts_total (s : App) :
  total (hiddenCounts s)
  = List.length (filter (fun t => negb (shown s t)) (todos s)).
Proof.
  unfold hiddenCounts, getHiddenTasksCount. rewrite fold_total. reflexivity.
Qed.

Lemma hiddenCounts_count_of (s : App) (k : Category) :
  count_of (hiddenCounts s) k
  = List.length (filter (hiddenOf (privateMode s) (locationStatus s) k) (todos s)).
Proof.
  unfold hiddenCounts, getHiddenTasksCount. rewrite fold_count_of.
  destruct k; reflexivity.
Qed.

Lemma filter_nonempty (A : Type) (p : A -> bool) (l : list A) :
  (0 < List.length (filter p l))%nat <-> exists x, In x l /\ p x = true.
Proof.
  split.
  - destruct (filter p l) as [|x rest] eqn:E; cbn; [lia|]. intros _.
    exists x. apply filter_In. rewrite E. now left.
  - intros (x & Hin & Hp).
    assert (H : In x (filter p l)) by (apply filter_In; split; assumption).
    destruct (filter p l); [destruct H|cbn; lia].
Qed.

(** X2.  The banner of hidden tasks is raised exactly when some task is
    not visible, never in private mode, and it lists exactly the
    categories that have a hidden task, each with the number of its
    hidden tasks. *)
Theorem hiddenBanner_lists_hidden (s : App) :
  (hasHiddenTasks s = true
   <-> exists t, In t (todos s) /\ shown s t = false)
  /\ (privateMode s && hasHiddenTasks s)%bool = false
  /\ (forall k n,
         In (k, n) (hiddenBanner s)
         <-> (0 < n)%nat
             /\ n = List.length
                      (filter (fun t => (Category_eqb (Todo.category t) k
                                         && negb (shown s t))%bool)
                              (todos s))).
Proof.
  assert (Hiff : hasHiddenTasks s = true
                 <-> exists t, In t (todos s) /\ shown s t = false).
  { rewrite hasHiddenTasks_total, hiddenCounts_total, Nat.ltb_lt, filter_nonempty.
    split; intros (t & Hin & Hv); exists t; split; try assumption.
    - apply negb_true_iff, Hv.
    - apply negb_true_iff, Hv. }
  assert (Hpm : privateMode s = true -> hasHiddenTasks s = false).
  { intro Hp. apply not_true_is_false. intro E.
    apply Hiff in E as (t & _ & Hv).
    unfold shown, isTaskVisible in Hv. rewrite Hp in Hv. discriminate. }
  split; [exact Hiff|]. split.
  - destruct (privateMode s) eqn:Hp; [apply Hpm; reflexivity|reflexivity].
  - intros k n.
    change (fun t => (Category_eqb (Todo.category t) k && negb (shown s t))%bool)
      with (hiddenOf (privateMode s) (locationStatus s) k).
    rewrite <- hiddenCounts_count_of.
    unfold hiddenBanner.
    destruct (hasHiddenTasks s && negb (privateMode s))%bool eqn:E.
    + rewrite filter_In. unfold entries. cbn [In snd].
      rewrite Nat.ltb_lt. split.
      * intros [[H|[H|[H|[H|[]]]]] Hn]; inversion H; subst; split;
          try assumption; reflexivity.
      * intros [Hn ->]. split; [|exact Hn]. destruct k; cbn; tauto.
    + split; [intros []|]. intros [Hn ->].
      apply andb_false_iff in E as [E|E].
      * rewrite hasHiddenTasks_total in E. apply Nat.ltb_ge in E.
        assert (count_of (hiddenCounts s) k <= total (hiddenCounts s))%nat
          by (unfold total; destruct k; cbn; lia).
        lia.
      * apply negb_false_iff in E. specialize (Hpm E).
        rewrite hasHiddenTasks_total in Hpm. apply Nat.ltb_ge in Hpm.
        assert (count_of (hiddenCounts s) k <= total (hiddenCounts s))%nat
          by (unfold total; destruct k; cbn; lia).
        lia.
Qed.


(* ================================================================== *)
(** * TaskStore: adding, editing, bulk deletion *)
(* ================================================================== *)

(** X3.  [addTodo] with a title that is not blank appends one task, with
    the fields of the form, [completed: false] and the clock's id, after
    the tasks that were there; the store then holds exactly the new list,
    whatever it held before; the form is cleared and the main page
    shown.  With a blank title (white space only) it changes nothing. *)
Theorem addTodo_appends_and_persists (P : Platform) (s : App) :
  (trim_truthy (inputTitle s) = true ->
   todos (after (addTodo P) s)
   = todos s ++ [Todo.mk (Date_now P) (inputTitle s) (inputDetail s)
                         (category s) (Date_toISOString P)
                         (Some false) (Some false)]
   /\ ls_todos (localStorage (after (addTodo P) s))
      = Some (todos (after (addTodo P) s))
   /\ inputTitle (after (addTodo P) s) = EmptyString
   /\ inputDetail (after (addTodo P) s) = EmptyString
   /\ currentPage (after (addTodo P) s) = pMain)
  /\ (trim_truthy (inputTitle s) = false -> after (addTodo P) s = s)
  /\ completes (addTodo P) s.
Proof.
  run_handler. destruct (trim_truthy (inputTitle s)); cbn -[setTodos].
  - split; [|split; [discriminate|eauto]]. intros _.
    rewrite todos_setTodos.
    destruct (setTodos_store
                (todos s ++ [Todo.mk (Date_now P) (inputTitle s) (inputDetail s)
                                     (category s) (Date_toISOString P)
                                     (Some false) (Some false)]) s)
      as [[_ Hst]|[He _]].
    + repeat split; try reflexivity. exact Hst.
    + destruct (todos s); discriminate.
  - split; [discriminate|]. split; [reflexivity|eauto].
Qed.

Lemma filledForm_title : trim_truthy (inputTitle filledForm) = true.
Proof. reflexivity. Qed.

(** Witness of X3: the filled form is added to an empty list. *)
Lemma addTodo_appends_and_persists_witness :
  trim_truthy (inputTitle filledForm) = true
  /\ ls_todos (localStorage (after (addTodo acceptingPlatform) filledForm))
     = Some (todos (after (addTodo acceptingPlatform) filledForm)).
Proof.
  split; [exact filledForm_title|].
  apply (proj1 (addTodo_appends_and_persists acceptingPlatform filledForm)
               filledForm_title).
Defined.

(** What [saveEdit] does to one task. *)
Lemma saveEditList_nth (editing : Z) (title detail : string)
      (category : Category) (l : list Todo.t) (i : nat) :
  nth_error (saveEditList editing title detail category l) i
  = option_map (fun todo =>
                  if (Todo.id todo =? editing)%Z
                  then with_edit title detail category todo
                  else todo)
               (nth_error l i).
Proof. unfold saveEditList. apply nth_error_map. Qed.

Lemma todos_after_saveEdit (s : App) :
  todos (after saveEdit s)
  = if (trim_truthy (editTitle s) && truthy_id (editingTodo s))%bool
    then match editingTodo s with
         | Some editing =>
             saveEditList editing (editTitle s) (editDetail s)
                          (editCategory s) (todos s)
         | None => todos s
         end
    else todos s.
Proof.
  run_handler.
  destruct (trim_truthy (editTitle s) && truthy_id (editingTodo s))%bool;
    [|reflexivity].
  destruct (editingTodo s); [|reflexivity].
  cbn -[setTodos]. apply todos_setTodos.
Qed.

(** X4.  [saveEdit] keeps the length and the order of the list; the task
    at each position keeps its id, createdAt, showDetail and completed,
    and is unchanged unless its id is the one being edited; with a blank
    title, or with no task being edited (or one whose id is 0), it
    changes nothing; otherwise every task with the edited id gets the
    title, detail and category of the form, and the editor closes. *)
Theorem saveEdit_frame (s : App) :
  List.length (todos (after saveEdit s)) = List.length (todos s)
  /\ (forall i todo,
         nth_error (todos s) i = Some todo ->
         exists todo',
           nth_error (todos (after saveEdit s)) i = Some todo'
           /\ Todo.id todo' = Todo.id todo
           /\ Todo.createdAt todo' = Todo.createdAt todo
           /\ Todo.showDetail todo' = Todo.showDetail todo
           /\ Todo.completed todo' = Todo.completed todo
           /\ (editingTodo s <> Some (Todo.id todo) -> todo' = todo))
  /\ ((trim_truthy (editTitle s) && truthy_id (editingTodo s))%bool = false ->
      after saveEdit s = s)
  /\ ((trim_truthy (editTitle s) && truthy_id (editingTodo s))%bool = true ->
      editingTodo (after saveEdit s) = None
      /\ forall todo',
          In todo' (todos (after saveEdit s)) ->
          editingTodo s = Some (Todo.id todo') ->
          Todo.title todo' = editTitle s
          /\ Todo.detail todo' = editDetail s
          /\ Todo.category todo' = editCategory s).
Proof.
  split; [|split; [|split]].
  - rewrite todos_after_saveEdit.
    destruct (_ && _)%bool; [|reflexivity].
    destruct (editingTodo s); [|reflexivity].
    unfold saveEditList. apply length_map.
  - intros i todo Hnth. rewrite todos_after_saveEdit.
    destruct (_ && _)%bool;
      [|exists todo; repeat split; assumption].
    destruct (editingTodo s) as [editing|];
      [|exists todo; repeat split; assumption].
    rewrite saveEditList_nth, Hnth. cbn.
    destruct (Z.eqb_spec (Todo.id todo) editing) as [E|E].
    + eexists. split; [reflexivity|]. cbn. repeat split. congruence.
    + exists todo. repeat split.
  - intro Hg. run_handler. rewrite Hg. reflexivity.
  - intro Hg. split.
    + run_handler. rewrite Hg.
      destruct (editingTodo s) eqn:Ed; [reflexivity|].
      rewrite andb_false_r in Hg. discriminate.
    + intros todo' Hin Hid. rewrite todos_after_saveEdit, Hg in Hin.
      destruct (editingTodo s) as [editing|]; [|discriminate].
      injection Hid as Hid.
      unfold saveEditList in Hin. apply in_map_iff in Hin as (todo & Heq & _).
      destruct (Z.eqb_spec (Todo.id todo) editing) as [E|E].
      * subst todo'. repeat split.
      * subst todo'. congruence.
Qed.

Lemma with_edit_same (todo : Todo.t) :
  with_edit (Todo.title todo) (Todo.detail todo) (Todo.category todo) todo = todo.
Proof. destruct todo. reflexivity. Qed.

(** X5.  Opening the editor on a task and saving without changing the
    form gives back the task list and closes the editor, provided the
    title of the task is not blank, its id is not 0 and no other task
    shares its id. *)
Theorem startEdit_saveEdit_roundtrip (s : App) (todo : Todo.t) :
  trim_truthy (Todo.title todo) = true ->
  Todo.id todo <> 0%Z ->
  (forall t, In t (todos s) -> Todo.id t = Todo.id todo -> t = todo) ->
  todos (after saveEdit (after (startEdit todo) s)) = todos s
  /\ editingTodo (after saveEdit (after (startEdit todo) s)) = None.
Proof.
  intros Htitle Hid Huniq.
  assert (Hg : (trim_truthy (editTitle (after (startEdit todo) s))
                && truthy_id (editingTodo (after (startEdit todo) s)))%bool = true).
  { cbn. rewrite Htitle. cbn. apply negb_true_iff, Z.eqb_neq, Hid. }
  split.
  - rewrite todos_after_saveEdit, Hg. cbn.
    unfold saveEditList. rewrite <- (map_id (todos s)) at 2.
    apply map_ext_in. intros t Hin.
    destruct (Z.eqb_spec (Todo.id t) (Todo.id todo)) as [E|E]; [|reflexivity].
    rewrite (Huniq t Hin E). apply with_edit_same.
  - run_handler. cbn -[setTodos]. cbn in Hg. rewrite Hg. reflexivity.
Qed.

(** Witness of X5 on the sample task. *)
Lemma startEdit_saveEdit_roundtrip_witness :
  todos (after saveEdit
               (after (startEdit sampleTodo) (mount refusingPlatform sampleStorage)))
  = todos (mount refusingPlatform sampleStorage)
  /\ editingTodo
       (after saveEdit
              (after (startEdit sampleTodo) (mount refusingPlatform sampleStorage)))
     = None.
Proof.
  apply (@startEdit_saveEdit_roundtrip
           (mount refusingPlatform sampleStorage) sampleTodo).
  - reflexivity.
  - discriminate.
  - rewrite todos_mount. intros t [<-|[]] _. reflexivity.
Defined.

(** Witness of X4: saving the opened sample task closes the editor. *)
Lemma saveEdit_frame_witness :
  editingTodo
    (after saveEdit
           (after (startEdit sampleTodo) (mount refusingPlatform sampleStorage)))
  = None.
Proof.
  apply (saveEdit_frame
           (after (startEdit sampleTodo) (mount refusingPlatform sampleStorage))).
  reflexivity.
Defined.

Lemma deleteAllCompleted_run (P : Platform) (s : App) :
  deleteAllCompleted P s
  = (Normal tt,
     if (List.length (filter (fun todo => truthy_flag (Todo.completed todo))
                             (todos s)) =? 0)%nat
     then s
     else if window_confirm P
               (AskDeleteCompleted
                  (List.length (filter (fun todo => truthy_flag (Todo.completed todo))
                                       (todos s))))
          then setTodos (deleteCompletedList (todos s)) s
          else s).
Proof.
  run_handler.
  destruct (_ =? 0)%nat; [reflexivity|].
  destruct (window_confirm P _); reflexivity.
Qed.

Lemma no_completed_left (l : list Todo.t) :
  filter (fun todo => truthy_flag (Todo.completed todo)) (deleteCompletedList l) = [].
Proof.
  unfold deleteCompletedList. induction l as [|t l IH]; [reflexivity|].
  cbn. destruct (truthy_flag (Todo.completed t)) eqn:E; cbn; [exact IH|].
  rewrite E. exact IH.
Qed.

(** X6.  [deleteAllCompleted] completes normally; with no completed task
    it changes nothing and asks nothing; when its dialog (which shows the
    number of completed tasks) is accepted, exactly the tasks that are
    not completed remain, in order, and the list shrinks by the number
    shown; when the dialog is dismissed nothing changes; and once it has
    removed, a further call changes nothing, whatever the platform
    answers. *)
Theorem deleteAllCompleted_removes_completed (P : Platform) (s : App) :
  completes (deleteAllCompleted P) s
  /\ ((forall t, In t (todos s) -> truthy_flag (Todo.completed t) = false) ->
      after (deleteAllCompleted P) s = s)
  /\ (window_confirm P
        (AskDeleteCompleted
           (List.length (filter (fun todo => truthy_flag (Todo.completed todo))
                                (todos s)))) = true ->
      todos (after (deleteAllCompleted P) s) = deleteCompletedList (todos s)
      /\ (forall t, In t (todos (after (deleteAllCompleted P) s))
                    <-> In t (todos s) /\ truthy_flag (Todo.completed t) = false)
      /\ List.length (todos s)
         = (List.length (todos (after (deleteAllCompleted P) s))
            + List.length (filter (fun todo => truthy_flag (Todo.completed todo))
                                  (todos s)))%nat
      /\ forall P',
          after (deleteAllCompleted P') (after (deleteAllCompleted P) s)
          = after (deleteAllCompleted P) s)
  /\ (window_confirm P
        (AskDeleteCompleted
           (List.length (filter (fun todo => truthy_flag (Todo.completed todo))
                                (todos s)))) = false ->
      after (deleteAllCompleted P) s = s).
Proof.
  unfold completes, after. rewrite deleteAllCompleted_run. cbn [fst snd].
  split; [eauto|]. split; [|split].
  - intro Hnone.
    replace (filter (fun todo => truthy_flag (Todo.completed todo)) (todos s))
      with (@nil Todo.t); [reflexivity|].
    symmetry. induction (todos s) as [|t l IH]; [reflexivity|].
    cbn. rewrite (Hnone t (or_introl eq_refl)). apply IH.
    intros t' Ht'. apply Hnone. now right.
  - intro Hc. rewrite Hc.
    assert (Htodos :
              todos (if (List.length
                           (filter (fun todo => truthy_flag (Todo.completed todo))
                                   (todos s)) =? 0)%nat
                     then s else setTodos (deleteCompletedList (todos s)) s)
              = deleteCompletedList (todos s)).
    { destruct (_ =? 0)%nat eqn:E; [|apply todos_setTodos].
      apply Nat.eqb_eq, length_zero_iff_nil in E.
      unfold deleteCompletedList. symmetry. apply filter_all.
      intros t Ht. apply negb_true_iff.
      destruct (truthy_flag (Todo.completed t)) eqn:Et; [|reflexivity].
      assert (In t (filter (fun todo => truthy_flag (Todo.completed todo)) (todos s)))
        by (apply filter_In; split; assumption).
      rewrite E in H. destruct H. }
    split; [exact Htodos|]. split; [|split].
    + intro t. rewrite Htodos. unfold deleteCompletedList.
      rewrite filter_In, negb_true_iff. reflexivity.
    + rewrite Htodos. unfold deleteCompletedList.
      rewrite (filter_split_length
                 (fun todo => truthy_flag (Todo.completed todo)) (todos s)).
      lia.
    + intro P'. rewrite deleteAllCompleted_run. cbn [snd].
      rewrite Htodos, no_completed_left. reflexivity.
  - intro Hc. rewrite Hc. destruct (_ =? 0)%nat; reflexivity.
Qed.

Lemma three_tasks_confirmed :
  window_confirm acceptingPlatform
    (AskDeleteCompleted
       (List.length
          (filter (fun todo => truthy_flag (Todo.completed todo))
                  (todos (mount refusingPlatform threeTasksStorage))))) = true.
Proof. reflexivity. Qed.

(** Witness of X6: of the three stored tasks the completed one goes. *)
Lemma deleteAllCompleted_removes_completed_witness :
  todos (after (deleteAllCompleted acceptingPlatform)
               (mount refusingPlatform threeTasksStorage))
  = deleteCompletedList (todos (mount refusingPlatform threeTasksStorage)).
Proof.
  destruct (deleteAllCompleted_removes_completed
              acceptingPlatform (mount refusingPlatform threeTasksStorage))
    as (_ & _ & Hyes & _).
  exact (proj1 (Hyes three_tasks_confirmed)).
Defined.

(* ================================================================== *)
(** * AuthGate: the authentication step *)
(* ================================================================== *)

Lemma authenticating_after_performBiometricAuth
      (P : Platform) (action : string) (s : App) :
  authenticating (after (performBiometricAuth P action) s) = false
  /\ currentPage (after (performBiometricAuth P action) s) = currentPage s
  /\ locationStatus (after (performBiometricAuth P action) s) = locationStatus s.
Proof.
  run_handler. platform_cases; repeat split; reflexivity.
Qed.

(** X7.  [performBiometricAuth] resolves for every action, platform and
    state (no exception escapes its [try]/[catch]); it leaves
    [authenticating] false (the [finally]); and it leaves the tasks, the
    zones, private mode, [biometricEnabled], the page, the location
    state and the three data keys of the store as they were. *)
Theorem performBiometricAuth_always_resolves
        (P : Platform) (action : string) (s : App) :
  completes (performBiometricAuth P action) s
  /\ authenticating (after (performBiometricAuth P action) s) = false
  /\ currentPage (after (performBiometricAuth P action) s) = currentPage s
  /\ locationStatus (after (performBiometricAuth P action) s) = locationStatus s
  /\ untouched_but_credential s (after (performBiometricAuth P action) s).
Proof.
  split; [apply performBiometricAuth_resolves|].
  destruct (authenticating_after_performBiometricAuth P action s)
    as (Ha & Hp & Hl).
  repeat split; try assumption; apply performBiometricAuth_frame.
Qed.

(** X8.  When the WebAuthn block succeeds the step yields [true]; a user
    who accepts every dialog passes the step whatever WebAuthn does
    (missing, failing or refusing); a user who dismisses every dialog
    passes exactly when the WebAuthn block succeeds. *)
Theorem authResult_by_dialogs (P : Platform) (action : string) (s : App) :
  (strongSuccess P action s = true -> authResult P action s = true)
  /\ ((forall q, window_confirm P q = true) -> authResult P action s = true)
  /\ ((forall q, window_confirm P q = false) ->
      authResult P action s = strongSuccess P action s).
Proof.
  unfold authResult, strongSuccess. run_handler.
  split; [|split].
  - platform_cases; cbn; intros; try congruence;
      destruct (truthy_item (ls_webauthn_raw_id (localStorage s)));
      cbn in *; congruence.
  - intro H.
    repeat (cbn; rewrite ?H;
            match goal with
            | |- context [match credentials_create ?P with _ => _ end] =>
                destruct (credentials_create P)
            | |- context [match credentials_get ?P with _ => _ end] =>
                destruct (credentials_get P)
            | |- context [if ?b then _ else _] => destruct b eqn:?
            end); reflexivity.
  - intro H.
    repeat (cbn; rewrite ?H;
            match goal with
            | |- context [match credentials_create ?P with _ => _ end] =>
                destruct (credentials_create P)
            | |- context [match credentials_get ?P with _ => _ end] =>
                destruct (credentials_get P)
            | |- context [if ?b then _ else _] => destruct b eqn:?
            end); cbn; try reflexivity; try congruence;
      destruct (truthy_item (ls_webauthn_raw_id (localStorage s)));
      cbn in *; congruence.
Qed.

(** Witness of X8: without WebAuthn, accepting the dialog is enough. *)
Lemma authResult_by_dialogs_witness :
  (forall q, window_confirm acceptingPlatform q = true)
  /\ PublicKeyCredential_defined acceptingPlatform = false
  /\ authResult acceptingPlatform ACTION_DELETE registeredSimple = true.
Proof.
  split; [reflexivity|]. split; [reflexivity|].
  apply (authResult_by_dialogs acceptingPlatform ACTION_DELETE registeredSimple).
  reflexivity.
Defined.

(** X9.  The step writes the credential keys of the store only at a
    first registration: for any action but the registration, with a
    credential id already stored, or without WebAuthn, the store is left
    as it was; at a registration with no credential id stored, a created
    credential is stored (id and raw id) and the step yields [true]. *)
Theorem credential_written_at_first_registration
        (P : Platform) (action : string) (s : App) :
  (String.eqb action ACTION_SETUP = false
   \/ truthy_item (ls_webauthn_credential_id (localStorage s)) = true
   \/ PublicKeyCredential_defined P = false ->
   localStorage (after (performBiometricAuth P action) s) = localStorage s)
  /\ (forall id raw,
         String.eqb action ACTION_SETUP = true ->
         truthy_item (ls_webauthn_credential_id (localStorage s)) = false ->
         PublicKeyCredential_defined P = true ->
         credentials_create P = Created id raw ->
         ls_webauthn_credential_id
           (localStorage (after (performBiometricAuth P action) s)) = Some id
         /\ ls_webauthn_raw_id
              (localStorage (after (performBiometricAuth P action) s)) = Some raw
         /\ authResult P action s = true).
Proof.
  unfold authResult. run_handler. split.
  - intros [H|[H|H]];
      repeat (cbn; rewrite ?H, ?andb_false_r;
              match goal with
              | |- context [match credentials_create ?P with _ => _ end] =>
                  destruct (credentials_create P)
              | |- context [match credentials_get ?P with _ => _ end] =>
                  destruct (credentials_get P)
              | |- context [if ?b then _ else _] => destruct b eqn:?
              end); cbn; rewrite ?H, ?andb_false_r; reflexivity.
  - intros id raw Ha Hc Hd Hcreate. rewrite Ha, Hd. cbn.
    rewrite Hc, Hcreate. cbn. repeat split.
Qed.

(** Witness of X9: a second registration attempt leaves the stored
    credential. *)
Lemma credential_written_at_first_registration_witness :
  truthy_item (ls_webauthn_credential_id (localStorage registeredStrong)) = true
  /\ localStorage (after (performBiometricAuth strongPlatform ACTION_SETUP)
                         registeredStrong)
     = localStorage registeredStrong.
Proof.
  split; [reflexivity|].
  apply (credential_written_at_first_registration
           strongPlatform ACTION_SETUP registeredStrong).
  right. left. reflexivity.
Defined.

(** X10.  After [togglePrivateMode], private mode is on exactly when it
    was off, [biometricEnabled] is set and the step yields [true];
    turning it off asks for no authentication and changes no other cell;
    in every case the handler completes and leaves tasks, zones,
    [biometricEnabled] and the store as they were. *)
Theorem togglePrivateMode_outcome (P : Platform) (s : App) :
  completes (togglePrivateMode P) s
  /\ privateMode (after (togglePrivateMode P) s)
     = (negb (privateMode s) && biometricEnabled s
        && authResult P ACTION_PRIVATE s)%bool
  /\ (privateMode s = true ->
      after (togglePrivateMode P) s = with_privateMode false s)
  /\ todos (after (togglePrivateMode P) s) = todos s
  /\ registeredLocations (after (togglePrivateMode P) s) = registeredLocations s
  /\ biometricEnabled (after (togglePrivateMode P) s) = biometricEnabled s
  /\ localStorage (after (togglePrivateMode P) s) = localStorage s.
Proof.
  unfold completes, after. rewrite togglePrivateMode_run. cbn [fst snd].
  split; [eauto|].
  destruct (privateMode s) eqn:Hp; cbn [negb andb].
  - repeat split.
  - destruct (biometricEnabled s) eqn:Hb; cbn [andb].
    + destruct (authResult P ACTION_PRIVATE s); cbn;
        repeat split; congruence.
    + cbn. repeat split; congruence.
Qed.

(** Witness of X10: private mode that is on goes off without the step. *)
Lemma togglePrivateMode_outcome_witness :
  after (togglePrivateMode refusingPlatform)
        (with_privateMode true registeredStrong)
  = with_privateMode false (with_privateMode true registeredStrong).
Proof.
  apply (togglePrivateMode_outcome refusingPlatform
                                   (with_privateMode true registeredStrong)).
  reflexivity.
Defined.

(* ================================================================== *)
(** * AuthGate: along a session *)
(* ================================================================== *)

(** Splits a handler on every test it makes. *)
Ltac handler_cases :=
  repeat match goal with
         | |- context [match ?x with _ => _ end] =>
             match type of x with
             | bool => destruct x eqn:?
             | option (R * R) => destruct x as [[? ?]|]
             | option _ => destruct x
             end
         end.

(** Only the registration and the reset write the credential keys. *)
Lemma handle_keeps_credential (P : Platform) (i : Intent) (s : App) :
  i <> IEnableBiometric -> i <> IResetCredential ->
  ls_webauthn_credential_id (localStorage (after (handle P i) s))
  = ls_webauthn_credential_id (localStorage s)
  /\ ls_webauthn_raw_id (localStorage (after (handle P i) s))
     = ls_webauthn_raw_id (localStorage s).
Proof.
  intros He Hr.
  destruct i; try congruence; clear He Hr; unfold after; cbn [handle];
    rewrite ?togglePrivateMode_run, ?registerCurrentLocation_run,
            ?deleteLocation_run, ?deleteTodo_run;
    try run_handler; cbn;
    handler_cases; setter_cases; cbn; split; reflexivity.
Qed.

(** X11.  Once [biometricEnabled] is set while no credential id is in
    the store (a registration through the fallback dialog), no sequence
    of clicks on rendered controls turns it off or stores a credential:
    the registration button is hidden while [biometricEnabled] is set,
    and the reset button is hidden while no credential id is stored. *)
Theorem fallback_registration_is_permanent
        (events : list (Platform * Intent)) (s : App) :
  biometricEnabled s = true ->
  truthy_item (ls_webauthn_credential_id (localStorage s)) = false ->
  renderedAlong events s ->
  biometricEnabled (run events s) = true
  /\ truthy_item (ls_webauthn_credential_id (localStorage (run events s))) = false
  /\ resetButtonRendered (run events s) = false.
Proof.
  revert s; induction events as [|[P i] rest IH]; intros s Hb Hc Hr.
  - cbn. unfold resetButtonRendered. rewrite Hb, Hc. repeat split.
  - cbn [run]. destruct Hr as [Hi Hrest]. apply IH; [| |exact Hrest].
    + destruct i;
        try (match goal with
             | |- context [handle P ?j] =>
                 destruct (@handle_keeps_gate P j s) as [_ H2];
                 [discriminate..|rewrite H2; exact Hb]
             end).
      * unfold after; cbn [handle]. rewrite togglePrivateMode_run. cbn [snd].
        destruct (negb (privateMode s)); [|exact Hb]. rewrite Hb.
        destruct (authResult P ACTION_PRIVATE s); exact Hb.
      * destruct Hi as [_ Hi]. congruence.
      * destruct Hi as [_ Hi]. unfold resetButtonRendered in Hi.
        rewrite Hb, Hc in Hi. discriminate.
    + destruct i;
        try (match goal with
             | |- context [handle P ?j] =>
                 destruct (@handle_keeps_credential P j s) as [H1 _];
                 [discriminate..|rewrite H1; exact Hc]
             end).
      * destruct Hi as [_ Hi]. congruence.
      * destruct Hi as [_ Hi]. unfold resetButtonRendered in Hi.
        rewrite Hb, Hc in Hi. discriminate.
Qed.

Lemma registeredSimple_enabled : biometricEnabled registeredSimple = true.
Proof. reflexivity. Qed.

Lemma registeredSimple_no_credential :
  truthy_item (ls_webauthn_credential_id (localStorage registeredSimple)) = false.
Proof. reflexivity. Qed.

(** Witness of X11: after a fallback registration, opening the settings
    page shows no reset button. *)
Lemma fallback_registration_is_permanent_witness :
  resetButtonRendered
    (run [(strongPlatform, INavigate pSettings)] registeredSimple) = false.
Proof.
  apply (@fallback_registration_is_permanent
           [(strongPlatform, INavigate pSettings)] registeredSimple
           registeredSimple_enabled registeredSimple_no_credential).
  cbn. split; exact I.
Defined.

Lemma gate_invariant_run (events : list (Platform * Intent)) (s : App) :
  forallb (fun event => negb (isReset event)) events = true ->
  (privateMode s = true -> biometricEnabled s = true) ->
  privateMode (run events s) = true -> biometricEnabled (run events s) = true.
Proof.
  revert s; induction events as [|[P i] rest IH]; intros s Hall Hinv.
  - exact Hinv.
  - cbn in Hall. apply andb_true_iff in Hall as [Hi Hrest]. cbn [run].
    apply IH; [exact Hrest|].
    apply gate_invariant_step; [|exact Hinv].
    intros ->. discriminate.
Qed.

(** X12.  From any mount, along any events that include no reset,
    private mode is on only while [biometricEnabled] is on. *)
Theorem private_mode_registered_until_reset
        (P0 : Platform) (ls : Storage) (events : list (Platform * Intent)) :
  forallb (fun event => negb (isReset event)) events = true ->
  privateMode (run events (mount P0 ls)) = true ->
  biometricEnabled (run events (mount P0 ls)) = true.
Proof.
  intro Hall. apply gate_invariant_run; [exact Hall|].
  rewrite privateMode_mount. discriminate.
Qed.

(** Witness of X12: the session of the reset scenario, cut before the
    reset. *)
Lemma private_mode_registered_until_reset_witness :
  privateMode
    (run [ (strongPlatform, INavigate pSettings);
           (strongPlatform, IEnableBiometric);
           (strongPlatform, ITogglePrivateMode) ]
         (mount strongPlatform emptyStorage)) = true
  /\ biometricEnabled
       (run [ (strongPlatform, INavigate pSettings);
              (strongPlatform, IEnableBiometric);
              (strongPlatform, ITogglePrivateMode) ]
            (mount strongPlatform emptyStorage)) = true.
Proof.
  assert (H : privateMode
                (run [ (strongPlatform, INavigate pSettings);
                       (strongPlatform, IEnableBiometric);
                       (strongPlatform, ITogglePrivateMode) ]
                     (mount strongPlatform emptyStorage)) = true)
    by reflexivity.
  split; [exact H|].
  exact (@private_mode_registered_until_reset
           strongPlatform emptyStorage
           [ (strongPlatform, INavigate pSettings);
             (strongPlatform, IEnableBiometric);
             (strongPlatform, ITogglePrivateMode) ]
           eq_refl H).
Defined.

(* ================================================================== *)
(** * Mounting *)
(* ================================================================== *)

(** X13.  A mount starts on the main page, outside, with private mode
    off, and loads the tasks, the flag and the zones of the store (no
    tasks, flag off and the default zone when a key is absent); the
    store it leaves holds the flag and the zones in memory, and mounting
    again on that store gives the same state. *)
Theorem mount_loads_and_is_stable (P P' : Platform) (ls : Storage) :
  currentPage (mount P ls) = pMain
  /\ locationStatus (mount P ls) = outside
  /\ privateMode (mount P ls) = false
  /\ todos (mount P ls)
     = match ls_todos ls with Some saved => saved | None => [] end
  /\ biometricEnabled (mount P ls)
     = match ls_biometricEnabled ls with Some saved => saved | None => false end
  /\ registeredLocations (mount P ls)
     = match ls_locations ls with Some saved => saved | None => [jaist P] end
  /\ ls_biometricEnabled (localStorage (mount P ls))
     = Some (biometricEnabled (mount P ls))
  /\ ls_locations (localStorage (mount P ls))
     = Some (registeredLocations (mount P ls))
  /\ ls_todos (localStorage (mount P ls)) = ls_todos ls
  /\ mount P' (localStorage (mount P ls)) = mount P ls.
Proof.
  destruct ls as [[[|t l]|] [[|]|] [[|z zs]|] c r];
    cbv -[jaist]; repeat split.
Qed.

(* ================================================================== *)
(** * TaskStore: the ids *)
(* ================================================================== *)

Lemma ids_toggleCompleteList (id : Z) (l : list Todo.t) :
  map Todo.id (toggleCompleteList id l) = map Todo.id l.
Proof.
  unfold toggleCompleteList, toggled. rewrite map_map. apply map_ext.
  intro t. destruct (Todo.id t =? id)%Z; reflexivity.
Qed.

Lemma ids_toggleDetailList (id : Z) (l : list Todo.t) :
  map Todo.id (toggleDetailList id l) = map Todo.id l.
Proof.
  unfold toggleDetailList. rewrite map_map. apply map_ext.
  intro t. destruct (Todo.id t =? id)%Z; reflexivity.
Qed.

Lemma ids_saveEditList (editing : Z) (title detail : string)
      (category : Category) (l : list Todo.t) :
  map Todo.id (saveEditList editing title detail category l) = map Todo.id l.
Proof.
  unfold saveEditList. rewrite map_map. apply map_ext.
  intro t. destruct (Todo.id t =? editing)%Z; reflexivity.
Qed.

(** Distinct keys stay distinct when elements are dropped. *)
Lemma distinct_keys_filter (A K : Type) (key : A -> K) (keep : A -> bool) :
  forall l : list A,
    NoDup (map key l) -> NoDup (map key (filter keep l)).
Proof.
  intro l. induction l as [|a l IH]; cbn; intro Hd.
  - constructor.
  - apply NoDup_cons_iff in Hd as [Hfresh Hrest].
    destruct (keep a); cbn; [|exact (IH Hrest)].
    apply NoDup_cons_iff. split; [|exact (IH Hrest)].
    contradict Hfresh.
    apply in_map_iff in Hfresh as (b & Hkey & Hb).
    apply filter_In in Hb as [Hb _].
    apply in_map_iff. exists b. split; assumption.
Qed.

Lemma NoDup_snoc (A : Type) (l : list A) (x : A) :
  ~ In x l -> NoDup l -> NoDup (l ++ [x]).
Proof.
  intros Hx Hl. induction l as [|y l IH]; cbn.
  - constructor; [intros []|constructor].
  - inversion Hl as [|? ? Hy Hl']; subst. constructor.
    + rewrite in_app_iff. intros [H|[H|[]]]; [contradiction|].
      apply Hx. left. symmetry. exact H.
    + apply IH; [|exact Hl']. intro H. apply Hx. now right.
Qed.

(** The task list a handler leaves: the list it found, one of the five
    rewritings of it, or the list with the new task appended. *)
Lemma handle_todos_cases (P : Platform) (i : Intent) (s : App) :
  todos (after (handle P i) s) = todos s
  \/ (exists id, todos (after (handle P i) s) = toggleCompleteList id (todos s))
  \/ (exists id, todos (after (handle P i) s) = toggleDetailList id (todos s))
  \/ (exists editing title detail category,
         todos (after (handle P i) s)
         = saveEditList editing title detail category (todos s))
  \/ (exists p, todos (after (handle P i) s) = filter p (todos s))
  \/ (i = IAddTodo
      /\ todos (after (handle P i) s)
         = todos s ++ [Todo.mk (Date_now P) (inputTitle s) (inputDetail s)
                               (category s) (Date_toISOString P)
                               (Some false) (Some false)]).
Proof.
  destruct i; unfold after; cbn [handle];
    rewrite ?togglePrivateMode_run, ?registerCurrentLocation_run,
            ?deleteLocation_run, ?deleteTodo_run, ?enableBiometric_run,
            ?deleteAllCompleted_run;
    try (left; cbn [snd];
         destruct (performBiometricAuth_frame P ACTION_SETUP s) as (Ht & _);
         destruct (authResult P ACTION_SETUP s);
         rewrite ?todos_setBiometricEnabled; exact Ht);
    try run_handler; cbn -[setTodos];
    handler_cases; cbn -[setTodos];
    first
      [ left; setter_cases; reflexivity
      | rewrite todos_setTodos; unfold deleteTodoList, deleteCompletedList;
        eauto 12 ].
Qed.

(** X14.  Every handler keeps the ids of the tasks pairwise distinct,
    provided that, for [addTodo], the clock's [Date.now()] is not the id
    of a task already in the list. *)
Theorem task_ids_stay_distinct (P : Platform) (i : Intent) (s : App) :
  NoDup (taskIds s) ->
  (i = IAddTodo -> ~ In (Date_now P) (taskIds s)) ->
  NoDup (taskIds (after (handle P i) s)).
Proof.
  unfold taskIds. intros Hnd Hnew.
  destruct (handle_todos_cases P i s)
    as [H|[[id H]|[[id H]|[(e & t & d & c & H)|[[p H]|[Hi H]]]]]];
    rewrite H.
  - exact Hnd.
  - rewrite ids_toggleCompleteList. exact Hnd.
  - rewrite ids_toggleDetailList. exact Hnd.
  - rewrite ids_saveEditList. exact Hnd.
  - apply distinct_keys_filter, Hnd.
  - rewrite map_app. cbn. apply NoDup_snoc; [apply Hnew, Hi|exact Hnd].
Qed.

Lemma three_tasks_distinct :
  NoDup (taskIds (mount refusingPlatform threeTasksStorage)).
Proof.
  unfold taskIds. rewrite todos_mount_three. cbn.
  repeat constructor; cbn; intuition discriminate.
Qed.

(** Witness of X14: toggling one of the three stored tasks. *)
Lemma task_ids_stay_distinct_witness :
  NoDup (taskIds (after (handle refusingPlatform (IToggleComplete 3))
                        (mount refusingPlatform threeTasksStorage))).
Proof.
  apply (@task_ids_stay_distinct refusingPlatform (IToggleComplete 3)
           (mount refusingPlatform threeTasksStorage) three_tasks_distinct).
  discriminate.
Defined.


(* ================================================================== *)
(** * GeofenceStore: persistence and registration *)
(* ================================================================== *)

Lemma setRegisteredLocations_store (v : list Location.t) (s : App) :
  (v <> [] /\ ls_locations (localStorage (setRegisteredLocations v s)) = Some v)
  \/ (v = []
      /\ ls_locations (localStorage (setRegisteredLocations v s))
         = ls_locations (localStorage s)).
Proof.
  unfold setRegisteredLocations, saveLocationsEffect.
  destruct v as [|loc rest]; cbn.
  - right. split; reflexivity.
  - left. split; [discriminate|reflexivity].
Qed.

(** What a handler does to the zones and to the key 'locations'. *)
Lemma handle_locations_store (P : Platform) (i : Intent) (s : App) :
  (registeredLocations (after (handle P i) s) = registeredLocations s
   /\ ls_locations (localStorage (after (handle P i) s))
      = ls_locations (localStorage s))
  \/ (registeredLocations (after (handle P i) s) <> []
      /\ ls_locations (localStorage (after (handle P i) s))
         = Some (registeredLocations (after (handle P i) s)))
  \/ (registeredLocations (after (handle P i) s) = []
      /\ ls_locations (localStorage (after (handle P i) s))
         = ls_locations (localStorage s)).
Proof.
  destruct i; unfold after; cbn [handle];
    rewrite ?togglePrivateMode_run, ?registerCurrentLocation_run,
            ?deleteLocation_run, ?deleteTodo_run, ?enableBiometric_run,
            ?deleteAllCompleted_run;
    try (left; cbn [snd];
         destruct (performBiometricAuth_frame P ACTION_SETUP s)
           as (_ & Hz & _ & _ & _ & Hs & _);
         destruct (authResult P ACTION_SETUP s);
         setter_cases; cbn; split; assumption);
    try run_handler; cbn -[setRegisteredLocations];
    handler_cases; cbn -[setRegisteredLocations];
    first
      [ left; split; setter_cases; reflexivity
      | match goal with
        | |- context [setRegisteredLocations ?v ?s0] =>
            rewrite !(registeredLocations_setRegisteredLocations v s0);
            destruct (setRegisteredLocations_store v s0) as [[Hne Hst]|[He Hst]];
            [right; left|right; right]; split; assumption
        end ].
Qed.

(** X15.  After a mount the key 'locations' holds the zones in memory;
    every handler keeps it so when it leaves a zone list that is not
    empty or is the one it found; a deletion that empties the zone list
    leaves the key as it was (the deleted zone comes back on reload). *)
Theorem zones_persisted (P : Platform) (i : Intent) (s : App) :
  locationsPersisted s ->
  (registeredLocations (after (handle P i) s) <> []
   \/ registeredLocations (after (handle P i) s) = registeredLocations s ->
   locationsPersisted (after (handle P i) s))
  /\ (registeredLocations (after (handle P i) s) = [] ->
      ls_locations (localStorage (after (handle P i) s))
      = ls_locations (localStorage s))
  /\ (forall P0 ls, locationsPersisted (mount P0 ls)).
Proof.
  unfold locationsPersisted. intro Hinv.
  split; [|split].
  - destruct (handle_locations_store P i s) as [[Hz Hs]|[[Hne Hs]|[He Hs]]].
    + intros _. rewrite Hs, Hz. exact Hinv.
    + intros _. exact Hs.
    + intros [Hne|Hsame]; [contradiction|]. rewrite Hs, Hsame. exact Hinv.
  - destruct (handle_locations_store P i s) as [[Hz Hs]|[[Hne Hs]|[He Hs]]];
      intro He'; try exact Hs. contradiction.
  - intros P0 ls.
    destruct ls as [[[|t l]|] [[|]|] [[|z zs]|] c r];
      cbv -[jaist]; reflexivity.
Qed.

Lemma locationsPersisted_fresh :
  locationsPersisted (mount strongPlatform emptyStorage).
Proof. reflexivity. Qed.

(** Witness of X15: a position sample on a fresh mount. *)
Lemma zones_persisted_witness :
  locationsPersisted (mount strongPlatform emptyStorage)
  /\ locationsPersisted
       (after (handle strongPlatform (IPositionUpdate 36 136 10))
              (mount strongPlatform emptyStorage)).
Proof.
  split; [exact locationsPersisted_fresh|].
  apply (proj1 (@zones_persisted strongPlatform (IPositionUpdate 36 136 10)
                  (mount strongPlatform emptyStorage) locationsPersisted_fresh)).
  right. reflexivity.
Defined.

(** X16.  A zone registered at the current location with a radius that
    is not negative is appended to the zones and stored; from then on a
    sample at the same coordinates never resolves to [outside], and it
    resolves to the kind of the new zone when none of the earlier zones
    contains it. *)
Theorem registered_zone_contains_its_centre
        (P : Platform) (s : App) (lat lon : R) :
  currentLocation s = Some (lat, lon) ->
  truthy_string (newLocationName s) = true ->
  biometricEnabled s = true ->
  authResult P ACTION_REGISTER s = true ->
  (0 <= newLocationRadius s)%R ->
  registeredLocations (after (registerCurrentLocation P) s)
  = registeredLocations s
    ++ [Location.mk (Date_now P) (newLocationName s) lat lon
                    (newLocationRadius s) (newLocationType s)]
  /\ locationsPersisted (after (registerCurrentLocation P) s)
  /\ (forall accuracy,
         locationStatus (after (handlePositionUpdate lat lon accuracy)
                               (after (registerCurrentLocation P) s))
         <> outside)
  /\ ((forall l, In l (registeredLocations s) -> ~ contains lat lon l) ->
      forall accuracy,
        locationStatus (after (handlePositionUpdate lat lon accuracy)
                              (after (registerCurrentLocation P) s))
        = status_of_type (newLocationType s)).
Proof.
  intros Hloc Hname Hb Ha Hr.
  assert (Hz : registeredLocations (after (registerCurrentLocation P) s)
               = registeredLocations s
                 ++ [Location.mk (Date_now P) (newLocationName s) lat lon
                                 (newLocationRadius s) (newLocationType s)]).
  { unfold after. rewrite registerCurrentLocation_run, Hloc, Hname, Hb, Ha.
    cbn -[setRegisteredLocations].
    apply registeredLocations_setRegisteredLocations. }
  assert (Hc : contains lat lon
                 (Location.mk (Date_now P) (newLocationName s) lat lon
                              (newLocationRadius s) (newLocationType s))).
  { apply (contains_centre
             (Location.mk (Date_now P) (newLocationName s) lat lon
                          (newLocationRadius s) (newLocationType s))), Hr. }
  split; [exact Hz|]. split; [|split].
  - unfold locationsPersisted. rewrite Hz.
    unfold after. rewrite registerCurrentLocation_run, Hloc, Hname, Hb, Ha.
    cbn -[setRegisteredLocations].
    destruct (setRegisteredLocations_store
                (registeredLocations s
                 ++ [Location.mk (Date_now P) (newLocationName s) lat lon
                                 (newLocationRadius s) (newLocationType s)])
                (with_authenticating false s)) as [[_ Hst]|[He _]].
    + exact Hst.
    + destruct (registeredLocations s); discriminate.
  - intros accuracy. rewrite locationStatus_after_handlePositionUpdate, Hz.
    intro Hout.
    pose proof (proj1 (scanLocations_outside _ _ _) Hout) as Hnone.
    clear Hout. rename Hnone into Hout.
    apply (Hout (Location.mk (Date_now P) (newLocationName s) lat lon
                             (newLocationRadius s) (newLocationType s))).
    + apply in_or_app. right. now left.
    + exact Hc.
  - intros Hnone accuracy.
    rewrite locationStatus_after_handlePositionUpdate, Hz.
    apply (@scanLocations_first lat lon (registeredLocations s)
             (Location.mk (Date_now P) (newLocationName s) lat lon
                          (newLocationRadius s) (newLocationType s)) []);
      assumption.
Qed.

Lemma atCampus_accepted :
  authResult strongPlatform ACTION_REGISTER atCampus = true.
Proof. reflexivity. Qed.

Lemma atCampus_radius : (0 <= newLocationRadius atCampus)%R.
Proof. cbn. lra. Qed.

(** Witness of X16: registering the campus position as the first zone. *)
Lemma registered_zone_contains_its_centre_witness :
  locationStatus
    (after (handlePositionUpdate 36.4507 136.5933 5)
           (after (registerCurrentLocation strongPlatform) atCampus))
  = status_of_type (newLocationType atCampus).
Proof.
  apply (@registered_zone_contains_its_centre
           strongPlatform atCampus 36.4507%R 136.5933%R
           eq_refl eq_refl eq_refl atCampus_accepted atCampus_radius).
  intros l [].
Defined.

(* ================================================================== *)
(** * The geofence scan in double precision *)
(* ================================================================== *)

Section GeofenceBinary64.
Import Stdlib.Floats.Floats.
Import Binary64.
Local Open Scope float_scope.

(** The zone test at the antipode fails whatever the radius. *)
Lemma within_antipode (M : MathLibrary) (loc : Location.t) :
  nearestAtAntipodes M ->
  Location.latitude loc = 12 -> Location.longitude loc = 1 ->
  within M (-12) (-179) loc = false.
Proof.
  intros HM Hlat Hlon. unfold within. rewrite Hlat, Hlon.
  rewrite (calculateDistance_antipodes HM). apply NaN_leb.
Qed.

(** X17.  In double precision the scan of [handlePositionUpdate] reports
    the sample (-12, -179) as 'outside' of every list of zones centred at
    the opposite point (12, 1), whatever their radii: the distance is NaN
    and [distance <= loc.radius] is false, also for a radius of
    [6371000 * Math.PI] and for [Infinity]. *)
Theorem antipodal_sample_is_outside
        (M : MathLibrary) (registeredLocations : list Location.t) :
  nearestAtAntipodes M ->
  Forall (fun loc => Location.latitude loc = 12
                     /\ Location.longitude loc = 1) registeredLocations ->
  scanLocations M (-12) (-179) registeredLocations = outside.
Proof.
  intros HM Hall.
  induction Hall as [|loc rest [Hlat Hlon] _ IH]; [reflexivity|].
  cbn [scanLocations].
  rewrite (within_antipode loc HM Hlat Hlon). exact IH.
Qed.

(** Witness of X17: a zone that spans the sphere and a zone without
    bound. *)
Lemma antipodal_sample_is_outside_witness :
  scanLocations antipodesTable (-12) (-179) [sphereZone; unboundedZone]
  = outside.
Proof.
  apply (@antipodal_sample_is_outside antipodesTable
           [sphereZone; unboundedZone]).
  - exact antipodesTable_nearest.
  - repeat constructor.
Defined.

End GeofenceBinary64.

(* ================================================================== *)
(** * The password version *)
(* ================================================================== *)

Module PasswordFacts.
Import PasswordVersion.

Local Open Scope R_scope.

(** The distance of a zone from the sample. *)
Local Abbreviation dist lat lon z :=
  (calculateDistance lat lon (latitude z) (longitude z)).

(** What the two variables of [detectLocationContext] hold after the
    loop: the initial values when no zone contains the sample, else the
    context and the distance of the first nearest containing zone. *)
Lemma detect_invariant (lat lon : R) (zones : list SavedLocation) :
  (fold_left (detectStep lat lon) zones (Away, None) = (Away, None)
   /\ forall z, In z zones -> ~ inside lat lon z)
  \/ (exists pre z post,
         zones = pre ++ z :: post
         /\ inside lat lon z
         /\ fold_left (detectStep lat lon) zones (Away, None)
            = (context z, Some (dist lat lon z))
         /\ (forall w, In w zones -> inside lat lon w ->
                       dist lat lon z <= dist lat lon w)
         /\ (forall w, In w pre -> inside lat lon w ->
                       dist lat lon z < dist lat lon w)).
Proof.
  induction zones as [|w zones IH] using rev_ind.
  - left. split; [reflexivity|intros z []].
  - rewrite fold_left_app. cbn [fold_left].
    destruct IH as [[Hacc Hnone]|(pre & z & post & -> & Hz & Hacc & Hmin & Hpre)];
      rewrite Hacc; unfold detectStep; cbn [snd];
      unfold inside in *;
      destruct (Rle_dec (dist lat lon w) (radius w)) as [Hw|Hw].
    + right. exists zones, w, [].
      refine (conj eq_refl (conj Hw (conj eq_refl (conj _ _)))).
      * intros u Hu Hin. apply in_app_or in Hu as [Hu|[<-|[]]]; [|lra].
        exfalso. exact (Hnone u Hu Hin).
      * intros u Hu Hin. exfalso. exact (Hnone u Hu Hin).
    + left. split; [reflexivity|].
      intros u Hu. apply in_app_or in Hu as [Hu|[<-|[]]];
        [apply Hnone, Hu|exact Hw].
    + destruct (Rlt_dec (dist lat lon w) (dist lat lon z)) as [Hlt|Hge].
      * right. exists (pre ++ z :: post), w, [].
        refine (conj eq_refl (conj Hw (conj eq_refl (conj _ _)))).
        -- intros u Hu Hin. apply in_app_or in Hu as [Hu|[<-|[]]]; [|lra].
           specialize (Hmin u Hu Hin). lra.
        -- intros u Hu Hin. specialize (Hmin u Hu Hin). lra.
      * right. exists pre, z, (post ++ [w]).
        refine (conj _ (conj Hz (conj eq_refl (conj _ Hpre)))).
        -- rewrite <- app_assoc. reflexivity.
        -- intros u Hu Hin. apply in_app_or in Hu as [Hu|[<-|[]]];
             [apply Hmin; assumption|lra].
    + right. exists pre, z, (post ++ [w]).
      refine (conj _ (conj Hz (conj eq_refl (conj _ Hpre)))).
      * rewrite <- app_assoc. reflexivity.
      * intros u Hu Hin. apply in_app_or in Hu as [Hu|[<-|[]]];
          [apply Hmin; assumption|contradiction].
Qed.

(** X18.  [detectLocationContext] of the password version is
    nearest-match: with no zone containing the sample it yields the
    away context; otherwise it yields the context of a containing zone
    that is at least as near as every containing zone and strictly
    nearer than every containing zone saved before it. *)
Theorem detectLocationContext_nearest (lat lon : R) (zones : list SavedLocation) :
  ((forall z, In z zones -> ~ inside lat lon z) ->
   detectLocationContext lat lon zones = Away)
  /\ ((exists z, In z zones /\ inside lat lon z) ->
      exists pre z post,
        zones = pre ++ z :: post
        /\ inside lat lon z
        /\ (forall w, In w zones -> inside lat lon w ->
                      dist lat lon z <= dist lat lon w)
        /\ (forall w, In w pre -> inside lat lon w ->
                      dist lat lon z < dist lat lon w)
        /\ detectLocationContext lat lon zones = context z).
Proof.
  unfold detectLocationContext.
  destruct (detect_invariant lat lon zones)
    as [[Hacc Hnone]|(pre & z & post & Hz & Hin & Hacc & Hmin & Hpre)];
    rewrite Hacc; cbn [fst]; split.
  - reflexivity.
  - intros (z & Hz & Hin). exfalso. exact (Hnone z Hz Hin).
  - intro Hnone. exfalso. apply (Hnone z); [|exact Hin].
    rewrite Hz. apply in_or_app. right. now left.
  - intros _. exists pre, z, post. repeat split; assumption.
Qed.

Lemma inside_centre (z : SavedLocation) :
  0 <= radius z -> inside (latitude z) (longitude z) z.
Proof.
  intro H. unfold inside. rewrite calculateDistance_same_point. exact H.
Qed.

(** Witness of X18: the one school zone of the sample, at its centre. *)
Lemma detectLocationContext_nearest_witness :
  exists pre z post,
    savedLocations positioned = pre ++ z :: post
    /\ inside 36 136 z
    /\ (forall w, In w (savedLocations positioned) -> inside 36 136 w ->
                  dist 36 136 z <= dist 36 136 w)
    /\ (forall w, In w pre -> inside 36 136 w -> dist 36 136 z < dist 36 136 w)
    /\ detectLocationContext 36 136 (savedLocations positioned) = context z.
Proof.
  apply (detectLocationContext_nearest 36 136 (savedLocations positioned)).
  exists (mkSavedLocation 36 136 200 AtSchool). split; [now left|].
  apply (inside_centre (mkSavedLocation 36 136 200 AtSchool)). cbn. lra.
Defined.

(** The zones that [saveCurrentLocation] keeps. *)
Local Abbreviation otherContexts s :=
  (filter (fun loc => negb (LocationContext_eqb (context loc) (locationToSave s)))
          (savedLocations s)).

Lemma LocationContext_eqb_eq (a b : LocationContext) :
  LocationContext_eqb a b = true <-> a = b.
Proof. destruct a, b; cbn; split; congruence. Qed.

(** X19.  [saveCurrentLocation] with a known position replaces the zones
    of the chosen context by one new zone at the position (radius 150
    for home, 200 otherwise), placed last; the zones of the other
    contexts stay, in order; the store holds the new list; and if every
    context had at most one zone before, it has at most one after.
    Without a position it changes nothing. *)
Theorem saveCurrentLocation_replaces_context (s : State) :
  (forall lat lon,
      currentCoords s = Some (lat, lon) ->
      savedLocations (saveCurrentLocation s)
      = otherContexts s
        ++ [mkSavedLocation lat lon
              (if LocationContext_eqb (locationToSave s) AtHome then 150 else 200)
              (locationToSave s)]
      /\ filter (fun loc => LocationContext_eqb (context loc) (locationToSave s))
                (savedLocations (saveCurrentLocation s))
         = [mkSavedLocation lat lon
              (if LocationContext_eqb (locationToSave s) AtHome then 150 else 200)
              (locationToSave s)]
      /\ storedLocations (saveCurrentLocation s)
         = Some (savedLocations (saveCurrentLocation s))
      /\ showLocationSaveDialog (saveCurrentLocation s) = false
      /\ (NoDup (map context (savedLocations s)) ->
          NoDup (map context (savedLocations (saveCurrentLocation s)))))
  /\ (currentCoords s = None -> saveCurrentLocation s = s).
Proof.
  unfold saveCurrentLocation. split.
  - intros lat lon ->. cbn. split; [reflexivity|]. split; [|split; [|split]].
    + rewrite filter_app. cbn.
      replace (LocationContext_eqb (locationToSave s) (locationToSave s))
        with true by (symmetry; apply LocationContext_eqb_eq; reflexivity).
      replace (filter _ (otherContexts s)) with (@nil SavedLocation);
        [reflexivity|].
      symmetry. induction (savedLocations s) as [|z l IH]; [reflexivity|].
      cbn. destruct (LocationContext_eqb (context z) (locationToSave s)) eqn:E;
        cbn; [exact IH|]. rewrite E. exact IH.
    + reflexivity.
    + reflexivity.
    + intro Hnd. rewrite map_app. cbn. apply NoDup_snoc.
      * intro Hin. apply in_map_iff in Hin as (z & Hz & Hin).
        apply filter_In in Hin as [_ Hne].
        apply negb_true_iff in Hne.
        assert (LocationContext_eqb (context z) (locationToSave s) = true)
          by (apply LocationContext_eqb_eq, Hz).
        congruence.
      * apply distinct_keys_filter, Hnd.
  - intros ->. reflexivity.
Qed.

(** Witness of X19: saving the school position again. *)
Lemma saveCurrentLocation_replaces_context_witness :
  storedLocations (saveCurrentLocation positioned)
  = Some (savedLocations (saveCurrentLocation positioned)).
Proof.
  apply (proj1 (saveCurrentLocation_replaces_context positioned) 36 136 eq_refl).
Defined.

(** The password check of [authenticateWithPassword] passes. *)
Local Abbreviation accepted s :=
  ((negb (truthy_item (appPassword s)) && truthy_string (password s))
   || same_password (appPassword s) (password s))%bool.

(** X20.  [authenticateWithPassword] accepts the first password that is
    not empty and stores it, and later accepts exactly the stored
    password; when it accepts, it marks the session authenticated, runs
    the pending action, closes the dialog and clears the field; when it
    refuses, it changes nothing; a stored password that is not empty is
    never replaced; and personal mode comes on only by an accepted
    password with the pending action 'personal'. *)
Theorem authenticateWithPassword_gate (s : State) :
  (accepted s = false -> authenticateWithPassword s = s)
  /\ (accepted s = true ->
      isAuthenticated (authenticateWithPassword s) = true
      /\ showPasswordDialog (authenticateWithPassword s) = false
      /\ password (authenticateWithPassword s) = EmptyString
      /\ appPassword (authenticateWithPassword s)
         = (if truthy_item (appPassword s) then appPassword s
            else Some (password s)))
  /\ (truthy_item (appPassword s) = true ->
      appPassword (authenticateWithPassword s) = appPassword s
      /\ accepted s = same_password (appPassword s) (password s))
  /\ isPersonalMode (authenticateWithPassword s)
     = (isPersonalMode s
        || (accepted s
            && match authAction s with actPersonal => true | _ => false end))%bool
  /\ savedLocations (authenticateWithPassword s) = savedLocations s.
Proof.
  unfold authenticateWithPassword.
  destruct s as [cl pm sm cc sl sd lts ia pw hs spd aa ap st].
  cbn [appPassword password authAction isPersonalMode savedLocations].
  destruct ap as [[|c0 ap]|]; destruct pw as [|c1 pw];
    cbn [truthy_item truthy_string same_password negb andb orb];
    try destruct (String.eqb _ _) eqn:Hsame;
    destruct aa; destruct pm;
    cbn; repeat split; intros; try reflexivity;
    try discriminate; try congruence.
Qed.

Lemma firstUse_accepted : accepted firstUse = true.
Proof. reflexivity. Qed.

(** Witness of X20: the first password is stored. *)
Lemma authenticateWithPassword_gate_witness :
  appPassword (authenticateWithPassword firstUse) = Some (password firstUse)
  /\ isAuthenticated (authenticateWithPassword firstUse) = true.
Proof.
  destruct (authenticateWithPassword_gate firstUse) as (_ & Hyes & _).
  destruct (Hyes firstUse_accepted) as (Ha & _ & _ & Hstore).
  split; [exact Hstore|exact Ha].
Defined.

(** X21.  The password version shows the text of a task exactly when
    personal mode is on, or the context is home, or the context is
    school and the task is a school task, or the context is the
    workplace and the task is a work task; away from every zone with
    personal mode off it lists no task at all.  Whenever it shows the
    text of a task, [isTaskVisible] of [App.tsx] shows the task in the
    matching state. *)
Theorem shownTitle_policy (s : State) (todo : Task) :
  (shownTitle s todo = Title (text todo)
   <-> isPersonalMode s = true
       \/ currentLocation s = AtHome
       \/ (currentLocation s = AtSchool /\ category todo = School)
       \/ (currentLocation s = AtWorkplace /\ category todo = Work))
  /\ (shownTitle s todo = NotListed
      <-> isPersonalMode s = false /\ currentLocation s = Away)
  /\ (forall (status : LocationStatus) (task : Todo.t),
         context_of_status status = currentLocation s ->
         Todo.category task = category todo ->
         shownTitle s todo = Title (text todo) ->
         isTaskVisible (isPersonalMode s) status task = true).
Proof.
  unfold shownTitle, shouldShowDetails, getPrivacyLevel, isTaskVisible.
  destruct (isPersonalMode s), (currentLocation s), (category todo);
    cbn; (split; [|split]);
    try (split; intro H; try discriminate; try reflexivity;
         intuition (try discriminate; try congruence); fail);
    intros status task Hs Hc; destruct status; try discriminate;
    rewrite ?Hc; cbn; intros; try reflexivity; discriminate.
Qed.

(** Witness of X21: away from every zone, the school task is not
    listed. *)
Lemma shownTitle_policy_witness :
  shownTitle positioned homework = NotListed.
Proof.
  apply (shownTitle_policy positioned homework). split; reflexivity.
Defined.

End PasswordFacts.

(* ================================================================== *)
(** * Registration, and the controls of hidden tasks *)
(* ================================================================== *)

(** X22.  [enableBiometric] completes normally; afterwards
    [biometricEnabled] is on exactly when it was on or the step yielded
    [true], and the key 'biometricEnabled' holds it if it held the flag
    before; private mode, the tasks and the zones are left as they were
    and [authenticating] is off. *)
Theorem enableBiometric_outcome (P : Platform) (s : App) :
  completes (enableBiometric P) s
  /\ biometricEnabled (after (enableBiometric P) s)
     = (biometricEnabled s || authResult P ACTION_SETUP s)%bool
  /\ (ls_biometricEnabled (localStorage s) = Some (biometricEnabled s) ->
      ls_biometricEnabled (localStorage (after (enableBiometric P) s))
      = Some (biometricEnabled (after (enableBiometric P) s)))
  /\ privateMode (after (enableBiometric P) s) = privateMode s
  /\ todos (after (enableBiometric P) s) = todos s
  /\ registeredLocations (after (enableBiometric P) s) = registeredLocations s
  /\ authenticating (after (enableBiometric P) s) = false.
Proof.
  unfold completes, after at 1 2 3 4 5 6 7.
  rewrite enableBiometric_run. cbn [fst snd].
  destruct (performBiometricAuth_frame P ACTION_SETUP s)
    as (Ht & Hz & Hp & Hb & _ & _ & Hs).
  destruct (authenticating_after_performBiometricAuth P ACTION_SETUP s)
    as (Ha & _).
  split; [eauto|].
  destruct (authResult P ACTION_SETUP s).
  - rewrite orb_true_r.
    unfold setBiometricEnabled, saveBiometricEffect.
    rewrite Hb. destruct (biometricEnabled s) eqn:Hbs; cbn;
      repeat split; try assumption; try congruence.
  - rewrite orb_false_r. repeat split; try assumption. congruence.
Qed.

(** Witness of X22: the flag and its key after a registration on a
    fresh mount. *)
Lemma enableBiometric_outcome_witness :
  ls_biometricEnabled
    (localStorage (after (enableBiometric strongPlatform)
                         (mount strongPlatform emptyStorage)))
  = Some (biometricEnabled (after (enableBiometric strongPlatform)
                                  (mount strongPlatform emptyStorage))).
Proof.
  apply (enableBiometric_outcome strongPlatform
                                 (mount strongPlatform emptyStorage)).
  reflexivity.
Defined.

(** X23.  While every task with a given id is hidden, none of the
    per-task controls for that id is rendered (completion, detail,
    edit, delete); the bulk deletion is not per task: its button is
    rendered as soon as some task, hidden or not, is completed, and a
    confirmed bulk deletion removes the hidden completed tasks too. *)
Theorem hidden_tasks_have_no_controls (s : App) (id : Z) :
  (forall t, In t (todos s) -> Todo.id t = id -> shown s t = false) ->
  ~ rendered s (IToggleComplete id)
  /\ ~ rendered s (IToggleDetail id)
  /\ ~ rendered s (IDeleteTodo id)
  /\ (forall t, Todo.id t = id -> ~ rendered s (IStartEdit t))
  /\ (forall P t,
         In t (todos s) -> Todo.id t = id ->
         truthy_flag (Todo.completed t) = true ->
         (currentPage s = pMain -> rendered s IDeleteAllCompleted)
         /\ (window_confirm P
               (AskDeleteCompleted
                  (List.length
                     (filter (fun todo => truthy_flag (Todo.completed todo))
                             (todos s)))) = true ->
             ~ In t (todos (after (deleteAllCompleted P) s)))).
Proof.
  intro Hhidden. unfold rendered, row.
  split; [|split; [|split; [|split]]].
  - intros (t & (_ & Hin & Hs & _) & Hid). rewrite (Hhidden t Hin Hid) in Hs.
    discriminate.
  - intros (t & (_ & Hin & Hs & _) & Hid & _). rewrite (Hhidden t Hin Hid) in Hs.
    discriminate.
  - intros (t & (_ & Hin & Hs & _) & Hid). rewrite (Hhidden t Hin Hid) in Hs.
    discriminate.
  - intros t Hid (_ & Hin & Hs & _). rewrite (Hhidden t Hin Hid) in Hs.
    discriminate.
  - intros P t Hin Hid Hdone. split.
    + intro Hpage. split; [exact Hpage|]. exists t. split; assumption.
    + intros Hc Hin'. unfold after in Hin'.
      rewrite deleteAllCompleted_run in Hin'. cbn [snd] in Hin'.
      rewrite Hc in Hin'.
      destruct (_ =? 0)%nat eqn:E.
      * apply Nat.eqb_eq, length_zero_iff_nil in E.
        assert (H : In t (filter (fun todo => truthy_flag (Todo.completed todo))
                                 (todos s)))
          by (apply filter_In; split; assumption).
        rewrite E in H. destruct H.
      * rewrite todos_setTodos in Hin'. unfold deleteCompletedList in Hin'.
        apply filter_In in Hin' as [_ Hn]. rewrite Hdone in Hn. discriminate.
Qed.

Lemma workTodo_hidden :
  forall t, In t (todos hiddenWork) -> Todo.id t = 4%Z -> shown hiddenWork t = false.
Proof.
  unfold hiddenWork. rewrite todos_mount_three.
  intros t [<-|[<-|[<-|[]]]] Hid; try discriminate. reflexivity.
Qed.

(** Witness of X23: the hidden work task cannot be deleted by its own
    control. *)
Lemma hidden_tasks_have_no_controls_witness :
  shown hiddenWork workTodo = false
  /\ ~ rendered hiddenWork (IDeleteTodo 4).
Proof.
  split; [reflexivity|].
  apply (@hidden_tasks_have_no_controls hiddenWork 4 workTodo_hidden).
Defined.
